(** * ScrapeHubAI: the scoring engine, the ranker, the company aggregator and
      the three-stage pipeline, embedded from [src/evaluator.py] and
      [src/agent.py].

    Texts are Python [str] values whose code points are below 256: one
    [ascii] of a Rocq [string] is one code point.  On that range the
    built-ins used by the program behave as written in [Py] below
    ([str.lower], [str.strip], [str.startswith], [in], [int], [join],
    slicing), and the regular expression classes [\d] and [\s] are the
    ASCII digits and the twelve white-space code points. *)

From Stdlib Require Import ZArith Ascii String List Bool Lia Sorted.
From Stdlib Require Import Numbers.DecimalString.
From stdpp Require Import base option list sets gmap strings.

Local Open Scope Z_scope.

(** ** Python built-ins on text and lists *)

Module Py.

Definition code (c : ascii) : N := N_of_ascii c.

(** [str.isspace] on one code point; also the class [\s] of [re]. *)
Definition is_space (c : ascii) : bool :=
  let n := code c in
  ((9 <=? n) && (n <=? 13) || (28 <=? n) && (n <=? 32)
   || (n =? 133) || (n =? 160))%N.

(** The class [\d] of [re]. *)
Definition is_digit (c : ascii) : bool :=
  let n := code c in ((48 <=? n) && (n <=? 57))%N.

(** [str.lower] on one code point: A-Z, and the accented capitals
    U+00C0..U+00DE except the multiplication sign U+00D7. *)
Definition lower_char (c : ascii) : ascii :=
  let n := code c in
  if ((65 <=? n) && (n <=? 90)
      || (192 <=? n) && (n <=? 222) && negb (n =? 215))%N
  then ascii_of_N (n + 32) else c.

Fixpoint lower (s : string) : string :=
  match s with
  | EmptyString => EmptyString
  | String c s' => String (lower_char c) (lower s')
  end.

(** [s.lstrip()], [s.rstrip()] and [s.strip()] without argument. *)
Fixpoint lstrip (s : string) : string :=
  match s with
  | String c s' => if is_space c then lstrip s' else s
  | EmptyString => EmptyString
  end.

Fixpoint rstrip (s : string) : string :=
  match s with
  | EmptyString => EmptyString
  | String c s' =>
      match rstrip s' with
      | EmptyString => if is_space c then EmptyString else String c EmptyString
      | r => String c r
      end
  end.

Definition strip (s : string) : string := rstrip (lstrip s).

(** [s.startswith(p)]. *)
Definition startswith (s p : string) : bool := String.prefix p s.

(** [needle in hay] on two strings. *)
Fixpoint contains (needle hay : string) : bool :=
  String.prefix needle hay ||
  match hay with
  | String _ hay' => contains needle hay'
  | EmptyString => false
  end.

(** [s.replace(",", "")]. *)
Fixpoint remove_commas (s : string) : string :=
  match s with
  | EmptyString => EmptyString
  | String c s' =>
      if Ascii.eqb c "," then remove_commas s' else String c (remove_commas s')
  end.

(** [sys.get_int_max_str_digits()]: the limit of CPython (3.11 and the
    security releases since 3.7.14) on the number of digits that [int]
    converts, which the program leaves at its default. *)
Definition int_max_str_digits : Z := 4300.

(** [int(s)] on a text made of digits.  [None] stands for the
    [ValueError] of an empty text and of a text of more than
    [int_max_str_digits] digits (leading zeros count); it is also the
    answer on any other character, which a group of the size patterns
    never holds (a run of [\d]). *)
Fixpoint int_digits (acc : Z) (s : string) : option Z :=
  match s with
  | EmptyString => Some acc
  | String c s' =>
      if is_digit c
      then int_digits (10 * acc + Z.of_N (code c - 48)) s'
      else None
  end.

Definition int (s : string) : option Z :=
  match s with
  | EmptyString => None
  | _ =>
      if Z.of_nat (String.length s) <=? int_max_str_digits
      then int_digits 0 s
      else None
  end.

(** [str(n)] and the [{n}] of an f-string, for an integer. *)
Definition str_of_int (n : Z) : string := NilZero.string_of_int (Z.to_int n).

(** [sep.join(l)]. *)
Definition join (sep : string) (l : list string) : string := String.concat sep l.

(** [bool(s)] for a string, and for an optional string ([None] is false). *)
Definition truthy (s : string) : bool :=
  match s with EmptyString => false | _ => true end.

Definition truthy_opt (o : option string) : bool :=
  match o with Some s => truthy s | None => false end.

(** [l[:n]] for any integer [n]: a negative [n] counts from the end. *)
Definition slice_to {A} (n : Z) (l : list A) : list A :=
  if n <? 0
  then take (Z.to_nat (Z.max 0 (Z.of_nat (length l) + n))) l
  else take (Z.to_nat n) l.

(** [sorted(l, key=key, reverse=True)]: the built-in sort is stable, and
    [reverse=True] keeps elements with equal keys in their input order.
    Insertion from the right places an element before the first one whose
    key is not greater. *)
Fixpoint insert_desc {A} (key : A -> Z) (x : A) (l : list A) : list A :=
  match l with
  | [] => [x]
  | y :: l' => if key x <? key y then y :: insert_desc key x l' else x :: l
  end.

Definition sorted_desc {A} (key : A -> Z) (l : list A) : list A :=
  foldr (insert_desc key) [] l.

End Py.

(** ** The fragment of [re] used by the size patterns

    A pattern is a sequence of items; [re.search] tries the start positions
    from left to right and, at one position, matches greedily and backtracks
    into shorter repetitions.  The value of a successful search is the text
    of group 1. *)

Module Re.

Inductive item : Type :=
| Lit (c : ascii)                  (* one literal character *)
| Opt (c : ascii)                  (* [c?] *)
| Plus (cls : ascii -> bool)       (* [[...]+] *)
| Group (cls : ascii -> bool).     (* [([...]+)], the only group *)

Definition pattern := list item.

Definition lit (s : string) : pattern := map Lit (list_ascii_of_string s).

(** One or more characters of [cls], longest first; [k] is the rest of
    the match and receives the consumed text. *)
Fixpoint plus {A} (cls : ascii -> bool) (k : string -> string -> option A)
    (taken s : string) : option A :=
  match s with
  | String c s' =>
      if cls c then
        let taken' := (taken ++ String c EmptyString)%string in
        match plus cls k taken' s' with
        | Some r => Some r
        | None => k taken' s'
        end
      else None
  | EmptyString => None
  end.

(** Match [p] at the beginning of [s]; [g] is group 1 so far. *)
Fixpoint match_here (p : pattern) (g : option string) (s : string)
    : option string :=
  match p with
  | [] => g
  | Lit c :: p' =>
      match s with
      | String c' s' => if Ascii.eqb c c' then match_here p' g s' else None
      | EmptyString => None
      end
  | Opt c :: p' =>
      let skip := match_here p' g s in
      match s with
      | String c' s' =>
          if Ascii.eqb c c' then
            match match_here p' g s' with
            | Some r => Some r
            | None => skip
            end
          else skip
      | EmptyString => skip
      end
  | Plus cls :: p' => plus cls (fun _ rest => match_here p' g rest) EmptyString s
  | Group cls :: p' =>
      plus cls (fun txt rest => match_here p' (Some txt) rest) EmptyString s
  end.

(** [re.search(p, s)], as [match.group(1)]. *)
Fixpoint search (p : pattern) (s : string) : option string :=
  match match_here p None s with
  | Some g => Some g
  | None =>
      match s with
      | String _ s' => search p s'
      | EmptyString => None
      end
  end.

End Re.

(** ** Data model *)

(** The dict returned by [get_user_company] (tools.py), with the keys the
    pipeline reads or writes.  [company] is [None] when the profile has no
    company; [error] is set when the resolution failed. *)
Record user_info : Type := UserInfo {
  ui_username : string;
  ui_company : option string;
  ui_organizations : list string;
  ui_error : option string
}.

(** The [company_size] entry of an evaluation: an integer or ["Unknown"]. *)
Inductive size_field : Type :=
| SizeKnown (n : Z)
| SizeUnknown.

(** The dict built by [evaluate_company]; [source_user] and [user_info] are
    the two keys added afterwards by [evaluate_companies_node]. *)
Record evaluation : Type := Evaluation {
  ev_company : string;
  score : Z;
  recommendation : string;
  reasons : list string;
  company_size : size_field;
  summary : string;
  ev_source_user : option string;
  ev_user_info : option user_info
}.

(** ** evaluator.py *)

Module Evaluator.

(** The keyword dicts, in insertion order. *)
Definition tech_keywords : list (string * Z) :=
  [ ("ai", 10); ("artificial intelligence", 10); ("machine learning", 10);
    ("ml", 8); ("data science", 10); ("data analytics", 8); ("big data", 8);
    ("scraping", 15); ("web scraping", 15); ("data extraction", 12);
    ("automation", 8); ("rpa", 10); ("robotic process", 10);
    ("api", 5); ("integration", 5); ("etl", 8); ("data pipeline", 10) ].

Definition industry_keywords : list (string * Z) :=
  [ ("e-commerce", 15); ("retail", 12); ("marketplace", 12);
    ("fintech", 10); ("finance", 8); ("banking", 8);
    ("saas", 10); ("software", 8); ("technology", 5);
    ("analytics", 10); ("intelligence", 8); ("insights", 8);
    ("marketing", 8); ("advertising", 8); ("media", 6) ].

Definition growth_keywords : list string :=
  [ "scaling"; "growing"; "expanding"; "hiring"; "series a"; "series b";
    "series c"; "funded"; "funding"; "investment"; "unicorn" ].

Definition data_need_keywords : list string :=
  [ "competitive intelligence"; "market research"; "price monitoring";
    "lead generation"; "content aggregation"; "data collection" ].

(** The loop [for keyword, points in table.items()]: the running sum and
    the list of keywords found, in table order. *)
Fixpoint scan_keywords (table : list (string * Z)) (info_lower : string)
    (sum : Z) (found : list string) : Z * list string :=
  match table with
  | [] => (sum, found)
  | (keyword, points) :: table' =>
      if Py.contains keyword info_lower
      then scan_keywords table' info_lower (sum + points) (found ++ [keyword])
      else scan_keywords table' info_lower sum found
  end.

Definition sep_employees (c : ascii) : bool :=
  Py.is_space c || Ascii.eqb c "-" || Ascii.eqb c ",".

Definition sep_colon (c : ascii) : bool :=
  Py.is_space c || Ascii.eqb c ":".

(** [size_patterns]; every pattern reads its group 1. *)
Definition size_patterns : list Re.pattern :=
  [ Re.Group Py.is_digit :: Re.Plus sep_employees :: Re.lit "employees";
    (Re.lit "employee" ++ [Re.Opt "s"; Re.Plus sep_colon; Re.Group Py.is_digit]);
    (Re.lit "team" ++ Re.Plus Py.is_space :: Re.lit "of"
       ++ [Re.Plus Py.is_space; Re.Group Py.is_digit]);
    Re.Group Py.is_digit :: Re.Plus Py.is_space :: Re.lit "people" ].

(** The loop over [size_patterns]: the first pattern that matches and
    whose group converts gives the size and ends the loop; a conversion
    error (a group of more than 4300 digits) is swallowed by the bare
    [except] and the loop goes on to the next pattern; 0 when the loop
    runs out. *)
Fixpoint size_loop (patterns : list Re.pattern) (info_lower : string) : Z :=
  match patterns with
  | [] => 0
  | pattern :: patterns' =>
      match Re.search pattern info_lower with
      | Some group =>
          match Py.int (Py.remove_commas group) with
          | Some n => n
          | None => size_loop patterns' info_lower
          end
      | None => size_loop patterns' info_lower
      end
  end.

Definition tech_scan (info_lower : string) : Z * list string :=
  scan_keywords tech_keywords info_lower 0 [].

Definition tech_score (info_lower : string) : Z :=
  Z.min (fst (tech_scan info_lower)) 40.

Definition industry_scan (info_lower : string) : Z * list string :=
  scan_keywords industry_keywords info_lower 0 [].

Definition industry_score (info_lower : string) : Z :=
  Z.min (fst (industry_scan info_lower)) 30.

Definition extracted_size (info_lower : string) : Z :=
  size_loop size_patterns info_lower.

(** Points and reason of the size tier; nothing below 10 employees. *)
Definition size_tier (company_size : Z) : Z * list string :=
  if 0 <? company_size then
    if 1000 <=? company_size then
      (20, ["Large enterprise (" +:+ Py.str_of_int company_size +:+ "+ employees)"])
    else if 200 <=? company_size then
      (15, ["Mid-size company (" +:+ Py.str_of_int company_size +:+ " employees)"])
    else if 50 <=? company_size then
      (10, ["Growing company (" +:+ Py.str_of_int company_size +:+ " employees)"])
    else if 10 <=? company_size then
      (5, ["Small company (" +:+ Py.str_of_int company_size +:+ " employees)"])
    else (0, [])
  else (0, []).

Definition size_points (info_lower : string) : Z :=
  fst (size_tier (extracted_size info_lower)).

Definition growth_found (info_lower : string) : list string :=
  filter (fun kw => Py.contains kw info_lower = true) growth_keywords.

Definition growth_points (info_lower : string) : Z :=
  match growth_found info_lower with [] => 0 | _ => 10 end.

Definition data_need (info_lower : string) : bool :=
  existsb (fun kw => Py.contains kw info_lower) data_need_keywords.

Definition data_need_points (info_lower : string) : Z :=
  if data_need info_lower then 10 else 0.

Definition recommend (final_score : Z) : string :=
  if 70 <=? final_score then "High Priority"
  else if 50 <=? final_score then "Medium Priority"
  else if 30 <=? final_score then "Low Priority"
  else "Not Recommended".

Definition evaluate_company (company_name scraped_info : string)
    (user : option user_info) : evaluation :=
  let score0 := 0 in
  let reasons0 : list string := [] in
  let info_lower := Py.lower scraped_info in
  (* tech relevance *)
  let found_tech := snd (tech_scan info_lower) in
  let score1 := score0 + tech_score info_lower in
  let reasons1 :=
    match found_tech with
    | [] => reasons0
    | _ => reasons0 ++ ["Uses relevant technologies: "
                        +:+ Py.join ", " (take 3 found_tech)]
    end in
  (* industry fit *)
  let found_industries := snd (industry_scan info_lower) in
  let score2 := score1 + industry_score info_lower in
  let reasons2 :=
    match found_industries with
    | [] => reasons1
    | _ => reasons1 ++ ["Operates in relevant industries: "
                        +:+ Py.join ", " (take 2 found_industries)]
    end in
  (* company size *)
  let size := extracted_size info_lower in
  let score3 := score2 + fst (size_tier size) in
  let reasons3 := reasons2 ++ snd (size_tier size) in
  (* growth indicators *)
  let score4 := score3 + growth_points info_lower in
  let reasons4 :=
    match growth_found info_lower with
    | [] => reasons3
    | _ => reasons3 ++ ["Shows growth indicators"]
    end in
  (* explicit data needs *)
  let score5 := score4 + data_need_points info_lower in
  let reasons5 :=
    if data_need info_lower
    then reasons4 ++ ["Has explicit data collection needs"]
    else reasons4 in
  let final_score := Z.min score5 100 in
  let rec := recommend final_score in
  {| ev_company := company_name;
     score := final_score;
     recommendation := rec;
     reasons := reasons5;
     company_size := if 0 <? size then SizeKnown size else SizeUnknown;
     summary := rec +:+ " - " +:+
                match reasons5 with
                | [] => "Limited relevant indicators found"
                | _ => Py.join "; " reasons5
                end;
     ev_source_user := None;
     ev_user_info := None |}.

Definition rank_companies (evaluations : list evaluation) : list evaluation :=
  Py.sorted_desc score evaluations.

End Evaluator.

(** ** evaluator.py, statement by statement, over the store of its objects

    [Evaluator.evaluate_company] gives the value of the dict that a call
    returns.  Here the body of the same function is written with the
    mutable objects it handles: the lists [reasons], [found_tech],
    [found_industries] and [growth_found] and the returned dict are objects
    of a store, created by the call and changed in place by [append]; the
    store is what stays from one call to the next.  Texts and integers are
    immutable values; the keyword dicts and the pattern list are built anew
    by every call and never changed, so they are the constants of
    [Evaluator]; the size loop handles no object. *)

Module Imperative.

(** The identity of an object: its index in the store. *)
Definition addr : Type := nat.

(** The dict of an evaluation as an object: its ["reasons"] entry refers
    to a list object.  The last two keys are the ones that
    [evaluate_companies_node] adds to the dict afterwards. *)
Record eval_dict : Type := EvalDict {
  d_company : string;
  d_score : Z;
  d_recommendation : string;
  d_reasons : addr;
  d_company_size : size_field;
  d_summary : string;
  d_source_user : option string;
  d_user_info : option user_info
}.

Inductive object : Type :=
| ListObj (items : list string)
| DictObj (d : eval_dict).

(** Objects are never moved or reused: a new object goes to the end. *)
Definition store : Type := list object.

(** A statement takes a store to a value and a store; [None] is an
    exception ([TypeError], [AttributeError]). *)
Definition M (A : Type) : Type := store -> option (A * store).

Definition ret {A} (x : A) : M A := fun h => Some (x, h).

Definition bind {A B} (m : M A) (k : A -> M B) : M B :=
  fun h =>
    match m h with
    | Some (x, h') => k x h'
    | None => None
    end.

Notation "'let*' x ':=' m 'in' k" := (bind m (fun x => k))
  (at level 10, x name, m at level 100, k at level 200).

(** A list display, a comprehension: a new list object. *)
Definition new_list (items : list string) : M addr :=
  fun h => Some (length h, h ++ [ListObj items]).

(** A dict display: a new dict object. *)
Definition new_dict (d : eval_dict) : M addr :=
  fun h => Some (length h, h ++ [DictObj d]).

(** [l.append(x)]: the object is changed in place. *)
Definition append (l : addr) (x : string) : M unit :=
  fun h =>
    match h !! l with
    | Some (ListObj items) => Some (tt, <[l := ListObj (items ++ [x])]> h)
    | _ => None
    end.

(** The items of the list object [l], as [bool(l)], a slice of [l] and
    [join] read them. *)
Definition items_of (l : addr) : M (list string) :=
  fun h =>
    match h !! l with
    | Some (ListObj items) => Some (items, h)
    | _ => None
    end.

(** The loop [for keyword, points in table.items()], with the running sum
    and the list object [found]. *)
Fixpoint scan_keywords (table : list (string * Z)) (info_lower : string)
    (sum : Z) (found : addr) : M Z :=
  match table with
  | [] => ret sum
  | (keyword, points) :: table' =>
      if Py.contains keyword info_lower
      then let* _ := append found keyword in
           scan_keywords table' info_lower (sum + points) found
      else scan_keywords table' info_lower sum found
  end.

Definition evaluate_company (company_name scraped_info : string)
    (user : option user_info) : M addr :=
  let score := 0 in
  let* reasons := new_list [] in
  let info_lower := Py.lower scraped_info in
  (* tech relevance *)
  let* found_tech := new_list [] in
  let* tech_score :=
    scan_keywords Evaluator.tech_keywords info_lower 0 found_tech in
  let tech_score := Z.min tech_score 40 in
  let score := score + tech_score in
  let* found := items_of found_tech in
  let* _ :=
    match found with
    | [] => ret tt
    | _ => append reasons ("Uses relevant technologies: "
                           +:+ Py.join ", " (take 3 found))
    end in
  (* industry fit *)
  let* found_industries := new_list [] in
  let* industry_score :=
    scan_keywords Evaluator.industry_keywords info_lower 0 found_industries in
  let industry_score := Z.min industry_score 30 in
  let score := score + industry_score in
  let* found := items_of found_industries in
  let* _ :=
    match found with
    | [] => ret tt
    | _ => append reasons ("Operates in relevant industries: "
                           +:+ Py.join ", " (take 2 found))
    end in
  (* company size *)
  let company_size := Evaluator.extracted_size info_lower in
  let* score :=
    if 0 <? company_size then
      if 1000 <=? company_size then
        let* _ := append reasons ("Large enterprise ("
                     +:+ Py.str_of_int company_size +:+ "+ employees)") in
        ret (score + 20)
      else if 200 <=? company_size then
        let* _ := append reasons ("Mid-size company ("
                     +:+ Py.str_of_int company_size +:+ " employees)") in
        ret (score + 15)
      else if 50 <=? company_size then
        let* _ := append reasons ("Growing company ("
                     +:+ Py.str_of_int company_size +:+ " employees)") in
        ret (score + 10)
      else if 10 <=? company_size then
        let* _ := append reasons ("Small company ("
                     +:+ Py.str_of_int company_size +:+ " employees)") in
        ret (score + 5)
      else ret score
    else ret score in
  (* growth indicators *)
  let* growth_found :=
    new_list (filter (fun kw => Py.contains kw info_lower = true)
                Evaluator.growth_keywords) in
  let* found := items_of growth_found in
  let* score :=
    match found with
    | [] => ret score
    | _ => let* _ := append reasons "Shows growth indicators" in
           ret (score + 10)
    end in
  (* explicit data needs *)
  let* score :=
    if existsb (fun kw => Py.contains kw info_lower)
         Evaluator.data_need_keywords
    then let* _ := append reasons "Has explicit data collection needs" in
         ret (score + 10)
    else ret score in
  let final_score := Z.min score 100 in
  let recommendation := Evaluator.recommend final_score in
  let* shown := items_of reasons in
  new_dict
    {| d_company := company_name;
       d_score := final_score;
       d_recommendation := recommendation;
       d_reasons := reasons;
       d_company_size :=
         if 0 <? company_size then SizeKnown company_size else SizeUnknown;
       d_summary := recommendation +:+ " - " +:+
                    match shown with
                    | [] => "Limited relevant indicators found"
                    | _ => Py.join "; " shown
                    end;
       d_source_user := None;
       d_user_info := None |}.

(** What a reader of the dict object [a] sees: its entries, with the items
    of the list that ["reasons"] refers to. *)
Definition load (h : store) (a : addr) : option evaluation :=
  match h !! a with
  | Some (DictObj d) =>
      match h !! d_reasons d with
      | Some (ListObj items) =>
          Some {| ev_company := d_company d;
                  score := d_score d;
                  recommendation := d_recommendation d;
                  reasons := items;
                  company_size := d_company_size d;
                  summary := d_summary d;
                  ev_source_user := d_source_user d;
                  ev_user_info := d_user_info d |}
      | _ => None
      end
  | _ => None
  end.

(** The objects that a reader of the dict object [a] reaches. *)
Definition reachable (h : store) (a : addr) : list addr :=
  match h !! a with
  | Some (DictObj d) => [a; d_reasons d]
  | _ => [a]
  end.

End Imperative.

(** ** agent.py *)

Module Agent.

(** An entry of [state["companies"]]. *)
Record candidate : Type := Candidate {
  name : string;
  source_user : string;
  c_user_info : user_info
}.

(** What a call of an external tool can give back: a value of one of the
    shapes the nodes tell apart, or an exception with its message. *)
Inductive fetch_result : Type :=
| FetchStr (s : string)
| FetchList (l : list string)
| FetchOther (type_repr : string)
| FetchRaise (msg : string).

Inductive resolve_result : Type :=
| GotDict (d : user_info)
| GotOther (repr : string)
| GotRaise (msg : string).

Inductive search_result : Type :=
| Found (text : string)
| SearchRaise (msg : string).

(** A value or the message of the exception that ended the computation. *)
Inductive result (A : Type) : Type :=
| Ok (a : A)
| Raised (msg : string).
Arguments Ok {A} a.
Arguments Raised {A} msg.

Record AgentState : Type := State {
  repo : string;
  stargazers : list string;
  companies : list candidate;
  evaluations : list evaluation;
  current_step : string;
  error : option string;
  max_stargazers : Z;
  max_users : Z
}.

Definition set_fetch_error (st : AgentState) (e : string) : AgentState :=
  State (repo st) [] (companies st) (evaluations st) "trace_companies"
        (Some e) (max_stargazers st) (max_users st).

Definition set_stargazers (st : AgentState) (l : list string) : AgentState :=
  State (repo st) l (companies st) (evaluations st) "trace_companies"
        (error st) (max_stargazers st) (max_users st).

Definition set_companies (st : AgentState) (l : list candidate) : AgentState :=
  State (repo st) (stargazers st) l (evaluations st) "evaluate_companies"
        (error st) (max_stargazers st) (max_users st).

Definition set_evaluations (st : AgentState) (l : list evaluation) : AgentState :=
  State (repo st) (stargazers st) (companies st) l "end"
        (error st) (max_stargazers st) (max_users st).

(** The [except] branch of the three nodes. *)
Definition set_exception (st : AgentState) (e : string) : AgentState :=
  State (repo st) (stargazers st) (companies st) (evaluations st) "end"
        (Some e) (max_stargazers st) (max_users st).

(** Lines 95-102: the company name of one account. *)
Definition extract_company_name (ui : user_info) : option string :=
  if Py.truthy_opt (ui_company ui) then Py.strip <$> ui_company ui
  else match ui_organizations ui with
       | org :: _ => Some org
       | [] => None
       end.

(** Lines 104-110: keep the name unless it is empty or already seen. *)
Definition trace_step (acc : list candidate * gset string)
    (user : string) (ui : user_info) : list candidate * gset string :=
  match extract_company_name ui with
  | Some company_name =>
      if Py.truthy company_name && bool_decide (company_name ∉ acc.2)
      then (acc.1 ++ [Candidate company_name user ui], {[company_name]} ∪ acc.2)
      else acc
  | None => acc
  end.

(** Lines 88-93: the answer of the resolver as a dict. *)
Definition as_user_info (user : string) (r : resolve_result) : result user_info :=
  match r with
  | GotDict d => Ok d
  | GotOther repr => Ok (UserInfo user None [] (Some repr))
  | GotRaise msg => Raised msg
  end.

(** The [for] loop of [trace_companies_node] over the users paired with
    the answers of the resolver. *)
Fixpoint trace_loop (calls : list (string * resolve_result))
    (acc : list candidate * gset string) : result (list candidate) :=
  match calls with
  | [] => Ok acc.1
  | (user, r) :: calls' =>
      match as_user_info user r with
      | Ok ui => trace_loop calls' (trace_step acc user ui)
      | Raised msg => Raised msg
      end
  end.

(** The body of the [try] of [trace_companies_node]: the slice
    [stargazers[:max_users]] and the loop. *)
Definition trace_calls (calls : list (string * resolve_result))
    (configured_max : Z) : result (list candidate) :=
  let max_users := Z.min (Z.of_nat (length calls)) configured_max in
  trace_loop (Py.slice_to max_users calls) ([], ∅).

(** The aggregation of a sequence of account records, each with the user
    that was resolved to it. *)
Definition aggregate (accounts : list (string * user_info)) (limit : Z)
    : result (list candidate) :=
  trace_calls (prod_map id GotDict <$> accounts) limit.

Inductive node : Type := Fetch | Trace | Evaluate.

Section Tools.

(** The external tools.  The resolver and the search receive the index
    of the loop iteration that calls them, so that two calls with the
    same argument may differ. *)
Variable fetch_stargazers : string -> Z -> fetch_result.
Variable get_user_company : nat -> string -> resolve_result.
Variable search_company_info : nat -> string -> search_result.

Definition fetch_stargazers_node (st : AgentState) : AgentState :=
  match fetch_stargazers (repo st) (max_stargazers st) with
  | FetchStr res =>
      if Py.startswith res "Error" then set_fetch_error st res
      else set_fetch_error st "Unexpected string response from fetch_stargazers"
  | FetchList res =>
      match res with
      | first :: _ =>
          if Py.startswith first "Error" then set_fetch_error st first
          else set_stargazers st res
      | [] => set_stargazers st res
      end
  | FetchOther type_repr =>
      set_fetch_error st ("Unexpected response type: " +:+ type_repr)
  | FetchRaise msg =>
      set_exception st ("Error fetching stargazers: " +:+ msg)
  end.

Definition trace_companies_node (st : AgentState) : AgentState :=
  let calls := imap (fun i user => (user, get_user_company i user)) (stargazers st) in
  match trace_calls calls (max_users st) with
  | Ok companies => set_companies st companies
  | Raised msg => set_exception st ("Error tracing companies: " +:+ msg)
  end.

(** Lines 132-153: one iteration of the loop of
    [evaluate_companies_node]. *)
Definition evaluate_one (i : nat) (c : candidate) : evaluation :=
  let company_info :=
    match search_company_info i (name c) with
    | Found text => if Py.truthy text then text else "No information found"
    | SearchRaise msg => "Error retrieving information: " +:+ msg
    end in
  let e := Evaluator.evaluate_company (name c) company_info (Some (c_user_info c)) in
  Evaluation (ev_company e) (score e) (recommendation e) (reasons e)
             (company_size e) (summary e)
             (Some (source_user c)) (Some (c_user_info c)).

Definition evaluate_companies_node (st : AgentState) : AgentState :=
  set_evaluations st (Evaluator.rank_companies (imap evaluate_one (companies st))).

(** [should_continue], the router of the edge that leaves
    [__start__]; [None] is [END]. *)
Definition should_continue (st : AgentState) : string :=
  if Py.truthy_opt (error st) then "end"
  else if String.eqb (current_step st) "fetch" then "fetch"
  else if String.eqb (current_step st) "trace_companies" then "trace"
  else if String.eqb (current_step st) "evaluate_companies" then "evaluate"
  else "end".

Definition start_edge (st : AgentState) : option node :=
  if String.eqb (should_continue st) "fetch" then Some Fetch else None.

(** The conditional edges that leave a node, and the plain edge from
    [evaluate] to [END]. *)
Definition next_node (n : node) (st : AgentState) : option node :=
  match n with
  | Fetch =>
      if negb (Py.truthy_opt (error st)) && negb (bool_decide (stargazers st = []))
      then Some Trace else None
  | Trace =>
      if negb (Py.truthy_opt (error st)) && negb (bool_decide (companies st = []))
      then Some Evaluate else None
  | Evaluate => None
  end.

Definition run_node (n : node) (st : AgentState) : AgentState :=
  match n with
  | Fetch => fetch_stargazers_node st
  | Trace => trace_companies_node st
  | Evaluate => evaluate_companies_node st
  end.

(** The execution of the compiled graph from node [n]: the final state
    and the nodes that ran, each with the state it returned.  [fuel] is
    the recursion limit of the graph runtime, whose overrun raises. *)
Fixpoint run_from (fuel : nat) (n : node) (st : AgentState)
    : result AgentState * list (node * AgentState) :=
  match fuel with
  | O => (Raised "Recursion limit reached", [])
  | S fuel' =>
      let st' := run_node n st in
      match next_node n st' with
      | None => (Ok st', [(n, st')])
      | Some n' =>
          let '(r, log) := run_from fuel' n' st' in (r, (n, st') :: log)
      end
  end.

Definition recursion_limit : nat := 25.

Definition graph_invoke (st : AgentState)
    : result AgentState * list (node * AgentState) :=
  match start_edge st with
  | None => (Ok st, [])
  | Some n => run_from recursion_limit n st
  end.

Record run_result : Type := RunResult {
  success : bool;
  rr_error : option string;
  rr_evaluations : list evaluation;
  total_stargazers : nat;
  total_companies : nat
}.

Definition initial_state (repo : string) (max_stargazers max_users : Z)
    : AgentState :=
  State repo [] [] [] "fetch" None max_stargazers max_users.

Definition run_agent (repo : string) (max_stargazers max_users : Z)
    : run_result :=
  match fst (graph_invoke (initial_state repo max_stargazers max_users)) with
  | Ok res =>
      RunResult (negb (Py.truthy_opt (error res))) (error res)
                (evaluations res) (length (stargazers res))
                (length (companies res))
  | Raised msg => RunResult false (Some msg) [] 0 0
  end.

(** The nodes that ran during [run_agent], in order. *)
Definition stages_run (repo : string) (max_stargazers max_users : Z)
    : list (node * AgentState) :=
  snd (graph_invoke (initial_state repo max_stargazers max_users)).

End Tools.

End Agent.

(** ** Further built-ins *)

Module PyText.

(** [s.split(sep)] for a separator of one character: the pieces between
    the separators, of which there is always at least one. *)
Fixpoint split_char (sep : ascii) (s : string) : list string :=
  match s with
  | EmptyString => [EmptyString]
  | String c s' =>
      if Ascii.eqb c sep then EmptyString :: split_char sep s'
      else match split_char sep s' with
           | piece :: pieces => String c piece :: pieces
           | [] => [String c EmptyString]
           end
  end.

(** [s.lstrip(c)] for one character [c]. *)
Fixpoint lstrip_char (c : ascii) (s : string) : string :=
  match s with
  | String c' s' => if Ascii.eqb c' c then lstrip_char c s' else s
  | EmptyString => EmptyString
  end.

(** [s.replace(c, by)] for one character [c]. *)
Fixpoint replace_char (c : ascii) (by_ : string) (s : string) : string :=
  match s with
  | EmptyString => EmptyString
  | String c' s' =>
      if Ascii.eqb c' c then by_ +:+ replace_char c by_ s'
      else String c' (replace_char c by_ s')
  end.

(** [x or ""] for an optional text. *)
Definition or_empty (o : option string) : string :=
  match o with
  | Some s => s
  | None => EmptyString
  end.

(** [any(kw in text for kw in keywords)]. *)
Definition any_in (keywords : list string) (text : string) : bool :=
  existsb (fun kw => Py.contains kw text) keywords.

(** The message of the [AttributeError] raised by [None.lower()]. *)
Definition none_has_no_lower : string :=
  "'NoneType' object has no attribute 'lower'".

End PyText.

(** ** user_filters.py *)

Module UserFilters.

(** An entry of a dict that holds a text: the key is absent, or holds
    [None], or holds a [str]. *)
Inductive entry : Type :=
| Missing
| Null
| Text (s : string).

(** [d.get(k)] and [d.get(k, default)]; [None] is Python's [None]. *)
Definition get (e : entry) : option string :=
  match e with
  | Text s => Some s
  | Missing | Null => None
  end.

Definition get_default (e : entry) (default : string) : option string :=
  match e with
  | Text s => Some s
  | Missing => Some default
  | Null => None
  end.

(** The dict [user_data], with the keys that the functions read;
    [organizations] is a list, empty when the key is absent. *)
Record user_data : Type := UserData {
  ud_username : entry;
  ud_company : entry;
  ud_organizations : list string;
  ud_bio : entry;
  ud_blog : entry;
  ud_location : entry
}.

Definition professional_keywords : list string :=
  [ "engineer"; "developer"; "founder"; "cto"; "ceo";
    "lead"; "manager"; "architect"; "data"; "ml"; "ai" ].

Definition tech_hubs : list string :=
  [ "san francisco"; "new york"; "london"; "berlin"; "tokyo";
    "seattle"; "austin"; "boston"; "paris"; "singapore" ].

Definition calculate_user_priority_score (u : user_data) : Z :=
  let score := 0 in
  let score := if Py.truthy_opt (get (ud_company u)) then score + 50 else score in
  let orgs := ud_organizations u in
  let score := score + Z.min (Z.of_nat (length orgs) * 30) 60 in
  let bio := Py.lower (PyText.or_empty (get (ud_bio u))) in
  let score := if PyText.any_in professional_keywords bio then score + 20 else score in
  let score := if Py.truthy_opt (get (ud_blog u)) then score + 15 else score in
  let location := Py.lower (PyText.or_empty (get (ud_location u))) in
  let score := if PyText.any_in tech_hubs location then score + 10 else score in
  score.

Definition filter_and_rank_users (users : list user_data) (max_users : Z)
    : list user_data :=
  let scored_users := (fun user => (calculate_user_priority_score user, user)) <$> users in
  let scored_users := Py.sorted_desc fst scored_users in
  snd <$> Py.slice_to max_users scored_users.

(** The patterns of [individual_patterns]: [^\d+$], and three words that
    [re.search] looks for anywhere in the text. *)
Inductive individual_pattern : Type :=
| OnlyDigits
| Word (w : string).

Definition individual_patterns : list individual_pattern :=
  [OnlyDigits; Word "test"; Word "demo"; Word "student"].

(** The rest of a match of [\d+$] after its first digit: digits up to the
    end of the text, or up to one line feed that ends the text. *)
Fixpoint digits_to_end (s : string) : bool :=
  match s with
  | EmptyString => true
  | String c s' =>
      if Py.is_digit c then digits_to_end s'
      else Ascii.eqb c "010" && match s' with EmptyString => true | _ => false end
  end.

Definition search_individual (p : individual_pattern) (text : string) : bool :=
  match p with
  | OnlyDigits =>
      match text with
      | String c _ => Py.is_digit c && digits_to_end text
      | EmptyString => false
      end
  | Word w => Py.contains w text
  end.

Definition hobby_keywords : list string :=
  ["hobby"; "personal"; "student"; "learning"; "beginner"].

Definition is_likely_individual_account (u : user_data) : Agent.result bool :=
  match get_default (ud_username u) "" with
  | None => Agent.Raised PyText.none_has_no_lower
  | Some name =>
      let username := Py.lower name in
      let bio := Py.lower (PyText.or_empty (get (ud_bio u))) in
      if existsb (fun pattern => search_individual pattern username) individual_patterns
      then Agent.Ok true
      else if PyText.any_in hobby_keywords bio then Agent.Ok true
      else Agent.Ok false
  end.

Record signals : Type := Signals {
  confidence : string;
  company_type : string;
  size_hint : string
}.

Definition extract_company_signals (u : user_data) : Agent.result signals :=
  let company := get_default (ud_company u) "" in
  let bio := get_default (ud_bio u) "" in
  let confidence :=
    if Py.truthy_opt company
       && (3 <? String.length (PyText.or_empty company))%nat
    then "high"
    else match ud_organizations u with
         | _ :: _ => "medium"
         | [] => "low"
         end in
  match company with
  | None => Agent.Raised PyText.none_has_no_lower
  | Some company =>
      let company_type :=
        if PyText.any_in ["inc"; "corp"; "ltd"; "gmbh"] (Py.lower company)
        then Agent.Ok "corporation"
        else match bio with
             | None => Agent.Raised PyText.none_has_no_lower
             | Some bio =>
                 if PyText.any_in ["startup"; "founder"] (Py.lower bio)
                 then Agent.Ok "startup" else Agent.Ok "unknown"
             end in
      match company_type with
      | Agent.Raised msg => Agent.Raised msg
      | Agent.Ok company_type =>
          match bio with
          | None => Agent.Raised PyText.none_has_no_lower
          | Some bio =>
              let size_hint :=
                if PyText.any_in ["fortune 500"; "enterprise"] (Py.lower bio)
                then "large"
                else if Py.contains "startup" (Py.lower bio) then "small"
                else "unknown" in
              Agent.Ok (Signals confidence company_type size_hint)
          end
      end
  end.

End UserFilters.

(** ** tools.py *)

Module Tools.

(** The answer of the search service: a dict with its [result] as text
    and its [reference_urls], or a value that is no dict. *)
Inductive search_response : Type :=
| SearchDict (result : string) (reference_urls : list string)
| SearchOther.

(** The client of the scraping service.  [smartscraper] gives the text
    that [scrape_webpage] makes of the response, the [str] of its [result]
    or of the response itself. *)
Record client : Type := Client {
  smartscraper : string -> string -> Agent.result string;
  searchscraper : string -> Agent.result search_response
}.

(** The dict returned by [search_company_web]. *)
Inductive web_result : Type :=
| WebInfo (info official_url : string) (sources : list string)
| WebError (error : string).

Definition search_prompt (company_name : string) : string :=
  "Find comprehensive information about " +:+ company_name +:+
  " company:
        - Official website URL
        - Company size (number of employees)
        - Industry and sector
        - Main products or services
        - Technology stack or technical focus
        - Whether they work with AI, data, or e-commerce
        - Recent news or developments
        - Headquarters location
        ".

Definition detailed_prompt (company_name : string) : string :=
  "Extract detailed information about " +:+ company_name +:+
  ":
            - Company size (exact number of employees if available)
            - Industry and sector classification
            - Complete list of main products or services
            - Technology stack and technical infrastructure
            - AI, machine learning, or data processing capabilities
            - Data analytics or business intelligence needs
            - Target customers and market segments
            - Recent developments or growth indicators
            ".

Definition linkedin_prompt (company_name : string) : string :=
  "Extract information about " +:+ company_name +:+
  ":
    - Company size (number of employees)
    - Industry and sector
    - Main products or services
    - Technology focus
    - Business description
    ".

Definition skip_words : list string :=
  ["wikipedia"; "crunchbase"; "facebook"; "twitter"; "news"].

(** The loop of [search_company_web] over the reference URLs: it ends at
    the first URL that holds the name without blanks and none of the skip
    words; a LinkedIn company page that holds the name is kept meanwhile. *)
Fixpoint pick_official_url (company_name : string) (urls : list string)
    (official_url : string) : string :=
  match urls with
  | [] => official_url
  | url :: urls' =>
      if Py.contains (PyText.replace_char " " "" (Py.lower company_name)) (Py.lower url)
      then
        if negb (PyText.any_in skip_words url) then url
        else pick_official_url company_name urls' official_url
      else if Py.contains "linkedin.com/company" url
              && Py.contains (Py.lower company_name) (Py.lower url)
      then pick_official_url company_name urls' url
      else pick_official_url company_name urls' official_url
  end.

Section Http.

(** The two requests of [get_user_company], each with the part of the
    answer that is kept: the [company] of the profile and the logins of the
    organizations.  [Raised] is any exception of the request or of the
    reading of its answer. *)
Variable get_user : string -> Agent.result (option string).
Variable get_orgs : string -> Agent.result (list string).

Definition get_user_company (username : string) : user_info :=
  match get_user username with
  | Agent.Raised e => UserInfo username None [] (Some e)
  | Agent.Ok company =>
      match get_orgs username with
      | Agent.Raised e => UserInfo username None [] (Some e)
      | Agent.Ok organizations => UserInfo username company organizations None
      end
  end.

(** The requests of [fetch_stargazers]: the repository, and one page of
    its stargazers as their logins; [Raised] is any exception of a request
    or of the reading of its answer.  [unpack_error] is the message of the
    [ValueError] raised when [repo.split('/')] has not two pieces. *)
Variable get_repo : string -> string -> Agent.result unit.
Variable get_page : string -> string -> Z -> Agent.result (list string).
Variable unpack_error : list string -> string.

(** The [while True] loop; [None] when [fuel] iterations did not end it. *)
Fixpoint fetch_loop (fuel : nat) (owner repo_name : string) (max_stargazers : Z)
    (page : Z) (stargazers : list string) : option (Agent.result (list string)) :=
  match fuel with
  | O => None
  | S fuel' =>
      match get_page owner repo_name page with
      | Agent.Raised e => Some (Agent.Raised e)
      | Agent.Ok data =>
          match data with
          | [] => Some (Agent.Ok stargazers)
          | _ =>
              let stargazers := stargazers ++ data in
              let page := page + 1 in
              if max_stargazers <=? Z.of_nat (length stargazers)
              then Some (Agent.Ok stargazers)
              else fetch_loop fuel' owner repo_name max_stargazers page stargazers
          end
      end
  end.

Definition fetch_error (e : string) : list string :=
  ["Error fetching stargazers: " +:+ e].

(** [fetch_stargazers] with a bound on the iterations of its loop. *)
Definition fetch_stargazers_within (fuel : nat) (repo : string) (max_stargazers : Z)
    : option (list string) :=
  match PyText.split_char "/" repo with
  | [owner; repo_name] =>
      match get_repo owner repo_name with
      | Agent.Raised e => Some (fetch_error e)
      | Agent.Ok _ =>
          match fetch_loop fuel owner repo_name max_stargazers 1 [] with
          | Some (Agent.Ok stargazers) => Some stargazers
          | Some (Agent.Raised e) => Some (fetch_error e)
          | None => None
          end
      end
  | pieces => Some (fetch_error (unpack_error pieces))
  end.

End Http.

Section Scraping.

(** [SGAI_CLIENT]: [None] without an API key. *)
Variable SGAI_CLIENT : option client.

Definition scrape_webpage (url prompt : string) : string :=
  match SGAI_CLIENT with
  | None => "Error: ScrapeGraphAI API key not configured"
  | Some c =>
      match smartscraper c url prompt with
      | Agent.Ok text => text
      | Agent.Raised e => "Error using ScrapeGraphAI API: " +:+ e
      end
  end.

Definition search_company_web (company_name : string) : web_result :=
  match SGAI_CLIENT with
  | None => WebError "ScrapeGraphAI API key not configured"
  | Some c =>
      match searchscraper c (search_prompt company_name) with
      | Agent.Ok (SearchDict result urls) =>
          WebInfo result (pick_official_url company_name urls "") urls
      | Agent.Ok SearchOther => WebError "No results found"
      | Agent.Raised e => WebError e
      end
  end.

(** [company_name.strip().lstrip('@')]. *)
Definition clean_company_name (company_name : string) : string :=
  PyText.lstrip_char "@" (Py.strip company_name).

Definition could_not_find (company_name : string) : string :=
  "Could not find detailed information for " +:+ company_name.

Definition search_company_info (company_name : string) : string :=
  if negb (Py.truthy company_name) then "No company name provided"
  else
    let company_name := clean_company_name company_name in
    let search_result := search_company_web company_name in
    let good :=
      match search_result with
      | WebInfo _ _ _ => true
      | WebError e => negb (Py.truthy e)
      end in
    let info :=
      match search_result with WebInfo i _ _ => i | WebError _ => "" end in
    let official_url :=
      match search_result with WebInfo _ u _ => u | WebError _ => "" end in
    let linkedin :=
      let linkedin_url :=
        "https://www.linkedin.com/company/"
        +:+ PyText.replace_char " " "-" (Py.lower company_name) in
      let linkedin_result := scrape_webpage linkedin_url (linkedin_prompt company_name) in
      if Py.truthy linkedin_result && negb (Py.contains "Error" linkedin_result)
      then "LinkedIn Information:
" +:+ linkedin_result
      else
        match search_result with
        | WebInfo i _ _ => if Py.truthy i then i else could_not_find company_name
        | WebError _ => could_not_find company_name
        end in
    if good then
      if Py.truthy info && (100 <? String.length info)%nat then info
      else if Py.truthy official_url then
        let scrape_result := scrape_webpage official_url (detailed_prompt company_name) in
        if Py.truthy scrape_result && negb (Py.contains "Error" scrape_result)
        then "Search Results:
" +:+ info +:+ "

Detailed Information from " +:+ official_url +:+ ":
" +:+ scrape_result
        else linkedin
      else linkedin
    else linkedin.

End Scraping.

End Tools.

(** ** app.py *)

Module App.

(** The evaluations shown after a run: those of at least the minimum
    score, cut at the maximum number of results. *)
Definition shown (evaluations : list evaluation) (min_score max_results : Z)
    : list evaluation :=
  Py.slice_to max_results
    (filter (fun e => min_score <= score e) evaluations).

(** The number shown as "High-Value Targets". *)
Definition high_value (evaluations : list evaluation) : nat :=
  length (filter (fun e => 70 <= score e) evaluations).

End App.

(** ** Notions used to state the properties *)

(** An evaluation of which only the company and the score matter. *)
Definition scored (c : string) (s : Z) : evaluation :=
  Evaluation c s "" [] SizeUnknown "" None None.

(** [needle] occurs in [hay] as a run of consecutive characters. *)
Definition substring_of (needle hay : string) : Prop :=
  exists pre post : string, hay = pre +:+ needle +:+ post.

(** The sum of the weights of the entries of [table] whose keyword occurs
    in [text], and those keywords in table order. *)
Definition matched (table : list (string * Z)) (text : string) : list (string * Z) :=
  filter (fun kv => Py.contains kv.1 text = true) table.

Definition sum_Z (l : list Z) : Z := foldr Z.add 0 l.

(** Every character of [s] is in the class [cls]. *)
Fixpoint all_chars (cls : ascii -> bool) (s : string) : bool :=
  match s with
  | EmptyString => true
  | String c s' => cls c && all_chars cls s'
  end.

(** Every group of the pattern [p] is a run of digits. *)
Definition digit_groups (p : Re.pattern) : Prop :=
  Forall (fun it => match it with
                    | Re.Group cls => cls = Py.is_digit
                    | _ => True
                    end) p.

(** The pattern [q] gives no size on [text]: it does not match, or its
    group has more digits than [int] converts. *)
Definition passed_over (q : Re.pattern) (text : string) : Prop :=
  match Re.search q text with
  | None => True
  | Some g => Py.int_max_str_digits < Z.of_nat (String.length g)
  end.

(** The text [s], [n] times: [s * n]. *)
Fixpoint repeat_text (s : string) (n : nat) : string :=
  match n with
  | O => EmptyString
  | S n' => s +:+ repeat_text s n'
  end.

(** The points of a size, by threshold. *)
Definition size_threshold_points (n : Z) : Z :=
  if 1000 <=? n then 20
  else if 200 <=? n then 15
  else if 50 <=? n then 10
  else if 10 <=? n then 5
  else 0.

(** The distinct elements of a list, each at its first occurrence. *)
Fixpoint first_seen (l : list string) : list string :=
  match l with
  | [] => []
  | x :: l' => x :: filter (fun y => y <> x) (first_seen l')
  end.

(** The company name that an account contributes, if any. *)
Definition derived_name (ui : user_info) : option string :=
  match Agent.extract_company_name ui with
  | Some n => if Py.truthy n then Some n else None
  | None => None
  end.

(** The loop over the accounts, as a left fold of its body. *)
Definition trace_fold (recs : list (string * user_info))
    (acc : list Agent.candidate * gset string) : list Agent.candidate * gset string :=
  foldl (fun a r => Agent.trace_step a r.1 r.2) acc recs.

(** An error, once set by a node, is a non-empty text. *)
Definition error_ok (st : Agent.AgentState) : Prop :=
  Agent.error st = None \/ Py.truthy_opt (Agent.error st) = true.

(** The accounts of scenario C, resolved from three users. *)
Definition account_0 : user_info := UserInfo "user0" (Some "Acme") [] None.
Definition account_1 : user_info := UserInfo "user1" None ["Acme-Org"] None.
Definition account_2 : user_info := UserInfo "user2" (Some "Acme") [] None.

Definition scenario_C : list (string * user_info) :=
  [("user0", account_0); ("user1", account_1); ("user2", account_2)].

(** The scenario A of the specification. *)
Definition scenario_A : string :=
  "AI and machine learning company with web scraping and 500 employees, Series B funding".

(** The tools of the unit tests: a repository that is not found, and three
    stargazers of which none has a company or an organization. *)
Definition fetch_not_found (repo : string) (max_stargazers : Z) : Agent.fetch_result :=
  Agent.FetchList ["Error: Repository not found"].

Definition fetch_three (repo : string) (max_stargazers : Z) : Agent.fetch_result :=
  Agent.FetchList ["user1"; "user2"; "user3"].

Definition resolve_nobody (i : nat) (user : string) : Agent.resolve_result :=
  Agent.GotDict (UserInfo user None [] None).

Definition resolve_test (i : nat) (user : string) : Agent.resolve_result :=
  match i with
  | 0%nat => Agent.GotDict (UserInfo "user1" (Some "TechCorp") [] None)
  | 1%nat => Agent.GotDict (UserInfo "user2" None ["DataInc"] None)
  | _ => Agent.GotDict (UserInfo "user3" (Some "AIStartup") [] None)
  end.

Definition search_test (i : nat) (company_name : string) : Agent.search_result :=
  Agent.Found "Company with 100 employees in AI and data analytics".

(** The tools of tools.py as the agent calls them: [fetch_stargazers]
    with enough iterations for its loop to end, and [get_user_company],
    which answers every call with a dict. *)
Definition fetch_tool (get_repo : string -> string -> Agent.result unit)
    (get_page : string -> string -> Z -> Agent.result (list string))
    (unpack_error : list string -> string)
    (repo : string) (max_stargazers : Z) : Agent.fetch_result :=
  match Tools.fetch_stargazers_within get_repo get_page unpack_error
          (S (Z.to_nat max_stargazers)) repo max_stargazers with
  | Some stargazers => Agent.FetchList stargazers
  | None => Agent.FetchOther "no result"
  end.

Definition resolve_tool (get_user : string -> Agent.result (option string))
    (get_orgs : string -> Agent.result (list string))
    (i : nat) (username : string) : Agent.resolve_result :=
  Agent.GotDict (Tools.get_user_company get_user get_orgs username).

(** Requests for a repository of four stargazers, served three to a page. *)
Definition repo_found (owner repo_name : string) : Agent.result unit :=
  Agent.Ok tt.

Definition pages_of_three (owner repo_name : string) (page : Z)
    : Agent.result (list string) :=
  if page =? 1 then Agent.Ok ["ann"; "bob"; "cyd"]
  else if page =? 2 then Agent.Ok ["dan"]
  else Agent.Ok [].

Definition unpack_message (pieces : list string) : string :=
  "not two values to unpack".

(** Requests for the profile of a user, of which the first fails. *)
Definition profile_fails (username : string) : Agent.result (option string) :=
  Agent.Raised "404 Client Error".

Definition no_orgs (username : string) : Agent.result (list string) :=
  Agent.Ok [].

(** * Properties *)

(** ** The built-ins *)

Section SortedDesc.

Context {A : Type} (key : A -> Z).

Lemma insert_desc_perm (x : A) (l : list A) :
  Py.insert_desc key x l ≡ₚ x :: l.
Proof.
  induction l as [|y l IH]; simpl; [done|].
  destruct (key x <? key y); [|done].
  rewrite IH. apply Permutation_swap.
Qed.

Lemma sorted_desc_perm (l : list A) : Py.sorted_desc key l ≡ₚ l.
Proof.
  induction l as [|x l IH]; simpl; [done|].
  fold (Py.sorted_desc key l). by rewrite insert_desc_perm, IH.
Qed.

Let desc (a b : A) : Prop := key b <= key a.

Lemma insert_desc_sorted (x : A) (l : list A) :
  StronglySorted desc l -> StronglySorted desc (Py.insert_desc key x l).
Proof.
  induction 1 as [|y l Hl IH Hy]; simpl.
  - repeat constructor.
  - destruct (key x <? key y) eqn:E.
    + apply Z.ltb_lt in E. constructor; [done|].
      rewrite insert_desc_perm. constructor; [unfold desc; lia|done].
    + apply Z.ltb_ge in E. constructor; [by constructor|].
      constructor; [done|].
      eapply Forall_impl; [exact Hy|]. unfold desc. intros; lia.
Qed.

Lemma sorted_desc_sorted (l : list A) :
  StronglySorted desc (Py.sorted_desc key l).
Proof.
  induction l as [|x l IH]; simpl; [constructor|].
  by apply insert_desc_sorted.
Qed.

(** Inserting [x] leaves every class of equal keys as it was, with [x] put
    in front of its own class. *)
Lemma insert_desc_filter (k : Z) (x : A) (l : list A) :
  filter (fun a => key a = k) (Py.insert_desc key x l)
  = filter (fun a => key a = k) (x :: l).
Proof.
  induction l as [|y l IH]; simpl; [done|].
  destruct (key x <? key y) eqn:E; [|done].
  apply Z.ltb_lt in E.
  rewrite filter_cons, IH, !filter_cons.
  repeat case_decide; try done; lia.
Qed.

Lemma sorted_desc_stable (k : Z) (l : list A) :
  filter (fun a => key a = k) (Py.sorted_desc key l)
  = filter (fun a => key a = k) l.
Proof.
  induction l as [|x l IH]; simpl; [done|].
  fold (Py.sorted_desc key l).
  by rewrite insert_desc_filter, !filter_cons, IH.
Qed.

End SortedDesc.

(** ** The ranker *)

(** C2: [rank_companies] returns a permutation of its argument, sorted by
    score from high to low, in which the evaluations of any one score keep
    the order they had in the argument. *)
Theorem C2_rank_companies_stable_sort (evaluations : list evaluation) :
  Evaluator.rank_companies evaluations ≡ₚ evaluations
  /\ StronglySorted (fun a b => score b <= score a)
       (Evaluator.rank_companies evaluations)
  /\ forall s : Z,
       filter (fun e => score e = s) (Evaluator.rank_companies evaluations)
       = filter (fun e => score e = s) evaluations.
Proof.
  unfold Evaluator.rank_companies. split; [|split].
  - apply sorted_desc_perm.
  - apply (sorted_desc_sorted score).
  - intros s. apply sorted_desc_stable.
Qed.

(** Scenario E, with the companies of the unit test. *)
Example rank_companies_scenario_E :
  Evaluator.rank_companies
    [scored "A" 50; scored "B" 80; scored "C" 30; scored "D" 65]
  = [scored "B" 80; scored "D" 65; scored "A" 50; scored "C" 30].
Proof. reflexivity. Qed.

Example rank_companies_ties :
  Evaluator.rank_companies
    [scored "A" 50; scored "B" 80; scored "C" 50; scored "D" 80]
  = [scored "B" 80; scored "D" 80; scored "A" 50; scored "C" 50].
Proof. reflexivity. Qed.


Lemma append_cons (c : ascii) (a b : string) :
  String c a +:+ b = String c (a +:+ b).
Proof. reflexivity. Qed.

Lemma append_nil_l (a : string) : "" +:+ a = a.
Proof. reflexivity. Qed.

Lemma append_nil_r (a : string) : a +:+ "" = a.
Proof. induction a as [|c a IH]; [done|]. by rewrite append_cons, IH. Qed.

Lemma append_assoc (a b c : string) : (a +:+ b) +:+ c = a +:+ b +:+ c.
Proof.
  induction a as [|x a IH]; [done|]. by rewrite !append_cons, IH.
Qed.

Lemma prefix_spec (p s : string) :
  String.prefix p s = true <-> exists post, s = p +:+ post.
Proof.
  revert p; induction s as [|c' s IH]; intros [|c p]; simpl.
  - split; [by exists ""|done].
  - split; [done|]. intros [post H]. by rewrite append_cons in H.
  - split; [intros _; by eexists|done].
  - destruct (ascii_dec c c') as [->|Hne].
    + rewrite IH. split; intros [post H]; exists post;
        rewrite append_cons in *; congruence.
    + split; [done|]. intros [post H]. rewrite append_cons in H. congruence.
Qed.

(** Python's [in] on texts is the occurrence of a run of characters. *)
Lemma contains_spec (needle hay : string) :
  Py.contains needle hay = true <-> substring_of needle hay.
Proof.
  unfold substring_of. induction hay as [|c hay IH].
  - change (Py.contains needle "") with (String.prefix needle "" || false).
    rewrite orb_false_r, prefix_spec. split.
    + intros [post H]. by exists "", post.
    + intros [[|c pre] [post H]]; [by exists post|by rewrite append_cons in H].
  - change (Py.contains needle (String c hay))
      with (String.prefix needle (String c hay) || Py.contains needle hay).
    rewrite orb_true_iff, prefix_spec, IH. split.
    + intros [[post H]|(pre & post & H)].
      * by exists "", post.
      * exists (String c pre), post. by rewrite append_cons, H.
    + intros ([|c' pre] & post & H).
      * left. by exists post.
      * right. exists pre, post. rewrite append_cons in H. congruence.
Qed.

Lemma substring_of_app (a b hay : string) :
  substring_of (a +:+ b) hay -> substring_of b hay.
Proof.
  intros (pre & post & ->). exists (pre +:+ a), post.
  by rewrite !append_assoc.
Qed.

(** ** The scoring engine *)

Lemma scan_keywords_spec (table : list (string * Z)) (text : string)
    (sum : Z) (found : list string) :
  Evaluator.scan_keywords table text sum found
  = (sum + sum_Z (snd <$> matched table text),
     found ++ (fst <$> matched table text)).
Proof.
  revert sum found; induction table as [|[kw pts] table IH]; intros sum found.
  - simpl. f_equal; [lia|by rewrite app_nil_r].
  - simpl. unfold matched. rewrite filter_cons. simpl.
    destruct (Py.contains kw text) eqn:E.
    + rewrite decide_True by done. rewrite IH, !fmap_cons. simpl.
      f_equal; [unfold sum_Z, matched; simpl; lia|by rewrite <- app_assoc].
    + rewrite decide_False by done. by rewrite IH.
Qed.

Lemma sum_Z_nonneg (l : list Z) : Forall (fun w => 0 <= w) l -> 0 <= sum_Z l.
Proof. induction 1; simpl; lia. Qed.

Lemma matched_weights_nonneg (table : list (string * Z)) (text : string) :
  Forall (fun kv => 0 <= kv.2) table ->
  0 <= sum_Z (snd <$> matched table text).
Proof.
  intros H. apply sum_Z_nonneg, Forall_fmap.
  rewrite Forall_forall in *. intros kv [_ Hkv]%list_elem_of_filter. auto.
Qed.

Lemma tech_keywords_nonneg : Forall (fun kv => 0 <= kv.2) Evaluator.tech_keywords.
Proof. repeat constructor; simpl; lia. Qed.

Lemma industry_keywords_nonneg :
  Forall (fun kv => 0 <= kv.2) Evaluator.industry_keywords.
Proof. repeat constructor; simpl; lia. Qed.

Lemma tech_score_bounds (text : string) : 0 <= Evaluator.tech_score text <= 40.
Proof.
  unfold Evaluator.tech_score, Evaluator.tech_scan.
  rewrite scan_keywords_spec. simpl fst.
  pose proof (matched_weights_nonneg _ text tech_keywords_nonneg). lia.
Qed.

Lemma industry_score_bounds (text : string) :
  0 <= Evaluator.industry_score text <= 30.
Proof.
  unfold Evaluator.industry_score, Evaluator.industry_scan.
  rewrite scan_keywords_spec. simpl fst.
  pose proof (matched_weights_nonneg _ text industry_keywords_nonneg). lia.
Qed.

Lemma size_tier_bounds (n : Z) : 0 <= (Evaluator.size_tier n).1 <= 20.
Proof.
  unfold Evaluator.size_tier.
  repeat match goal with |- context [if ?b then _ else _] => destruct b end;
    simpl; lia.
Qed.

Lemma growth_points_bounds (text : string) :
  0 <= Evaluator.growth_points text <= 10.
Proof. unfold Evaluator.growth_points. destruct Evaluator.growth_found; lia. Qed.

Lemma data_need_points_bounds (text : string) :
  0 <= Evaluator.data_need_points text <= 10.
Proof. unfold Evaluator.data_need_points. destruct Evaluator.data_need; lia. Qed.

Lemma score_evaluate_company (company_name info : string) (user : option user_info) :
  score (Evaluator.evaluate_company company_name info user)
  = Z.min (Evaluator.tech_score (Py.lower info)
           + Evaluator.industry_score (Py.lower info)
           + Evaluator.size_points (Py.lower info)
           + Evaluator.growth_points (Py.lower info)
           + Evaluator.data_need_points (Py.lower info)) 100.
Proof. reflexivity. Qed.

(** C1: the score of an evaluation lies between 0 and 100; it is the sum,
    cut at 100, of a technology part in [0,40], an industry part in [0,30],
    a size part in [0,20] and two flat parts in [0,10]. *)
Theorem C1_score_in_range (company_name info : string) (user : option user_info) :
  let e := Evaluator.evaluate_company company_name info user in
  let text := Py.lower info in
  0 <= score e <= 100
  /\ 0 <= Evaluator.tech_score text <= 40
  /\ 0 <= Evaluator.industry_score text <= 30
  /\ 0 <= Evaluator.size_points text <= 20
  /\ 0 <= Evaluator.growth_points text <= 10
  /\ 0 <= Evaluator.data_need_points text <= 10
  /\ score e = Z.min (Evaluator.tech_score text + Evaluator.industry_score text
                      + Evaluator.size_points text + Evaluator.growth_points text
                      + Evaluator.data_need_points text) 100.
Proof.
  intros e text. subst e. rewrite score_evaluate_company. fold text.
  pose proof (tech_score_bounds text).
  pose proof (industry_score_bounds text).
  pose proof (size_tier_bounds (Evaluator.extracted_size text)) as Hs.
  fold (Evaluator.size_points text) in Hs.
  pose proof (growth_points_bounds text).
  pose proof (data_need_points_bounds text).
  repeat split; lia.
Qed.

(** The cap at 100 is reached: all five parts at their maximum sum to 110. *)
Example score_cap_reached :
  score (Evaluator.evaluate_company "X"
    "AI scraping automation e-commerce retail saas 5000 employees hiring lead generation"
    None) = 100.
Proof. vm_compute. reflexivity. Qed.

(** An evaluation depends on the company name and on the lower-cased
    information text alone: the account record is not read, and two texts
    that differ only in letter case give the same evaluation. *)
Lemma evaluate_company_reads_lowered_text
    (company_name info1 info2 : string) (user1 user2 : option user_info) :
  Py.lower info1 = Py.lower info2 ->
  Evaluator.evaluate_company company_name info1 user1
  = Evaluator.evaluate_company company_name info2 user2.
Proof. unfold Evaluator.evaluate_company. by intros ->. Qed.

(** ** The scoring engine over the store of its objects *)

Lemma bind_step {A B} (x : A) (h' : Imperative.store) (m : Imperative.M A)
    (k : A -> Imperative.M B) (h : Imperative.store)
    (r : option (B * Imperative.store)) :
  m h = Some (x, h') -> k x h' = r -> Imperative.bind m k h = r.
Proof. unfold Imperative.bind. by intros -> <-. Qed.

Lemma lookup_new (h l : Imperative.store) (i : nat) :
  (h ++ l) !! (length h + i)%nat = l !! i.
Proof. induction h as [|o h IH]; [done|]. exact IH. Qed.

Lemma new_list_at (items : list string) (h l : Imperative.store) :
  Imperative.new_list items (h ++ l)
  = Some ((length h + length l)%nat, h ++ (l ++ [Imperative.ListObj items])).
Proof. unfold Imperative.new_list. by rewrite length_app, app_assoc. Qed.

Lemma new_dict_at (d : Imperative.eval_dict) (h l : Imperative.store) :
  Imperative.new_dict d (h ++ l)
  = Some ((length h + length l)%nat, h ++ (l ++ [Imperative.DictObj d])).
Proof. unfold Imperative.new_dict. by rewrite length_app, app_assoc. Qed.

Lemma append_at (h l : Imperative.store) (i : nat) (items : list string)
    (x : string) :
  l !! i = Some (Imperative.ListObj items) ->
  Imperative.append (length h + i)%nat x (h ++ l)
  = Some (tt, h ++ <[i := Imperative.ListObj (items ++ [x])]> l).
Proof.
  intros Hl. unfold Imperative.append.
  rewrite lookup_new, Hl. do 2 f_equal. apply insert_app_r.
Qed.

Lemma items_of_at (h l : Imperative.store) (i : nat) (items : list string) :
  l !! i = Some (Imperative.ListObj items) ->
  Imperative.items_of (length h + i)%nat (h ++ l) = Some (items, h ++ l).
Proof. intros Hl. unfold Imperative.items_of. by rewrite lookup_new, Hl. Qed.

(** The loop over a keyword table leaves the sum and the keywords of
    [Evaluator.scan_keywords], the latter in the list object [found]. *)
Lemma scan_keywords_at (table : list (string * Z)) (text : string) (sum : Z)
    (h l : Imperative.store) (i : nat) (found : list string) :
  l !! i = Some (Imperative.ListObj found) ->
  Imperative.scan_keywords table text sum (length h + i)%nat (h ++ l)
  = Some ((Evaluator.scan_keywords table text sum found).1,
          h ++ <[i := Imperative.ListObj
                         (Evaluator.scan_keywords table text sum found).2]> l).
Proof.
  revert sum found l.
  induction table as [|[keyword points] table IH]; intros sum found l Hl;
    cbn [Imperative.scan_keywords Evaluator.scan_keywords fst snd].
  - unfold Imperative.ret. do 3 f_equal. symmetry. by apply list_insert_id.
  - destruct (Py.contains keyword text); [|by apply IH].
    apply (bind_step tt (h ++ <[i := Imperative.ListObj (found ++ [keyword])]> l));
      [by apply append_at|].
    rewrite (IH (sum + points) (found ++ [keyword])).
    + do 3 f_equal. apply list_insert_insert_eq.
    + apply list_lookup_insert_eq. by apply lookup_lt_Some in Hl.
Qed.

Lemma note_block (h l : Imperative.store) (found rs : list string)
    (msg : string) :
  l !! 0%nat = Some (Imperative.ListObj rs) ->
  match found with
  | [] => Imperative.ret tt
  | _ :: _ => Imperative.append (length h + 0)%nat msg
  end (h ++ l)
  = Some (tt, h ++ <[0%nat := Imperative.ListObj
                       match found with
                       | [] => rs
                       | _ :: _ => rs ++ [msg]
                       end]> l).
Proof.
  intros Hl. destruct found; [|by apply append_at].
  unfold Imperative.ret. do 3 f_equal. symmetry. by apply list_insert_id.
Qed.

Lemma points_step (h l : Imperative.store) (rs : list string) (msg : string)
    (score points : Z) :
  l !! 0%nat = Some (Imperative.ListObj rs) ->
  Imperative.bind (Imperative.append (length h + 0)%nat msg)
    (fun _ => Imperative.ret (score + points)) (h ++ l)
  = Some (score + points,
          h ++ <[0%nat := Imperative.ListObj (rs ++ [msg])]> l).
Proof.
  intros Hl.
  by apply (bind_step tt (h ++ <[0%nat := Imperative.ListObj (rs ++ [msg])]> l));
    [apply append_at|].
Qed.

Lemma no_points_step (h l : Imperative.store) (rs : list string) (score : Z) :
  l !! 0%nat = Some (Imperative.ListObj rs) ->
  Imperative.ret score (h ++ l)
  = Some (score + 0, h ++ <[0%nat := Imperative.ListObj rs]> l).
Proof.
  intros Hl. unfold Imperative.ret. rewrite Z.add_0_r.
  do 3 f_equal. symmetry. by apply list_insert_id.
Qed.

Lemma size_block (h l : Imperative.store) (rs : list string)
    (company_size score : Z) :
  l !! 0%nat = Some (Imperative.ListObj rs) ->
  (if 0 <? company_size then
     if 1000 <=? company_size then
       Imperative.bind
         (Imperative.append (length h + 0)%nat
            ("Large enterprise (" +:+ Py.str_of_int company_size
             +:+ "+ employees)"))
         (fun _ => Imperative.ret (score + 20))
     else if 200 <=? company_size then
       Imperative.bind
         (Imperative.append (length h + 0)%nat
            ("Mid-size company (" +:+ Py.str_of_int company_size
             +:+ " employees)"))
         (fun _ => Imperative.ret (score + 15))
     else if 50 <=? company_size then
       Imperative.bind
         (Imperative.append (length h + 0)%nat
            ("Growing company (" +:+ Py.str_of_int company_size
             +:+ " employees)"))
         (fun _ => Imperative.ret (score + 10))
     else if 10 <=? company_size then
       Imperative.bind
         (Imperative.append (length h + 0)%nat
            ("Small company (" +:+ Py.str_of_int company_size
             +:+ " employees)"))
         (fun _ => Imperative.ret (score + 5))
     else Imperative.ret score
   else Imperative.ret score) (h ++ l)
  = Some (score + (Evaluator.size_tier company_size).1,
          h ++ <[0%nat := Imperative.ListObj
                            (rs ++ (Evaluator.size_tier company_size).2)]> l).
Proof.
  intros Hl. unfold Evaluator.size_tier.
  repeat case_match; cbn [fst snd]; rewrite ?app_nil_r;
    solve [by apply points_step | by apply no_points_step].
Qed.

Lemma growth_block (h l : Imperative.store) (found rs : list string)
    (score : Z) :
  l !! 0%nat = Some (Imperative.ListObj rs) ->
  match found with
  | [] => Imperative.ret score
  | _ :: _ =>
      Imperative.bind
        (Imperative.append (length h + 0)%nat "Shows growth indicators")
        (fun _ => Imperative.ret (score + 10))
  end (h ++ l)
  = Some (score + match found with [] => 0 | _ :: _ => 10 end,
          h ++ <[0%nat := Imperative.ListObj
                            match found with
                            | [] => rs
                            | _ :: _ => rs ++ ["Shows growth indicators"]
                            end]> l).
Proof.
  intros Hl. destruct found; [|by apply points_step].
  by apply no_points_step.
Qed.

Lemma data_need_block (h l : Imperative.store) (rs : list string)
    (need : bool) (score : Z) :
  l !! 0%nat = Some (Imperative.ListObj rs) ->
  (if need
   then Imperative.bind
          (Imperative.append (length h + 0)%nat
             "Has explicit data collection needs")
          (fun _ => Imperative.ret (score + 10))
   else Imperative.ret score) (h ++ l)
  = Some (score + (if need then 10 else 0),
          h ++ <[0%nat := Imperative.ListObj
                            (if need
                             then rs ++ ["Has explicit data collection needs"]
                             else rs)]> l).
Proof.
  intros Hl. destruct need; [by apply points_step|].
  by apply no_points_step.
Qed.

Lemma scan_tech_at (text : string) (h l : Imperative.store) (i : nat) :
  l !! i = Some (Imperative.ListObj []) ->
  Imperative.scan_keywords Evaluator.tech_keywords text 0 (length h + i)%nat
    (h ++ l)
  = Some ((Evaluator.tech_scan text).1,
          h ++ <[i := Imperative.ListObj (Evaluator.tech_scan text).2]> l).
Proof. unfold Evaluator.tech_scan. apply scan_keywords_at. Qed.

Lemma scan_industry_at (text : string) (h l : Imperative.store) (i : nat) :
  l !! i = Some (Imperative.ListObj []) ->
  Imperative.scan_keywords Evaluator.industry_keywords text 0
    (length h + i)%nat (h ++ l)
  = Some ((Evaluator.industry_scan text).1,
          h ++ <[i := Imperative.ListObj (Evaluator.industry_scan text).2]> l).
Proof. unfold Evaluator.industry_scan. apply scan_keywords_at. Qed.

(** A call of [evaluate_company] from the store [h]: the objects of [h]
    stay as they are and five objects are added, the lists [reasons],
    [found_tech], [found_industries] and [growth_found] and the returned
    dict, whose entries are those of [Evaluator.evaluate_company]. *)
Lemma evaluate_company_store (company_name info : string)
    (user : option user_info) (h : Imperative.store) :
  let e := Evaluator.evaluate_company company_name info user in
  let text := Py.lower info in
  Imperative.evaluate_company company_name info user h
  = Some ((length h + 4)%nat,
          h ++ [ Imperative.ListObj (reasons e);
                 Imperative.ListObj (Evaluator.tech_scan text).2;
                 Imperative.ListObj (Evaluator.industry_scan text).2;
                 Imperative.ListObj (Evaluator.growth_found text);
                 Imperative.DictObj
                   {| Imperative.d_company := ev_company e;
                      Imperative.d_score := score e;
                      Imperative.d_recommendation := recommendation e;
                      Imperative.d_reasons := (length h + 0)%nat;
                      Imperative.d_company_size := company_size e;
                      Imperative.d_summary := summary e;
                      Imperative.d_source_user := None;
                      Imperative.d_user_info := None |} ]).
Proof.
  intros e text.
  unfold Imperative.evaluate_company. cbv beta zeta. fold text.
  apply (bind_step (length h + 0)%nat (h ++ [Imperative.ListObj []])).
  { unfold Imperative.new_list. by rewrite Nat.add_0_r. }
  (* tech relevance *)
  eapply bind_step; [apply (new_list_at [] h [Imperative.ListObj []])|].
  cbn [length Nat.add app].
  eapply bind_step; [by apply (scan_tech_at text h _ 1)|].
  cbn [insert list_insert].
  eapply bind_step; [by apply (items_of_at h _ 1)|]. cbv beta.
  eapply bind_step; [by apply note_block|]. cbv beta. cbn [insert list_insert].
  (* industry fit *)
  eapply bind_step; [apply (new_list_at [] h)|]. cbn [length Nat.add app].
  eapply bind_step; [by apply (scan_industry_at text h _ 2)|].
  cbn [insert list_insert].
  eapply bind_step; [by apply (items_of_at h _ 2)|]. cbv beta.
  eapply bind_step; [by apply note_block|]. cbv beta. cbn [insert list_insert].
  (* company size *)
  eapply bind_step; [by apply size_block|]. cbv beta. cbn [insert list_insert].
  (* growth indicators *)
  eapply bind_step; [apply (new_list_at _ h)|]. cbn [length Nat.add app].
  eapply bind_step; [by apply (items_of_at h _ 3)|]. cbv beta.
  eapply bind_step; [by apply growth_block|]. cbv beta. cbn [insert list_insert].
  (* explicit data needs *)
  eapply bind_step; [by apply data_need_block|]. cbv beta.
  cbn [insert list_insert].
  eapply bind_step; [by apply (items_of_at h _ 0)|]. cbv beta.
  rewrite new_dict_at. cbn [length Nat.add app].
  subst e. unfold Evaluator.evaluate_company. cbv zeta.
  cbn [reasons score recommendation company_size summary ev_company].
  fold text.
  unfold Evaluator.tech_score, Evaluator.industry_score,
    Evaluator.growth_points, Evaluator.data_need_points,
    Evaluator.growth_found, Evaluator.data_need.
  cbn [app].
  reflexivity.
Qed.

(** The dict that a call returns shows the evaluation of
    [Evaluator.evaluate_company]. *)
Lemma load_result (h : Imperative.store) (rs : list string)
    (o1 o2 o3 : Imperative.object) (d : Imperative.eval_dict) :
  Imperative.d_reasons d = (length h + 0)%nat ->
  Imperative.load
    (h ++ [Imperative.ListObj rs; o1; o2; o3; Imperative.DictObj d])
    (length h + 4)%nat
  = Some {| ev_company := Imperative.d_company d;
            score := Imperative.d_score d;
            recommendation := Imperative.d_recommendation d;
            reasons := rs;
            company_size := Imperative.d_company_size d;
            summary := Imperative.d_summary d;
            ev_source_user := Imperative.d_source_user d;
            ev_user_info := Imperative.d_user_info d |}.
Proof.
  intros Hd. unfold Imperative.load.
  rewrite lookup_new. cbn [lookup list_lookup].
  by rewrite Hd, lookup_new.
Qed.

Lemma evaluate_company_call (company_name info : string)
    (user : option user_info) (h : Imperative.store) :
  exists (a : Imperative.addr) (h' : Imperative.store),
    Imperative.evaluate_company company_name info user h = Some (a, h')
    /\ Imperative.load h' a
       = Some (Evaluator.evaluate_company company_name info user)
    /\ h `prefix_of` h'
    /\ Forall (fun b => (length h <= b)%nat) (Imperative.reachable h' a).
Proof.
  pose proof (evaluate_company_store company_name info user h) as Hrun.
  cbv zeta in Hrun.
  eexists _, _. split; [exact Hrun|]. split; [|split].
  - rewrite load_result by done.
    cbn [Imperative.d_company Imperative.d_score Imperative.d_recommendation
         Imperative.d_company_size Imperative.d_summary
         Imperative.d_source_user Imperative.d_user_info].
    reflexivity.
  - by eexists.
  - unfold Imperative.reachable. rewrite lookup_new. cbn [lookup list_lookup].
    cbn [Imperative.d_reasons]. repeat constructor; lia.
Qed.

(** C7: [evaluate_company] keeps no state between calls.  Two calls with
    the same company name, information text and account record, the first
    from any store [h1] and the second from any store [h2] (in particular
    the store that the first call left, whatever the caller has done to the
    objects in it since), both return, and their results show one and the
    same evaluation: the same score, recommendation, reasons in the same
    order, size and summary, those of [Evaluator.evaluate_company].  A call
    changes no object that was in the store before it, and its dict and the
    list of its reasons are new objects, shared with no earlier result. *)
Theorem C7_evaluate_company_deterministic
    (company_name info : string) (user : option user_info)
    (h1 h2 : Imperative.store) :
  exists (e : evaluation) (a1 a2 : Imperative.addr)
         (h1' h2' : Imperative.store),
    Imperative.evaluate_company company_name info user h1 = Some (a1, h1')
    /\ Imperative.evaluate_company company_name info user h2 = Some (a2, h2')
    /\ Imperative.load h1' a1 = Some e
    /\ Imperative.load h2' a2 = Some e
    /\ e = Evaluator.evaluate_company company_name info user
    /\ h1 `prefix_of` h1'
    /\ h2 `prefix_of` h2'
    /\ Forall (fun b => (length h1 <= b)%nat) (Imperative.reachable h1' a1)
    /\ Forall (fun b => (length h2 <= b)%nat) (Imperative.reachable h2' a2).
Proof.
  destruct (evaluate_company_call company_name info user h1)
    as (a1 & h1' & Hrun1 & Hload1 & Hpre1 & Hnew1).
  destruct (evaluate_company_call company_name info user h2)
    as (a2 & h2' & Hrun2 & Hload2 & Hpre2 & Hnew2).
  by exists (Evaluator.evaluate_company company_name info user), a1, a2, h1', h2'.
Qed.

(** Two calls in a row from the empty store.  Between them the caller
    appends to the list of reasons of the first result: the first result
    shows the addition, the second call does not see it. *)
Example second_call_after_a_change :
  let call :=
    Imperative.evaluate_company "Shop"
      "small local craft shop with 5 employees" None in
  exists h1 h2 h3 : Imperative.store,
    call [] = Some (4%nat, h1)
    /\ Imperative.append 0%nat "added by the caller" h1 = Some (tt, h2)
    /\ call h2 = Some (9%nat, h3)
    /\ reasons <$> Imperative.load h3 4%nat = Some ["added by the caller"]
    /\ reasons <$> Imperative.load h3 9%nat = Some []
    /\ score <$> Imperative.load h3 9%nat = Some 0.
Proof.
  eexists _, _, _. cbv zeta.
  split; [lazy; reflexivity|]. split; [lazy; reflexivity|].
  split; [lazy; reflexivity|]. by lazy.
Qed.

(** C9 as stated fails: on scenario A the size part is 15, the total is 65
    and the recommendation is not "High Priority". *)
Lemma C9_scenario_A_as_stated_fails :
  let e := Evaluator.evaluate_company "Acme" scenario_A None in
  let text := Py.lower scenario_A in
  ~ (35 <= Evaluator.tech_score text
     /\ Evaluator.size_points text = 20
     /\ Evaluator.growth_points text = 10
     /\ 70 <= score e
     /\ recommendation e = "High Priority").
Proof. vm_compute. intros (_ & H & _). discriminate H. Qed.

(** C9, amended: on scenario A the technology part is 40 (at least 35), the
    size found is 500, which is worth 15 points, the growth part is 10, the
    industry and data-need parts are 0, the total is 65 and the
    recommendation is "Medium Priority". *)
Theorem C9_scenario_A_scores :
  let e := Evaluator.evaluate_company "Acme" scenario_A None in
  let text := Py.lower scenario_A in
  Evaluator.tech_scan text
    = (55, ["ai"; "machine learning"; "scraping"; "web scraping"; "api"])
  /\ Evaluator.tech_score text = 40
  /\ Evaluator.industry_score text = 0
  /\ Evaluator.extracted_size text = 500
  /\ Evaluator.size_points text = 15
  /\ Evaluator.growth_points text = 10
  /\ Evaluator.data_need_points text = 0
  /\ score e = 65
  /\ recommendation e = "Medium Priority"
  /\ company_size e = SizeKnown 500.
Proof. vm_compute. repeat split; reflexivity. Qed.

(** Scenario B and the text of the unit test of a high score. *)
Example scenario_B_scores :
  let e := Evaluator.evaluate_company "Shop" "small local craft shop with 5 employees" None in
  score e = 0 /\ recommendation e = "Not Recommended" /\ reasons e = [].
Proof. vm_compute. repeat split; reflexivity. Qed.

(** ** Keyword matching *)

Lemma sum_Z_app (l1 l2 : list Z) : sum_Z (l1 ++ l2) = sum_Z l1 + sum_Z l2.
Proof. induction l1 as [|x l1 IH]; simpl; [done|]. rewrite IH. lia. Qed.

Lemma matched_app (t1 t2 : list (string * Z)) (text : string) :
  matched (t1 ++ t2) text = matched t1 text ++ matched t2 text.
Proof. apply filter_app. Qed.

Lemma found_keyword (table : list (string * Z)) (text kw : string) :
  kw ∈ fst <$> matched table text
  <-> kw ∈ fst <$> table /\ substring_of kw text.
Proof.
  rewrite !list_elem_of_fmap. split.
  - intros ([k w] & -> & [Hc Hin]%list_elem_of_filter). simpl in *.
    split; [by exists (k, w)|by apply contains_spec].
  - intros [([k w] & -> & Hin) Hsub]. exists (k, w). split; [done|].
    apply list_elem_of_filter. split; [by apply contains_spec|done].
Qed.

(** Two entries of a table that both match contribute both weights. *)
Lemma matched_two_weights (t1 t2 t3 : list (string * Z)) (a b : string * Z)
    (text : string) :
  Forall (fun kv => 0 <= kv.2) (t1 ++ a :: t2 ++ b :: t3) ->
  Py.contains a.1 text = true -> Py.contains b.1 text = true ->
  a.2 + b.2 <= sum_Z (snd <$> matched (t1 ++ a :: t2 ++ b :: t3) text).
Proof.
  intros Hpos Ha Hb.
  apply Forall_app in Hpos as [H1 Hpos]. apply Forall_cons in Hpos as [_ Hpos].
  apply Forall_app in Hpos as [H2 Hpos]. apply Forall_cons in Hpos as [_ H3].
  change (t1 ++ a :: t2 ++ b :: t3) with (t1 ++ [a] ++ t2 ++ [b] ++ t3).
  rewrite !matched_app, !fmap_app, !sum_Z_app.
  pose proof (matched_weights_nonneg t1 text H1).
  pose proof (matched_weights_nonneg t2 text H2).
  pose proof (matched_weights_nonneg t3 text H3).
  unfold matched at 2 4. rewrite !filter_cons, !filter_nil.
  rewrite !decide_True by done. simpl. lia.
Qed.

(** C10: a keyword counts when, and only when, it occurs in the lower-cased
    text as a run of characters, and every keyword that occurs adds its own
    weight.  A text in which "web scraping" occurs matches "web scraping"
    and "scraping", worth 30 points together before the cap; "ai" is among
    the keywords found exactly when the letters "ai" occur in the text, so
    "machine learning" alone does not match it. *)
Theorem C10_keywords_are_substrings (info : string) :
  let text := Py.lower info in
  Evaluator.tech_scan text
    = (sum_Z (snd <$> matched Evaluator.tech_keywords text),
       fst <$> matched Evaluator.tech_keywords text)
  /\ Evaluator.industry_scan text
    = (sum_Z (snd <$> matched Evaluator.industry_keywords text),
       fst <$> matched Evaluator.industry_keywords text)
  /\ (forall kw, kw ∈ (Evaluator.tech_scan text).2
        <-> kw ∈ fst <$> Evaluator.tech_keywords /\ substring_of kw text)
  /\ (forall kw, kw ∈ (Evaluator.industry_scan text).2
        <-> kw ∈ fst <$> Evaluator.industry_keywords /\ substring_of kw text)
  /\ (substring_of "web scraping" text ->
        "web scraping" ∈ (Evaluator.tech_scan text).2
        /\ "scraping" ∈ (Evaluator.tech_scan text).2
        /\ 30 <= (Evaluator.tech_scan text).1)
  /\ ("ai" ∈ (Evaluator.tech_scan text).2 <-> substring_of "ai" text)
  /\ Evaluator.tech_scan "machine learning" = (10, ["machine learning"]).
Proof.
  intros text. unfold Evaluator.tech_scan, Evaluator.industry_scan.
  rewrite !scan_keywords_spec. simpl fst. simpl snd.
  rewrite !Z.add_0_l, !app_nil_l.
  split; [done|]. split; [done|].
  split; [intros kw; apply found_keyword|].
  split; [intros kw; apply found_keyword|].
  split; [|split].
  - intros Hweb.
    assert (substring_of "scraping" text) as Hscr
      by exact (substring_of_app "web " "scraping" text Hweb).
    split; [|split].
    + apply found_keyword. split; [|done]. vm_compute. set_solver.
    + apply found_keyword. split; [|done]. vm_compute. set_solver.
    + apply contains_spec in Hweb, Hscr.
      exact (matched_two_weights (take 7 Evaluator.tech_keywords) []
               (drop 9 Evaluator.tech_keywords)
               ("scraping", 15) ("web scraping", 15) text
               tech_keywords_nonneg Hscr Hweb).
  - rewrite found_keyword. split; [by intros [_ H]|]. intros H. split; [|done].
    vm_compute. set_solver.
  - reflexivity.
Qed.

Lemma C10_keywords_are_substrings_witness :
  substring_of "web scraping" (Py.lower "Web Scraping shop")
  /\ 30 <= (Evaluator.tech_scan (Py.lower "Web Scraping shop")).1.
Proof.
  assert (substring_of "web scraping" (Py.lower "Web Scraping shop")) as H
    by (exists "", " shop"; reflexivity).
  split; [exact H|].
  destruct (C10_keywords_are_substrings "Web Scraping shop")
    as (_ & _ & _ & _ & Hweb & _).
  apply Hweb, H.
Defined.

(** ** The size patterns *)

Lemma all_chars_app (cls : ascii -> bool) (a b : string) :
  all_chars cls (a +:+ b) = all_chars cls a && all_chars cls b.
Proof.
  induction a as [|c a IH]; [done|].
  rewrite append_cons. simpl. by rewrite IH, andb_assoc.
Qed.

(** A successful repetition consumed a non-empty run [w] of the class and
    went on with the rest. *)
Lemma plus_inv {A} (cls : ascii -> bool) (k : string -> string -> option A)
    (taken s : string) (r : A) :
  Re.plus cls k taken s = Some r ->
  exists w rest, w <> "" /\ all_chars cls w = true /\ s = w +:+ rest
                 /\ k (taken +:+ w) rest = Some r.
Proof.
  revert taken; induction s as [|c s IH]; intros taken; simpl; [done|].
  destruct (cls c) eqn:Ec; [|done].
  destruct (Re.plus cls k (taken +:+ String c "") s) eqn:Ep.
  - intros [= ->]. apply IH in Ep as (w & rest & _ & Hw & -> & Hk).
    exists (String c w), rest. rewrite append_assoc in Hk.
    repeat split; [done|simpl; by rewrite Ec|done].
  - intros Hk. exists (String c ""), s. simpl. by rewrite Ec.
Qed.

Lemma match_here_group (p : Re.pattern) (g0 : option string) (s g : string) :
  digit_groups p ->
  Re.match_here p g0 s = Some g ->
  g0 = Some g \/ (g <> "" /\ all_chars Py.is_digit g = true).
Proof.
  intros Hp; revert g0 s.
  induction Hp as [|it p Hit Hp IH]; intros g0 s; simpl; [by left|].
  destruct it as [c|c|cls|cls].
  - destruct s as [|c' s]; [done|]. destruct (Ascii.eqb c c'); [apply IH|done].
  - destruct s as [|c' s]; [apply IH|].
    destruct (Ascii.eqb c c'); [|apply IH].
    destruct (Re.match_here p g0 s) eqn:E; [|apply IH].
    intros [= ->]. by apply IH in E.
  - intros (w & rest & _ & _ & _ & Hk)%plus_inv. by apply IH in Hk.
  - subst cls. intros (w & rest & Hne & Hw & _ & Hk)%plus_inv.
    rewrite append_nil_l in Hk. apply IH in Hk as [[= <-]|Hk]; by right.
Qed.

(** [re.search] finds its match at the leftmost position where the pattern
    matches. *)
Lemma search_leftmost (p : Re.pattern) (s g : string) :
  Re.search p s = Some g <->
  exists pre rest, s = pre +:+ rest /\ Re.match_here p None rest = Some g
    /\ forall pre' rest', s = pre' +:+ rest' ->
         (String.length pre' < String.length pre)%nat ->
         Re.match_here p None rest' = None.
Proof.
  induction s as [|c s IH].
  - change (Re.search p "") with
      (match Re.match_here p None "" with Some g => Some g | None => None end).
    split.
    + destruct (Re.match_here p None "") eqn:E; [|done]. intros [= ->].
      exists "", "". repeat split; [done|]. simpl. lia.
    + intros ([|c pre] & rest & Hs & Hm & _); [|by rewrite append_cons in Hs].
      rewrite append_nil_l in Hs. subst rest. by rewrite Hm.
  - change (Re.search p (String c s)) with
      (match Re.match_here p None (String c s) with
       | Some g => Some g | None => Re.search p s end).
    destruct (Re.match_here p None (String c s)) eqn:E.
    + split.
      * intros [= ->]. exists "", (String c s). repeat split; [done|].
        simpl. lia.
      * intros ([|c' pre] & rest & Hs & Hm & Hleft).
        -- rewrite append_nil_l in Hs. subst rest. congruence.
        -- specialize (Hleft "" (String c s) eq_refl). simpl in Hleft.
           rewrite Hleft in E by lia. done.
    + rewrite IH. split.
      * intros (pre & rest & -> & Hm & Hleft).
        exists (String c pre), rest. repeat split; [done|].
        intros [|c' pre'] rest' Hs Hlen.
        -- rewrite append_nil_l in Hs. by subst rest'.
        -- rewrite !append_cons in Hs. injection Hs as -> Hs.
           apply (Hleft pre' rest' Hs). simpl in Hlen. lia.
      * intros ([|c' pre] & rest & Hs & Hm & Hleft).
        -- rewrite append_nil_l in Hs. subst rest. congruence.
        -- rewrite append_cons in Hs. injection Hs as -> ->.
           exists pre, rest. repeat split; [done|].
           intros pre' rest' Hs Hlen.
           apply (Hleft (String c' pre') rest'); [by rewrite append_cons, Hs|].
           simpl. lia.
Qed.

Lemma search_group (p : Re.pattern) (s g : string) :
  digit_groups p -> Re.search p s = Some g ->
  g <> "" /\ all_chars Py.is_digit g = true.
Proof.
  intros Hp (pre & rest & _ & Hm & _)%search_leftmost.
  by apply match_here_group in Hm as [?|?].
Qed.

Lemma size_patterns_digit_groups : Forall digit_groups Evaluator.size_patterns.
Proof. repeat constructor. Qed.

Lemma remove_commas_digits (g : string) :
  all_chars Py.is_digit g = true -> Py.remove_commas g = g.
Proof.
  induction g as [|c g IH]; simpl; [done|].
  intros [Hc Hg]%andb_true_iff.
  destruct (Ascii.eqb c ",") eqn:E.
  - apply Ascii.eqb_eq in E. subst c. discriminate Hc.
  - by rewrite IH.
Qed.

Lemma int_digits_Some (g : string) (acc : Z) :
  all_chars Py.is_digit g = true -> 0 <= acc ->
  exists n, Py.int_digits acc g = Some n /\ 0 <= n.
Proof.
  revert acc; induction g as [|c g IH]; intros acc; simpl.
  - intros _ Hacc. by exists acc.
  - intros [Hc Hg]%andb_true_iff Hacc. rewrite Hc. apply IH; [done|]. lia.
Qed.

Lemma int_Some (g : string) :
  g <> "" -> all_chars Py.is_digit g = true ->
  Z.of_nat (String.length g) <= Py.int_max_str_digits ->
  exists n, Py.int g = Some n /\ 0 <= n.
Proof.
  intros Hne Hg Hlen. destruct g as [|c g]; [done|].
  unfold Py.int. apply Z.leb_le in Hlen. rewrite Hlen.
  by apply int_digits_Some.
Qed.

(** Beyond the limit the conversion raises. *)
Lemma int_too_long (g : string) :
  Py.int_max_str_digits < Z.of_nat (String.length g) -> Py.int g = None.
Proof.
  intros Hlen. destruct g as [|c g]; [done|].
  unfold Py.int. apply Z.leb_gt in Hlen. by rewrite Hlen.
Qed.

(** The conversion of a run of digits raises exactly beyond the limit. *)
Lemma int_None (g : string) :
  g <> "" -> all_chars Py.is_digit g = true ->
  Py.int g = None <-> Py.int_max_str_digits < Z.of_nat (String.length g).
Proof.
  intros Hne Hg. split; [|apply int_too_long].
  intros Hnone.
  destruct (Z.lt_ge_cases Py.int_max_str_digits (Z.of_nat (String.length g)))
    as [|Hle]; [done|].
  destruct (int_Some g Hne Hg Hle) as (n & Hn & _). congruence.
Qed.

Lemma size_loop_passed_over (q : Re.pattern) (ps : list Re.pattern)
    (text : string) :
  digit_groups q -> passed_over q text ->
  Evaluator.size_loop (q :: ps) text = Evaluator.size_loop ps text.
Proof.
  unfold passed_over. intros Hd Hq. simpl.
  destruct (Re.search q text) as [g|] eqn:Es; [|done].
  destruct (search_group q text g Hd Es) as [_ Hg].
  by rewrite (remove_commas_digits g Hg), (int_too_long g Hq).
Qed.

(** The size is read from the first pattern of the list that matches, at
    its leftmost match, with a group of at most 4300 digits; the patterns
    before it do not match or have a longer group. *)
Lemma size_loop_first_match (pre post : list Re.pattern) (p : Re.pattern)
    (text g : string) :
  Forall digit_groups (pre ++ p :: post) ->
  Forall (fun q => passed_over q text) pre ->
  Re.search p text = Some g ->
  Z.of_nat (String.length g) <= Py.int_max_str_digits ->
  exists n, Py.int g = Some n /\ 0 <= n
            /\ Evaluator.size_loop (pre ++ p :: post) text = n.
Proof.
  intros Hd Hpre Hp Hlen. induction Hpre as [|q pre Hq Hpre IH].
  - simpl. rewrite Hp. apply Forall_cons in Hd as [Hd _].
    destruct (search_group p text g Hd Hp) as [Hne Hg].
    rewrite (remove_commas_digits g Hg).
    destruct (int_Some g Hne Hg Hlen) as (n & Hn & Hpos). rewrite Hn.
    by exists n.
  - change ((q :: pre) ++ p :: post) with (q :: (pre ++ p :: post)) in *.
    apply Forall_cons in Hd as [Hdq Hd].
    rewrite (size_loop_passed_over q _ text Hdq Hq). by apply IH.
Qed.

Lemma size_loop_no_match (ps : list Re.pattern) (text : string) :
  Forall digit_groups ps ->
  Forall (fun q => passed_over q text) ps ->
  Evaluator.size_loop ps text = 0.
Proof.
  intros Hd Hps. induction Hps as [|q ps Hq _ IH]; [done|].
  apply Forall_cons in Hd as [Hdq Hd].
  rewrite (size_loop_passed_over q _ text Hdq Hq). by apply IH.
Qed.

(** The size part is one tier, by threshold; no size, or a size of 0, gives
    no points. *)
Lemma size_tier_thresholds (n : Z) :
  (Evaluator.size_tier n).1 = size_threshold_points n.
Proof.
  unfold Evaluator.size_tier, size_threshold_points.
  destruct (0 <? n) eqn:E0; [|apply Z.ltb_ge in E0].
  - by repeat (case_match; simpl).
  - repeat case_match; simpl; try done; lia.
Qed.

Lemma company_size_field (company_name info : string) (user : option user_info) :
  company_size (Evaluator.evaluate_company company_name info user)
  = let n := Evaluator.extracted_size (Py.lower info) in
    if 0 <? n then SizeKnown n else SizeUnknown.
Proof. reflexivity. Qed.

(** The size part of an evaluation, as the program computes it: the first
    pattern of [size_patterns] that matches with a group of at most 4300
    digits gives the size, which is the integer read from its group after
    the removal of commas; the points are those of the tier of that size
    and the [company_size] entry is the size when it is positive.  When
    every pattern fails to match or has a longer group there is no size and
    no point. *)
Lemma size_subscore_spec (company_name info : string) (user : option user_info) :
  let text := Py.lower info in
  let e := Evaluator.evaluate_company company_name info user in
  (forall (pre post : list Re.pattern) (p : Re.pattern) (g : string),
      Evaluator.size_patterns = pre ++ p :: post ->
      Forall (fun q => passed_over q text) pre ->
      Re.search p text = Some g ->
      Z.of_nat (String.length g) <= Py.int_max_str_digits ->
      exists n, Py.int (Py.remove_commas g) = Some n /\ 0 <= n
                /\ Evaluator.extracted_size text = n
                /\ Evaluator.size_points text = size_threshold_points n
                /\ company_size e = if 0 <? n then SizeKnown n else SizeUnknown)
  /\ (Forall (fun q => passed_over q text) Evaluator.size_patterns ->
      Evaluator.extracted_size text = 0
      /\ Evaluator.size_points text = 0
      /\ company_size e = SizeUnknown).
Proof.
  intros text e. split.
  - intros pre post p g Hsplit Hpre Hp Hlen.
    pose proof size_patterns_digit_groups as Hd. rewrite Hsplit in Hd.
    destruct (size_loop_first_match pre post p text g Hd Hpre Hp Hlen)
      as (n & Hint & Hpos & Hsize).
    rewrite <- Hsplit in Hsize. fold (Evaluator.extracted_size text) in Hsize.
    assert (p ∈ pre ++ p :: post) as Hin
      by (apply elem_of_app; right; apply list_elem_of_here).
    rewrite Forall_forall in Hd.
    destruct (search_group p text g (Hd p Hin) Hp) as [_ Hg].
    exists n. rewrite (remove_commas_digits g Hg).
    split; [done|]. split; [done|]. split; [done|]. split.
    + unfold Evaluator.size_points. by rewrite size_tier_thresholds, Hsize.
    + subst e. by rewrite company_size_field; fold text; simpl; rewrite Hsize.
  - intros Hnone.
    apply (size_loop_no_match _ _ size_patterns_digit_groups) in Hnone.
    fold (Evaluator.extracted_size text) in Hnone.
    split; [done|]. split.
    + unfold Evaluator.size_points. by rewrite Hnone.
    + subst e. by rewrite company_size_field; fold text; simpl; rewrite Hnone.
Qed.

(** A count of more than 4300 digits is not read: the next pattern that
    matches gives the size. *)
Example size_beyond_the_digit_limit :
  let digits := repeat_text "1" 4301 in
  Py.int digits = None
  /\ Py.int (repeat_text "1" 4300) <> None
  /\ Re.search (hd [] Evaluator.size_patterns)
       (Py.lower (digits +:+ " employees, a team of 60")) = Some digits
  /\ company_size (Evaluator.evaluate_company "Acme"
                     (digits +:+ " employees, a team of 60") None)
     = SizeKnown 60.
Proof. vm_compute. repeat split; done. Qed.

(** The group read by a size pattern is a run of digits: the removal of
    commas never changes it. *)
Lemma size_group_has_no_comma (p : Re.pattern) (text g : string) :
  p ∈ Evaluator.size_patterns -> Re.search p text = Some g ->
  Py.remove_commas g = g /\ all_chars Py.is_digit g = true.
Proof.
  intros Hin Hs.
  pose proof size_patterns_digit_groups as Hd.
  rewrite Forall_forall in Hd.
  destruct (search_group p text g (Hd p Hin) Hs) as [_ Hg].
  split; [by apply remove_commas_digits|done].
Qed.

(** C8: the count of a text that writes it with a thousands separator is
    not read whole: "12,500 employees" is read as 500, worth 15 points and
    not 20, and "1,000 employees" as 0, which is no size at all. *)
Theorem C8_thousands_separator_not_read :
  Re.search (hd [] Evaluator.size_patterns) (Py.lower "12,500 employees")
    = Some "500"
  /\ Evaluator.extracted_size (Py.lower "12,500 employees") = 500
  /\ Evaluator.size_points (Py.lower "12,500 employees") = 15
  /\ company_size (Evaluator.evaluate_company "Acme" "12,500 employees" None)
     = SizeKnown 500
  /\ Evaluator.extracted_size (Py.lower "1,000 employees") = 0
  /\ Evaluator.size_points (Py.lower "1,000 employees") = 0
  /\ company_size (Evaluator.evaluate_company "Acme" "1,000 employees" None)
     = SizeUnknown.
Proof. vm_compute. repeat split; reflexivity. Qed.

(** ** The company aggregator *)

Lemma strip_no_lead (s : string) :
  match Py.lstrip s with String c _ => Py.is_space c = false | "" => True end.
Proof.
  induction s as [|c s IH]; cbn [Py.lstrip]; [done|].
  by destruct (Py.is_space c) eqn:E.
Qed.

Lemma rstrip_head (t : string) :
  match t with String c _ => Py.is_space c = false | "" => True end ->
  Py.lstrip (Py.rstrip t) = Py.rstrip t.
Proof.
  destruct t as [|c t]; [done|]. intros Hc. cbn [Py.rstrip].
  destruct (Py.rstrip t); rewrite ?Hc; cbn [Py.lstrip]; by rewrite Hc.
Qed.

Lemma rstrip_idemp (t : string) : Py.rstrip (Py.rstrip t) = Py.rstrip t.
Proof.
  induction t as [|c t IH]; cbn [Py.rstrip]; [done|].
  destruct (Py.rstrip t) as [|d r] eqn:E.
  - destruct (Py.is_space c) eqn:Ec; cbn [Py.rstrip]; [done|]. by rewrite Ec.
  - change (Py.rstrip (String c (String d r)))
      with (match Py.rstrip (String d r) with
            | "" => if Py.is_space c then "" else String c ""
            | String a b => String c (String a b)
            end).
    by rewrite IH.
Qed.

(** A stripped text is stable under [strip]: it has no white space left at
    either end. *)
Lemma strip_idemp (s : string) : Py.strip (Py.strip s) = Py.strip s.
Proof.
  unfold Py.strip.
  rewrite (rstrip_head (Py.lstrip s) (strip_no_lead s)). apply rstrip_idemp.
Qed.

Lemma truthy_true (s : string) : Py.truthy s = true <-> s <> "".
Proof. by destruct s. Qed.

Lemma trace_step_derived (acc : list Agent.candidate * gset string)
    (user : string) (ui : user_info) :
  Agent.trace_step acc user ui
  = match derived_name ui with
    | Some n =>
        if bool_decide (n ∉ acc.2)
        then (acc.1 ++ [Agent.Candidate n user ui], {[n]} ∪ acc.2)
        else acc
    | None => acc
    end.
Proof.
  unfold Agent.trace_step, derived_name.
  destruct (Agent.extract_company_name ui) as [n|]; [|done].
  by destruct (Py.truthy n).
Qed.

Lemma derived_name_inv (ui : user_info) (n : string) :
  derived_name ui = Some n ->
  n <> ""
  /\ ((exists raw, ui_company ui = Some raw /\ raw <> "" /\ n = Py.strip raw)
      \/ (Py.truthy_opt (ui_company ui) = false
          /\ exists rest, ui_organizations ui = n :: rest)).
Proof.
  unfold derived_name, Agent.extract_company_name.
  destruct (Py.truthy_opt (ui_company ui)) eqn:Et.
  - destruct (ui_company ui) as [raw|]; [|done]. simpl.
    destruct (Py.truthy (Py.strip raw)) eqn:E; [|done]. intros [= <-].
    split; [by apply truthy_true|]. left. exists raw.
    split; [done|]. split; [|done]. apply truthy_true. exact Et.
  - destruct (ui_organizations ui) as [|org rest]; [done|].
    destruct (Py.truthy org) eqn:E; [|done]. intros [= <-].
    split; [by apply truthy_true|]. right. split; [done|]. by exists rest.
Qed.

Lemma first_seen_elem (l : list string) (x : string) :
  x ∈ first_seen l <-> x ∈ l.
Proof.
  induction l as [|y l IH]; simpl; [done|].
  rewrite !elem_of_cons, list_elem_of_filter, IH.
  destruct (decide (x = y)) as [->|Hne]; [by split; left|].
  split; [intros [?|[_ ?]]; [by left|by right]|].
  intros [?|?]; [done|by right].
Qed.

Lemma first_seen_NoDup (l : list string) : NoDup (first_seen l).
Proof.
  induction l as [|x l IH]; simpl; constructor.
  - rewrite list_elem_of_filter. by intros [Hx _].
  - by apply NoDup_filter.
Qed.

Lemma filter_all {A} (P : A -> Prop) `{!forall x, Decision (P x)} (l : list A) :
  (forall x, P x) -> filter P l = l.
Proof.
  intros HP. induction l as [|x l IH]; [done|].
  rewrite filter_cons, decide_True by apply HP. by rewrite IH.
Qed.

Lemma trace_fold_names (recs : list (string * user_info))
    (acc : list Agent.candidate * gset string) :
  Agent.name <$> (trace_fold recs acc).1
  = (Agent.name <$> acc.1)
    ++ filter (fun n => n ∉ acc.2) (first_seen (omap (fun r => derived_name r.2) recs)).
Proof.
  revert acc; induction recs as [|[u ui] recs IH]; intros acc; simpl.
  - by rewrite app_nil_r.
  - unfold trace_fold in *. simpl. rewrite IH, trace_step_derived.
    destruct (derived_name ui) as [n|]; simpl; [|done].
    rewrite filter_cons. case_bool_decide as Hn; simpl.
    + rewrite decide_True by done. rewrite fmap_app, <- app_assoc. simpl.
      do 2 f_equal. rewrite list_filter_filter.
      apply list_filter_iff. intros x.
      rewrite not_elem_of_union, not_elem_of_singleton. tauto.
    + rewrite decide_False by (intros Hno; by apply Hno).
      f_equal. rewrite list_filter_filter.
      apply list_filter_iff. intros x. split; [|by intros [Hx _]].
      intros Hx. split; [done|]. intros Heq. apply Hx. by rewrite Heq.
Qed.

(** The candidates added by the loop come each from the first account that
    contributes their name. *)
Lemma trace_fold_first (recs : list (string * user_info))
    (acc : list Agent.candidate * gset string) :
  exists new,
    (trace_fold recs acc).1 = acc.1 ++ new
    /\ forall c, c ∈ new ->
         (Agent.name c ∉ acc.2)
         /\ exists i : nat,
              recs !! i = Some (Agent.source_user c, Agent.c_user_info c)
              /\ derived_name (Agent.c_user_info c) = Some (Agent.name c)
              /\ forall (j : nat) (r : string * user_info),
                   (j < i)%nat -> recs !! j = Some r ->
                   derived_name r.2 <> Some (Agent.name c).
Proof.
  revert acc; induction recs as [|[u ui] recs IH]; intros acc.
  - exists []. split; [by rewrite app_nil_r|]. intros c Hc. by apply elem_of_nil in Hc.
  - unfold trace_fold in *. simpl. rewrite trace_step_derived.
    destruct (derived_name ui) as [n|] eqn:En; [case_bool_decide as Hn|].
    + destruct (IH (acc.1 ++ [Agent.Candidate n u ui], {[n]} ∪ acc.2))
        as (new & -> & Hnew). simpl in *.
      exists (Agent.Candidate n u ui :: new). split; [by rewrite <- app_assoc|].
      intros c [->|Hc]%elem_of_cons.
      * split; [done|]. exists 0%nat. simpl. split; [done|]. split; [done|].
        intros j r Hj. lia.
      * destruct (Hnew c Hc) as (Hfresh & i & Hi & Hd & Hfirst).
        apply not_elem_of_union in Hfresh as [Hne Hfresh].
        apply not_elem_of_singleton in Hne.
        split; [done|]. exists (S i). split; [done|]. split; [done|].
        intros [|j] r Hj Hr; simpl in Hr.
        -- injection Hr as <-. simpl. rewrite En. by intros [= ->].
        -- apply (Hfirst j r); [lia|done].
    + destruct (IH acc) as (new & -> & Hnew).
      exists new. split; [done|]. intros c Hc.
      destruct (Hnew c Hc) as (Hfresh & i & Hi & Hd & Hfirst).
      split; [done|]. exists (S i). split; [done|]. split; [done|].
      intros [|j] r Hj Hr; simpl in Hr.
      * injection Hr as <-. simpl. rewrite En. intros [= ->]. done.
      * apply (Hfirst j r); [lia|done].
    + destruct (IH acc) as (new & -> & Hnew).
      exists new. split; [done|]. intros c Hc.
      destruct (Hnew c Hc) as (Hfresh & i & Hi & Hd & Hfirst).
      split; [done|]. exists (S i). split; [done|]. split; [done|].
      intros [|j] r Hj Hr; simpl in Hr.
      * injection Hr as <-. simpl. by rewrite En.
      * apply (Hfirst j r); [lia|done].
Qed.

(** When no call of the resolver raises, the loop ends with the candidates
    of the fold over the accounts it was given or built. *)
Lemma trace_loop_resolved (calls : list (string * Agent.resolve_result))
    (acc : list Agent.candidate * gset string) (cands : list Agent.candidate) :
  Agent.trace_loop calls acc = Agent.Ok cands ->
  exists recs,
    Forall2 (fun call r => r.1 = call.1
                           /\ Agent.as_user_info call.1 call.2 = Agent.Ok r.2)
            calls recs
    /\ cands = (trace_fold recs acc).1.
Proof.
  revert acc; induction calls as [|[u r] calls IH]; intros acc; simpl.
  - intros [= <-]. exists []. by split; [constructor|].
  - destruct (Agent.as_user_info u r) as [ui|msg] eqn:E; [|done].
    intros (recs & HF & ->)%IH. exists ((u, ui) :: recs).
    split; [by constructor|done].
Qed.

Lemma trace_loop_dicts (accounts : list (string * user_info))
    (acc : list Agent.candidate * gset string) :
  Agent.trace_loop (prod_map id Agent.GotDict <$> accounts) acc
  = Agent.Ok (trace_fold accounts acc).1.
Proof.
  revert acc; induction accounts as [|[u ui] accounts IH]; intros acc; simpl.
  - done.
  - by rewrite IH.
Qed.

Lemma slice_to_fmap {A B} (f : A -> B) (n : Z) (l : list A) :
  Py.slice_to n (f <$> l) = f <$> Py.slice_to n l.
Proof.
  unfold Py.slice_to. rewrite length_fmap. by destruct (n <? 0); rewrite fmap_take.
Qed.

Lemma aggregate_fold (accounts : list (string * user_info)) (limit : Z) :
  Agent.aggregate accounts limit
  = Agent.Ok (trace_fold
                (Py.slice_to (Z.min (Z.of_nat (length accounts)) limit) accounts)
                ([], ∅)).1.
Proof.
  unfold Agent.aggregate, Agent.trace_calls.
  by rewrite length_fmap, slice_to_fmap, trace_loop_dicts.
Qed.

(** C3: the aggregation of any sequence of accounts, cut at any limit,
    gives candidates with pairwise different names: their names are the
    distinct non-empty names derived from the accounts read, each at its
    first occurrence and in that order; every candidate carries the first
    account that contributes its name; an account with no company and no
    organization contributes none; names that differ in letter case are
    different; and scenario C gives "Acme" from the first account and
    "Acme-Org" from the second. *)
Theorem C3_aggregate_first_wins (accounts : list (string * user_info)) (limit : Z) :
  let recs := Py.slice_to (Z.min (Z.of_nat (length accounts)) limit) accounts in
  exists cands,
    Agent.aggregate accounts limit = Agent.Ok cands
    /\ NoDup (Agent.name <$> cands)
    /\ Agent.name <$> cands = first_seen (omap (fun r => derived_name r.2) recs)
    /\ (forall c, c ∈ cands ->
          exists i : nat,
            recs !! i = Some (Agent.source_user c, Agent.c_user_info c)
            /\ derived_name (Agent.c_user_info c) = Some (Agent.name c)
            /\ forall (j : nat) (r : string * user_info),
                 (j < i)%nat -> recs !! j = Some r ->
                 derived_name r.2 <> Some (Agent.name c))
    /\ (forall ui, Py.truthy_opt (ui_company ui) = false ->
          ui_organizations ui = [] -> derived_name ui = None)
    /\ Agent.aggregate scenario_C 3
       = Agent.Ok [Agent.Candidate "Acme" "user0" account_0;
                   Agent.Candidate "Acme-Org" "user1" account_1]
    /\ Agent.aggregate [("a", UserInfo "a" (Some "Acme") [] None);
                        ("b", UserInfo "b" (Some "acme") [] None)] 2
       = Agent.Ok [Agent.Candidate "Acme" "a" (UserInfo "a" (Some "Acme") [] None);
                   Agent.Candidate "acme" "b" (UserInfo "b" (Some "acme") [] None)].
Proof.
  intros recs. rewrite aggregate_fold. fold recs.
  exists (trace_fold recs ([], ∅)).1.
  pose proof (trace_fold_names recs ([], ∅)) as Hnames. simpl in Hnames.
  rewrite filter_all in Hnames by (intros x; apply not_elem_of_empty).
  split; [done|]. split; [rewrite Hnames; apply first_seen_NoDup|].
  split; [done|]. split; [|split; [|split]].
  - destruct (trace_fold_first recs ([], ∅)) as (new & -> & Hnew). simpl.
    intros c Hc. by destruct (Hnew c Hc) as [_ H].
  - intros ui Hc Ho. unfold derived_name, Agent.extract_company_name.
    by rewrite Hc, Ho.
  - vm_compute. reflexivity.
  - vm_compute. reflexivity.
Qed.

Lemma C3_aggregate_first_wins_witness :
  exists i : nat,
    scenario_C !! i = Some ("user0", account_0)
    /\ derived_name account_0 = Some "Acme".
Proof.
  destruct (C3_aggregate_first_wins scenario_C 3)
    as (cands & Hagg & _ & _ & Hfirst & _ & Hsc & _).
  rewrite Hsc in Hagg. injection Hagg as <-.
  destruct (Hfirst (Agent.Candidate "Acme" "user0" account_0))
    as (i & Hi & Hd & _); [apply list_elem_of_here|].
  exists i. split; [exact Hi|exact Hd].
Defined.

(** C4 as stated fails: a company field "@acme" gives the candidate name
    "@acme", with its leading "@", and an organization " Org " gives the
    name " Org ", which is not trimmed. *)
Lemma C4_at_sign_and_blanks_kept :
  Agent.aggregate [("u", UserInfo "u" (Some "@acme") [] None)] 1
    = Agent.Ok [Agent.Candidate "@acme" "u" (UserInfo "u" (Some "@acme") [] None)]
  /\ Py.startswith "@acme" "@" = true
  /\ Agent.aggregate [("v", UserInfo "v" None [" Org "] None)] 1
    = Agent.Ok [Agent.Candidate " Org " "v" (UserInfo "v" None [" Org "] None)]
  /\ Py.strip " Org " <> " Org ".
Proof. vm_compute. repeat split; try reflexivity. discriminate. Qed.

(** C4, amended: every candidate of the trace stage has a non-empty name;
    a name taken from the company field is that field stripped of the
    white space at both ends, and nothing else is removed (a leading "@"
    stays); a name taken from the organizations, which happens only when
    the company field is empty or absent, is the first organization as it
    is. *)
Theorem C4_candidate_names (calls : list (string * Agent.resolve_result))
    (configured_max : Z) (cands : list Agent.candidate) (c : Agent.candidate) :
  Agent.trace_calls calls configured_max = Agent.Ok cands ->
  c ∈ cands ->
  Agent.name c <> ""
  /\ ((exists raw, ui_company (Agent.c_user_info c) = Some raw /\ raw <> ""
                  /\ Agent.name c = Py.strip raw
                  /\ Py.strip (Agent.name c) = Agent.name c)
      \/ (Py.truthy_opt (ui_company (Agent.c_user_info c)) = false
          /\ exists rest, ui_organizations (Agent.c_user_info c)
                          = Agent.name c :: rest)).
Proof.
  unfold Agent.trace_calls. intros (recs & _ & ->)%trace_loop_resolved Hc.
  destruct (trace_fold_first recs ([], ∅)) as (new & Hnew & Hall).
  rewrite Hnew in Hc. simpl in Hc.
  destruct (Hall c Hc) as (_ & i & _ & Hd & _).
  apply derived_name_inv in Hd as [Hne [(raw & Hraw & Hr & Hn)|Horg]].
  - split; [done|]. left. exists raw. repeat split; try done.
    rewrite Hn. apply strip_idemp.
  - split; [done|]. by right.
Qed.

Lemma C4_candidate_names_witness :
  Agent.name (Agent.Candidate "@acme" "u" (UserInfo "u" (Some " @acme ") [] None))
  <> "".
Proof.
  apply (C4_candidate_names
           [("u", Agent.GotDict (UserInfo "u" (Some " @acme ") [] None))] 1
           [Agent.Candidate "@acme" "u" (UserInfo "u" (Some " @acme ") [] None)]).
  - vm_compute. reflexivity.
  - apply list_elem_of_here.
Defined.

(** ** The pipeline *)

Lemma truthy_startswith (s p : string) :
  Py.truthy p = true -> Py.startswith s p = true -> Py.truthy s = true.
Proof.
  intros Hp [post ->]%prefix_spec. destruct p as [|c p]; [done|].
  by rewrite append_cons.
Qed.

Lemma truthy_append (a b : string) :
  Py.truthy a = true -> Py.truthy (a +:+ b) = true.
Proof. destruct a as [|c a]; [done|]. by rewrite append_cons. Qed.

Section Pipeline.

Variable fetch_stargazers : string -> Z -> Agent.fetch_result.
Variable get_user_company : nat -> string -> Agent.resolve_result.
Variable search_company_info : nat -> string -> Agent.search_result.

Abbreviation fetch_node := (Agent.fetch_stargazers_node fetch_stargazers).
Abbreviation trace_node := (Agent.trace_companies_node get_user_company).
Abbreviation evaluate_node := (Agent.evaluate_companies_node search_company_info).
Abbreviation run_from :=
  (Agent.run_from fetch_stargazers get_user_company search_company_info).
Abbreviation run_agent :=
  (Agent.run_agent fetch_stargazers get_user_company search_company_info).
Abbreviation stages_run :=
  (Agent.stages_run fetch_stargazers get_user_company search_company_info).

(** The fetch node changes the stargazers, the step and the error only;
    when it sets an error, the error is non-empty and no stargazer is
    kept when the state had none. *)
Lemma fetch_node_spec (st : Agent.AgentState) :
  Agent.companies (fetch_node st) = Agent.companies st
  /\ Agent.evaluations (fetch_node st) = Agent.evaluations st
  /\ (Agent.error (fetch_node st) = Agent.error st
      \/ (Py.truthy_opt (Agent.error (fetch_node st)) = true
          /\ (Agent.stargazers st = [] -> Agent.stargazers (fetch_node st) = []))).
Proof.
  unfold Agent.fetch_stargazers_node.
  destruct (fetch_stargazers _ _) as [res|[|first res]|type_repr|msg].
  - destruct (Py.startswith res "Error") eqn:E; simpl.
    + repeat split. right. split; [|done].
      by apply (truthy_startswith res "Error").
    + repeat split. by right.
  - simpl. repeat split. by left.
  - destruct (Py.startswith first "Error") eqn:E; simpl.
    + repeat split. right. split; [|done].
      by apply (truthy_startswith first "Error").
    + repeat split. by left.
  - simpl. repeat split. right. split; [|done]. done || by apply truthy_append.
  - simpl. repeat split. right. split; [|done]. done || by apply truthy_append.
Qed.

Lemma trace_node_spec (st : Agent.AgentState) :
  Agent.stargazers (trace_node st) = Agent.stargazers st
  /\ Agent.evaluations (trace_node st) = Agent.evaluations st
  /\ (Agent.error (trace_node st) = Agent.error st
      \/ (Py.truthy_opt (Agent.error (trace_node st)) = true
          /\ Agent.companies (trace_node st) = Agent.companies st)).
Proof.
  unfold Agent.trace_companies_node.
  destruct (Agent.trace_calls _ _) as [cands|msg]; simpl.
  - repeat split. by left.
  - repeat split. right. split; [|done]. done || by apply truthy_append.
Qed.

Lemma evaluate_node_spec (st : Agent.AgentState) :
  Agent.error (evaluate_node st) = Agent.error st
  /\ Agent.stargazers (evaluate_node st) = Agent.stargazers st
  /\ Agent.companies (evaluate_node st) = Agent.companies st.
Proof. done. Qed.

Lemma run_node_error_ok (n : Agent.node) (st : Agent.AgentState) :
  error_ok st ->
  error_ok (Agent.run_node fetch_stargazers get_user_company
              search_company_info n st).
Proof.
  unfold error_ok. intros Hst. destruct n; simpl.
  - destruct (fetch_node_spec st) as (_ & _ & [->|[H _]]); [done|by right].
  - destruct (trace_node_spec st) as (_ & _ & [->|[H _]]); [done|by right].
  - done.
Qed.

(** No edge leaves a node that returned a state with an error. *)
Lemma next_node_error (n : Agent.node) (st : Agent.AgentState) :
  Py.truthy_opt (Agent.error st) = true -> Agent.next_node n st = None.
Proof. intros H. destruct n; simpl; by rewrite ?H. Qed.

(** In any execution of the graph, the node that records an error is the
    last one to run, and every state on the way has a well-formed error. *)
Lemma run_from_error_last (fuel : nat) (n : Agent.node) (st : Agent.AgentState) :
  error_ok st ->
  forall (i : nat) (m : Agent.node) (s : Agent.AgentState),
    (run_from fuel n st).2 !! i = Some (m, s) ->
    error_ok s
    /\ (Agent.error s <> None -> (run_from fuel n st).2 !! S i = None).
Proof.
  revert n st; induction fuel as [|fuel IH]; intros n st Hst i m s; simpl.
  - by destruct i.
  - pose proof (run_node_error_ok n st Hst) as Hok.
    set (st' := Agent.run_node _ _ _ n st) in *.
    destruct (Agent.next_node n st') as [n'|] eqn:En.
    + specialize (IH n' st' Hok).
      destruct (run_from fuel n' st') as [r log]. simpl in *.
      destruct i as [|i]; simpl.
      * intros [= <- <-]. split; [done|]. intros Herr.
        destruct Hok as [Hnone|Htruthy]; [done|].
        by rewrite (next_node_error n st' Htruthy) in En.
      * apply IH.
    + simpl. destruct i as [|i]; simpl; [|by destruct i].
      by intros [= <- <-].
Qed.

(** The run from the initial state, node by node. *)
Lemma graph_invoke_initial (repo : string) (max_stargazers max_users : Z) :
  let st0 := Agent.initial_state repo max_stargazers max_users in
  let st1 := fetch_node st0 in
  let st2 := trace_node st1 in
  let st3 := evaluate_node st2 in
  Agent.graph_invoke fetch_stargazers get_user_company search_company_info st0
  = match Agent.next_node Agent.Fetch st1 with
    | None => (Agent.Ok st1, [(Agent.Fetch, st1)])
    | Some _ =>
        match Agent.next_node Agent.Trace st2 with
        | None => (Agent.Ok st2, [(Agent.Fetch, st1); (Agent.Trace, st2)])
        | Some _ =>
            (Agent.Ok st3,
             [(Agent.Fetch, st1); (Agent.Trace, st2); (Agent.Evaluate, st3)])
        end
    end.
Proof.
  intros st0 st1 st2 st3. unfold Agent.graph_invoke.
  change (Agent.start_edge st0) with (Some Agent.Fetch).
  unfold Agent.recursion_limit. cbn [Agent.run_from Agent.run_node].
  fold st0 st1.
  destruct (Agent.next_node Agent.Fetch st1) as [n|] eqn:E1; [|done].
  assert (n = Agent.Trace) as ->.
  { simpl in E1. by destruct (_ && _); inversion E1. }
  cbn [Agent.run_from Agent.run_node]. fold st2.
  destruct (Agent.next_node Agent.Trace st2) as [n|] eqn:E2; [|done].
  assert (n = Agent.Evaluate) as ->.
  { simpl in E2. by destruct (_ && _); inversion E2. }
  cbn [Agent.run_from Agent.run_node Agent.next_node]. by fold st3.
Qed.

Lemma next_node_Some (n n' : Agent.node) (st : Agent.AgentState) :
  error_ok st -> Agent.next_node n st = Some n' -> Agent.error st = None.
Proof.
  intros [Hnone|Htruthy] Hn; [done|].
  by rewrite (next_node_error n st Htruthy) in Hn.
Qed.

Lemma error_ok_falsy (st : Agent.AgentState) :
  error_ok st -> Py.truthy_opt (Agent.error st) = false -> Agent.error st = None.
Proof. intros [Hnone|Htruthy] Hf; [done|congruence]. Qed.

Lemma next_node_no_companies (st : Agent.AgentState) :
  Agent.companies st = [] -> Agent.next_node Agent.Trace st = None.
Proof. intros H. simpl. rewrite H. by rewrite andb_false_r. Qed.

(** C6: when the fetch node records an error, it is the only node that
    runs, and the result is a failure with that error, no evaluation, no
    stargazer and no company.  More generally the node that records an
    error, at whatever stage, is the last one to run, and the result is a
    failure with that error, no evaluation and no company. *)
Theorem C6_error_suppresses_later_stages
    (repo : string) (max_stargazers max_users : Z) :
  let st1 := fetch_node (Agent.initial_state repo max_stargazers max_users) in
  (Agent.error st1 <> None ->
     run_agent repo max_stargazers max_users
     = Agent.RunResult false (Agent.error st1) [] 0 0
     /\ stages_run repo max_stargazers max_users = [(Agent.Fetch, st1)])
  /\ (forall (i : nat) (n : Agent.node) (st : Agent.AgentState),
        stages_run repo max_stargazers max_users !! i = Some (n, st) ->
        Agent.error st <> None ->
        stages_run repo max_stargazers max_users !! S i = None
        /\ Agent.success (run_agent repo max_stargazers max_users) = false
        /\ Agent.rr_error (run_agent repo max_stargazers max_users)
           = Agent.error st
        /\ Agent.rr_evaluations (run_agent repo max_stargazers max_users) = []
        /\ Agent.total_companies (run_agent repo max_stargazers max_users) = 0%nat).
Proof.
  intros st1. unfold Agent.run_agent, Agent.stages_run.
  rewrite graph_invoke_initial.
  set (st0 := Agent.initial_state repo max_stargazers max_users) in *.
  fold st1. set (st2 := trace_node st1). set (st3 := evaluate_node st2).
  assert (error_ok st0) as Hok0 by (by left).
  pose proof (run_node_error_ok Agent.Fetch st0 Hok0) as Hok1.
  pose proof (run_node_error_ok Agent.Trace _ Hok1) as Hok2.
  simpl in Hok1, Hok2. fold st1 in Hok1, Hok2. fold st2 in Hok2.
  destruct (fetch_node_spec st0) as (Hc1 & He1 & Herr1).
  destruct (trace_node_spec st1) as (Hs2 & He2 & Herr2).
  fold st1 in Hc1, He1, Herr1. fold st2 in Hs2, He2, Herr2.
  assert (Agent.error st1 <> None ->
          Py.truthy_opt (Agent.error st1) = true /\ Agent.stargazers st1 = [])
    as Hfetch.
  { intros Hne. destruct Herr1 as [Heq|[Ht Hs]]; [by rewrite Heq in Hne|].
    split; [done|by apply Hs]. }
  split.
  - intros [Ht Hs]%Hfetch. rewrite (next_node_error Agent.Fetch st1 Ht). simpl.
    by rewrite Ht, He1, Hs, Hc1.
  - intros i n st.
    destruct (Agent.next_node Agent.Fetch st1) as [n1|] eqn:E1.
    + pose proof (next_node_Some _ _ _ Hok1 E1) as Hnone1.
      destruct (Agent.next_node Agent.Trace st2) as [n2|] eqn:E2.
      * pose proof (next_node_Some _ _ _ Hok2 E2) as Hnone2.
        destruct i as [|[|[|i]]]; simpl; try done; intros [= <- <-]; try done.
      * destruct i as [|[|i]]; simpl; try done; intros [= <- <-]; [done|].
        intros Hne. destruct Herr2 as [Heq|[Ht Hcomp]]; [congruence|].
        by rewrite Ht, He2, He1, Hcomp, Hc1.
    + destruct i as [|i]; simpl; [|done]. intros [= <- <-].
      intros [Ht Hs]%Hfetch. by rewrite Ht, He1, Hc1.
Qed.

(** C5: when the trace node has run and returned no error and no
    candidate, the evaluate node does not run and the result is a success
    with no error and no evaluation. *)
Theorem C5_no_candidate_is_success
    (repo : string) (max_stargazers max_users : Z) (st : Agent.AgentState) :
  (Agent.Trace, st) ∈ stages_run repo max_stargazers max_users ->
  Py.truthy_opt (Agent.error st) = false ->
  Agent.companies st = [] ->
  run_agent repo max_stargazers max_users
  = Agent.RunResult true None [] (length (Agent.stargazers st)) 0
  /\ fst <$> stages_run repo max_stargazers max_users
     = [Agent.Fetch; Agent.Trace].
Proof.
  unfold Agent.run_agent, Agent.stages_run. rewrite graph_invoke_initial.
  set (st0 := Agent.initial_state repo max_stargazers max_users) in *.
  set (st1 := fetch_node st0). set (st2 := trace_node st1).
  set (st3 := evaluate_node st2).
  assert (error_ok st0) as Hok0 by (by left).
  pose proof (run_node_error_ok Agent.Fetch st0 Hok0) as Hok1.
  pose proof (run_node_error_ok Agent.Trace _ Hok1) as Hok2.
  simpl in Hok1, Hok2. fold st1 in Hok1, Hok2. fold st2 in Hok2.
  destruct (fetch_node_spec st0) as (Hc1 & He1 & _).
  destruct (trace_node_spec st1) as (Hs2 & He2 & _).
  fold st1 in Hc1, He1. fold st2 in Hs2, He2.
  destruct (Agent.next_node Agent.Fetch st1) as [n1|] eqn:E1.
  - destruct (Agent.next_node Agent.Trace st2) as [n2|] eqn:E2; simpl.
    + intros Hin _ Hcomp. exfalso.
      apply elem_of_cons in Hin as [[=]|Hin].
      apply elem_of_cons in Hin as [[= ->]|Hin].
      * by rewrite (next_node_no_companies st2 Hcomp) in E2.
      * apply elem_of_cons in Hin as [[=]|Hin]. by apply elem_of_nil in Hin.
    + intros Hin Hfalsy Hcomp.
      apply elem_of_cons in Hin as [[=]|Hin].
      apply elem_of_cons in Hin as [[= ->]|Hin]; [|by apply elem_of_nil in Hin].
      rewrite Hfalsy, (error_ok_falsy st2 Hok2 Hfalsy), He2, He1, Hcomp. done.
  - simpl. intros Hin. exfalso.
    apply elem_of_cons in Hin as [[=]|Hin]. by apply elem_of_nil in Hin.
Qed.

End Pipeline.

Lemma C6_error_suppresses_later_stages_witness :
  Agent.run_agent fetch_not_found resolve_test search_test "invalid/repo" 1000 100
  = Agent.RunResult false (Some "Error: Repository not found") [] 0 0.
Proof.
  destruct (C6_error_suppresses_later_stages fetch_not_found resolve_test
              search_test "invalid/repo" 1000 100) as [H _].
  apply H. vm_compute. discriminate.
Defined.

Lemma C5_no_candidate_is_success_witness :
  Agent.run_agent fetch_three resolve_nobody search_test "test/repo" 1000 100
  = Agent.RunResult true None [] 3 0.
Proof.
  apply (C5_no_candidate_is_success fetch_three resolve_nobody search_test
           "test/repo" 1000 100
           (Agent.trace_companies_node resolve_nobody
              (Agent.fetch_stargazers_node fetch_three
                 (Agent.initial_state "test/repo" 1000 100)))).
  - vm_compute. apply list_elem_of_further, list_elem_of_here.
  - vm_compute. reflexivity.
  - vm_compute. reflexivity.
Defined.

(** The successful run of the unit test. *)
Example run_agent_test_success :
  let r := Agent.run_agent fetch_three resolve_test search_test "test/repo" 1000 100 in
  Agent.success r = true /\ Agent.rr_error r = None
  /\ Agent.total_stargazers r = 3%nat /\ Agent.total_companies r = 3%nat
  /\ ev_company <$> Agent.rr_evaluations r = ["TechCorp"; "DataInc"; "AIStartup"]
  /\ score <$> Agent.rr_evaluations r = [38; 38; 38].
Proof. vm_compute. repeat split; reflexivity. Qed.

(** * Further properties of the scoring engine *)

Lemma recommend_tiers (s : Z) :
  (Evaluator.recommend s = "High Priority" <-> 70 <= s)
  /\ (Evaluator.recommend s = "Medium Priority" <-> 50 <= s < 70)
  /\ (Evaluator.recommend s = "Low Priority" <-> 30 <= s < 50)
  /\ (Evaluator.recommend s = "Not Recommended" <-> s < 30).
Proof.
  unfold Evaluator.recommend.
  destruct (Z.leb_spec 70 s); [repeat split; intros; try done; lia|].
  destruct (Z.leb_spec 50 s); [repeat split; intros; try done; lia|].
  destruct (Z.leb_spec 30 s); repeat split; intros; try done; lia.
Qed.

Lemma recommendation_evaluate_company (company_name info : string)
    (user : option user_info) :
  recommendation (Evaluator.evaluate_company company_name info user)
  = Evaluator.recommend
      (score (Evaluator.evaluate_company company_name info user)).
Proof.
  unfold Evaluator.evaluate_company. cbn [recommendation score]. reflexivity.
Qed.

(** The recommendation is read off the score alone, with inclusive lower
    bounds at 70, 50 and 30. *)
Theorem recommendation_tiers (company_name info : string) (user : option user_info) :
  let e := Evaluator.evaluate_company company_name info user in
  (recommendation e = "High Priority" <-> 70 <= score e)
  /\ (recommendation e = "Medium Priority" <-> 50 <= score e < 70)
  /\ (recommendation e = "Low Priority" <-> 30 <= score e < 50)
  /\ (recommendation e = "Not Recommended" <-> score e < 30).
Proof.
  intros e. subst e. rewrite recommendation_evaluate_company.
  apply recommend_tiers.
Qed.

Lemma sum_Z_pos_nil (l : list Z) :
  Forall (fun w => 0 < w) l -> sum_Z l = 0 -> l = [].
Proof.
  destruct 1 as [|w l Hw Hl]; [done|]. simpl. intros Hsum.
  assert (0 <= sum_Z l) by (apply sum_Z_nonneg; eapply Forall_impl; [done|]; simpl; lia).
  lia.
Qed.

Lemma scan_nothing_found (table : list (string * Z)) (text : string) :
  Forall (fun kv => 0 < kv.2) table ->
  (Evaluator.scan_keywords table text 0 []).2 = []
  <-> (Evaluator.scan_keywords table text 0 []).1 = 0.
Proof.
  intros Hpos. rewrite scan_keywords_spec. simpl.
  split.
  - intros H. apply fmap_nil_inv in H. by rewrite H.
  - intros H. rewrite Z.add_0_l in H. apply sum_Z_pos_nil in H.
    + apply fmap_nil_inv in H. by rewrite H.
    + apply Forall_fmap. rewrite Forall_forall in *.
      intros kv [_ Hkv]%list_elem_of_filter. by apply Hpos.
Qed.

Lemma tech_keywords_pos : Forall (fun kv => 0 < kv.2) Evaluator.tech_keywords.
Proof. repeat constructor. Qed.

Lemma industry_keywords_pos : Forall (fun kv => 0 < kv.2) Evaluator.industry_keywords.
Proof. repeat constructor. Qed.

Lemma size_tier_no_reason (n : Z) :
  (Evaluator.size_tier n).2 = [] <-> (Evaluator.size_tier n).1 = 0.
Proof. unfold Evaluator.size_tier. by repeat case_match. Qed.

Lemma reasons_evaluate_company (company_name info : string)
    (user : option user_info) :
  let text := Py.lower info in
  reasons (Evaluator.evaluate_company company_name info user)
  = (((match (Evaluator.tech_scan text).2 with
       | [] => []
       | _ => ["Uses relevant technologies: "
               +:+ Py.join ", " (take 3 (Evaluator.tech_scan text).2)]
       end
       ++ match (Evaluator.industry_scan text).2 with
          | [] => []
          | _ => ["Operates in relevant industries: "
                  +:+ Py.join ", " (take 2 (Evaluator.industry_scan text).2)]
          end)
      ++ (Evaluator.size_tier (Evaluator.extracted_size text)).2)
     ++ match Evaluator.growth_found text with
        | [] => []
        | _ => ["Shows growth indicators"]
        end)
    ++ (if Evaluator.data_need text
        then ["Has explicit data collection needs"] else []).
Proof.
  intros text. unfold Evaluator.evaluate_company. cbn [reasons]. fold text.
  destruct (Evaluator.tech_scan text).2; destruct (Evaluator.industry_scan text).2;
    destruct (Evaluator.growth_found text); destruct (Evaluator.data_need text);
    simpl; by rewrite ?app_nil_r.
Qed.

Lemma summary_evaluate_company (company_name info : string)
    (user : option user_info) :
  let e := Evaluator.evaluate_company company_name info user in
  summary e
  = recommendation e +:+ " - " +:+
    match reasons e with
    | [] => "Limited relevant indicators found"
    | _ => Py.join "; " (reasons e)
    end.
Proof.
  unfold Evaluator.evaluate_company. cbn [summary recommendation reasons].
  reflexivity.
Qed.

(** An evaluation gives no reason exactly when its score is 0, and its
    summary is then the fixed sentence for a company without indicators. *)
Theorem no_reason_iff_zero_score (company_name info : string)
    (user : option user_info) :
  let e := Evaluator.evaluate_company company_name info user in
  (reasons e = [] <-> score e = 0)
  /\ (score e = 0 ->
      summary e = "Not Recommended - Limited relevant indicators found").
Proof.
  intros e.
  assert (reasons e = [] <-> score e = 0) as Hiff.
  { subst e. rewrite score_evaluate_company, reasons_evaluate_company.
    set (text := Py.lower info).
    pose proof (scan_keywords_spec Evaluator.tech_keywords text 0 []) as Hts.
    pose proof (scan_keywords_spec Evaluator.industry_keywords text 0 []) as His.
    pose proof (scan_nothing_found _ text tech_keywords_pos) as Htn.
    pose proof (scan_nothing_found _ text industry_keywords_pos) as Hin.
    pose proof (matched_weights_nonneg _ text tech_keywords_nonneg) as Htp.
    pose proof (matched_weights_nonneg _ text industry_keywords_nonneg) as Hip.
    pose proof (size_tier_no_reason (Evaluator.extracted_size text)) as Hsn.
    pose proof (size_tier_bounds (Evaluator.extracted_size text)) as Hs.
    unfold Evaluator.tech_score, Evaluator.industry_score, Evaluator.size_points,
      Evaluator.growth_points, Evaluator.data_need_points,
      Evaluator.tech_scan, Evaluator.industry_scan.
    rewrite Hts in Htn. rewrite His in Hin. rewrite Hts, His. cbn [fst snd] in *.
    rewrite !Z.add_0_l, !app_nil_l in *.
    set (tw := sum_Z (snd <$> matched Evaluator.tech_keywords text)) in *.
    set (iw := sum_Z (snd <$> matched Evaluator.industry_keywords text)) in *.
    set (tf := fst <$> matched Evaluator.tech_keywords text) in *.
    set (ifd := fst <$> matched Evaluator.industry_keywords text) in *.
    set (st := Evaluator.size_tier (Evaluator.extracted_size text)) in *.
    clearbody tw iw tf ifd st. clear Hts His.
    rewrite !app_nil.
    assert (tf = [] <-> match tf with
                        | [] => []
                        | _ => ["Uses relevant technologies: "
                                +:+ Py.join ", " (take 3 tf)]
                        end = []) as Ht by (by destruct tf).
    assert (ifd = [] <-> match ifd with
                         | [] => []
                         | _ => ["Operates in relevant industries: "
                                 +:+ Py.join ", " (take 2 ifd)]
                         end = []) as Hi by (by destruct ifd).
    rewrite <- Ht, <- Hi, Htn, Hin, Hsn.
    destruct (Evaluator.growth_found text); destruct (Evaluator.data_need text);
      (split; [intros ((((? & ?) & ?) & ?) & ?); try done; lia|]);
      intros H; try lia; repeat split; try done; lia. }
  split; [done|]. intros H0. apply Hiff in H0 as Hr. subst e.
  rewrite summary_evaluate_company, recommendation_evaluate_company, Hr, H0.
  reflexivity.
Qed.

Lemma substring_of_trans (a b c : string) :
  substring_of a b -> substring_of b c -> substring_of a c.
Proof.
  intros (p1 & q1 & ->) (p2 & q2 & ->).
  exists (p2 +:+ p1), (q1 +:+ q2). by rewrite !append_assoc.
Qed.

Lemma lower_app (a b : string) : Py.lower (a +:+ b) = Py.lower a +:+ Py.lower b.
Proof.
  induction a as [|c a IH]; [done|].
  rewrite append_cons. cbn [Py.lower]. by rewrite IH, append_cons.
Qed.

Lemma substring_of_lower (a b : string) :
  substring_of a b -> substring_of (Py.lower a) (Py.lower b).
Proof.
  intros (pre & post & ->). exists (Py.lower pre), (Py.lower post).
  by rewrite !lower_app.
Qed.

Lemma contains_mono (kw t1 t2 : string) :
  substring_of t1 t2 -> Py.contains kw t1 = true -> Py.contains kw t2 = true.
Proof.
  intros Hsub Hkw%contains_spec. apply contains_spec.
  by apply (substring_of_trans kw t1 t2).
Qed.

Lemma matched_weights_mono (table : list (string * Z)) (t1 t2 : string) :
  Forall (fun kv => 0 <= kv.2) table -> substring_of t1 t2 ->
  sum_Z (snd <$> matched table t1) <= sum_Z (snd <$> matched table t2).
Proof.
  intros Hpos Hsub. induction Hpos as [|[kw w] table Hw Hpos IH]; [done|].
  unfold matched in *. rewrite !filter_cons. simpl in *.
  destruct (decide (Py.contains kw t1 = true)) as [H1|H1].
  - rewrite decide_True by by apply (contains_mono kw t1 t2).
    rewrite !fmap_cons. simpl. lia.
  - destruct (decide (Py.contains kw t2 = true)); [|done].
    rewrite fmap_cons. simpl. lia.
Qed.

Lemma growth_points_spec (text : string) :
  (Evaluator.growth_points text = 10
   /\ exists kw, kw ∈ Evaluator.growth_keywords /\ Py.contains kw text = true)
  \/ (Evaluator.growth_points text = 0
      /\ forall kw, kw ∈ Evaluator.growth_keywords -> Py.contains kw text <> true).
Proof.
  unfold Evaluator.growth_points, Evaluator.growth_found.
  destruct (filter _ Evaluator.growth_keywords) as [|kw l] eqn:E.
  - right. split; [done|]. intros kw Hin Hc.
    assert (kw ∈ filter (fun kw => Py.contains kw text = true)
                   Evaluator.growth_keywords) as H
      by (by apply list_elem_of_filter).
    rewrite E in H. by apply elem_of_nil in H.
  - left. split; [done|]. exists kw.
    assert (kw ∈ filter (fun kw => Py.contains kw text = true)
                   Evaluator.growth_keywords) as H
      by (rewrite E; apply list_elem_of_here).
    apply list_elem_of_filter in H as [? ?]. done.
Qed.

(** The keyword parts of the score only grow with the text: when a
    description occurs inside a longer one, every keyword found in it is
    found in the longer one, and the technology, industry, growth and
    data-need parts of the longer one are at least as large. *)
Theorem keyword_parts_monotone (info1 info2 : string) :
  substring_of info1 info2 ->
  let t1 := Py.lower info1 in
  let t2 := Py.lower info2 in
  (forall kw, kw ∈ (Evaluator.tech_scan t1).2 -> kw ∈ (Evaluator.tech_scan t2).2)
  /\ (forall kw, kw ∈ (Evaluator.industry_scan t1).2
                 -> kw ∈ (Evaluator.industry_scan t2).2)
  /\ Evaluator.tech_score t1 <= Evaluator.tech_score t2
  /\ Evaluator.industry_score t1 <= Evaluator.industry_score t2
  /\ Evaluator.growth_points t1 <= Evaluator.growth_points t2
  /\ Evaluator.data_need_points t1 <= Evaluator.data_need_points t2.
Proof.
  intros Hsub%substring_of_lower t1 t2. fold t1 t2 in Hsub.
  unfold Evaluator.tech_score, Evaluator.industry_score,
    Evaluator.tech_scan, Evaluator.industry_scan.
  rewrite !scan_keywords_spec. cbn [fst snd]. rewrite !Z.add_0_l, !app_nil_l.
  pose proof (matched_weights_mono _ t1 t2 tech_keywords_nonneg Hsub).
  pose proof (matched_weights_mono _ t1 t2 industry_keywords_nonneg Hsub).
  split; [|split; [|split; [|split; [|split]]]]; try lia.
  - intros kw [Hin Hkw]%found_keyword. apply found_keyword.
    split; [done|]. by apply (substring_of_trans kw t1 t2).
  - intros kw [Hin Hkw]%found_keyword. apply found_keyword.
    split; [done|]. by apply (substring_of_trans kw t1 t2).
  - destruct (growth_points_spec t1) as [[-> (kw & Hin & Hc)]|[-> _]];
      destruct (growth_points_spec t2) as [[-> _]|[-> Hno]]; try lia.
    exfalso. apply (Hno kw Hin). by apply (contains_mono kw t1 t2).
  - unfold Evaluator.data_need_points, Evaluator.data_need.
    destruct (existsb _ _) eqn:E1; [|case_match; lia].
    apply existsb_exists in E1 as (kw & Hin & Hc).
    assert (existsb (fun kw => Py.contains kw t2)
              Evaluator.data_need_keywords = true) as ->; [|done].
    apply existsb_exists. exists kw. split; [done|].
    by apply (contains_mono kw t1 t2).
Qed.

Lemma keyword_parts_monotone_witness :
  substring_of "web scraping" "We do web scraping at scale"
  /\ Evaluator.tech_score (Py.lower "web scraping")
     <= Evaluator.tech_score (Py.lower "We do web scraping at scale").
Proof.
  assert (substring_of "web scraping" "We do web scraping at scale") as H
    by (exists "We do ", " at scale"; reflexivity).
  split; [exact H|].
  by destruct (keyword_parts_monotone _ _ H) as (_ & _ & Ht & _).
Defined.

(** The size part does not grow with the text: a second count, read by an
    earlier pattern, replaces the first. *)
Example size_part_not_monotone :
  Evaluator.size_points (Py.lower "team of 500") = 15
  /\ Evaluator.size_points (Py.lower "team of 500, 5 employees") = 0.
Proof. vm_compute. split; reflexivity. Qed.

Lemma substring_of_cons (g s : string) (c : ascii) :
  substring_of g s -> substring_of g (String c s).
Proof.
  intros (pre & post & ->). exists (String c pre), post.
  by rewrite append_cons.
Qed.

Lemma substring_of_suffix (g pre s : string) :
  substring_of g s -> substring_of g (pre +:+ s).
Proof.
  intros (p & post & ->). exists (pre +:+ p), post. by rewrite append_assoc.
Qed.

Lemma substring_of_refl (s : string) : substring_of s s.
Proof. exists "", "". by rewrite append_nil_r. Qed.

Lemma substring_of_prefix (g rest : string) : substring_of g (g +:+ rest).
Proof. by exists "", rest. Qed.

(** The group of a match is a run of digits that occurs in the text. *)
Lemma match_here_group_occurs (p : Re.pattern) (g0 : option string) (s g : string) :
  digit_groups p ->
  Re.match_here p g0 s = Some g ->
  g0 = Some g
  \/ (g <> "" /\ all_chars Py.is_digit g = true /\ substring_of g s).
Proof.
  intros Hp; revert g0 s.
  induction Hp as [|it p Hit Hp IH]; intros g0 s; simpl; [by left|].
  destruct it as [c|c|cls|cls].
  - destruct s as [|c' s]; [done|]. destruct (Ascii.eqb c c'); [|done].
    intros [?|(? & ? & ?)]%IH; [by left|right].
    by split; [|split; [|apply substring_of_cons]].
  - assert (forall t, Re.match_here p g0 t = Some g -> substring_of t s ->
              g0 = Some g
              \/ (g <> "" /\ all_chars Py.is_digit g = true /\ substring_of g s))
      as Hgo.
    { intros t [?|(? & ? & ?)]%IH Hts; [by left|right].
      split; [done|]. split; [done|]. by apply (substring_of_trans g t s). }
    pose proof (substring_of_refl s) as Hss.
    destruct s as [|c' s]; [intros H; by apply (Hgo "")|].
    destruct (Ascii.eqb c c'); [|intros H; by apply (Hgo (String c' s))].
    destruct (Re.match_here p g0 s) eqn:E.
    + intros [= ->]. apply (Hgo s E).
      apply substring_of_cons, substring_of_refl.
    + intros H. by apply (Hgo (String c' s)).
  - intros (w & rest & _ & _ & -> & Hk)%plus_inv.
    apply IH in Hk as [?|(? & ? & ?)]; [by left|right].
    by split; [|split; [|apply substring_of_suffix]].
  - subst cls. intros (w & rest & Hne & Hw & -> & Hk)%plus_inv.
    rewrite append_nil_l in Hk. right.
    apply IH in Hk as [[= <-]|(? & ? & ?)].
    + split; [done|]. split; [done|]. apply substring_of_prefix.
    + by split; [|split; [|apply substring_of_suffix]].
Qed.

Lemma search_group_occurs (p : Re.pattern) (s g : string) :
  digit_groups p -> Re.search p s = Some g ->
  g <> "" /\ all_chars Py.is_digit g = true /\ substring_of g s.
Proof.
  intros Hp (pre & rest & -> & Hm & _)%search_leftmost.
  destruct (match_here_group_occurs _ _ _ _ Hp Hm) as [?|(? & ? & ?)]; [done|].
  by split; [|split; [|apply substring_of_suffix]].
Qed.

Lemma size_loop_source (ps : list Re.pattern) (text : string) (n : Z) :
  Forall digit_groups ps ->
  Evaluator.size_loop ps text = n -> n <> 0 ->
  exists g, all_chars Py.is_digit g = true /\ substring_of g text
            /\ Py.int g = Some n.
Proof.
  induction 1 as [|p ps Hp Hps IH]; simpl; [done|].
  destruct (Re.search p text) as [g|] eqn:Es; [|done].
  destruct (search_group_occurs p text g Hp Es) as (Hne & Hg & Hsub).
  rewrite (remove_commas_digits g Hg).
  destruct (Py.int g) as [m|] eqn:Hm; [|done].
  intros -> _. by exists g.
Qed.

(** A size is never made up: when an evaluation has a [company_size], that
    number is positive and is written in the lower-cased text as a run of
    digits. *)
Theorem company_size_is_in_the_text (company_name info : string)
    (user : option user_info) (n : Z) :
  company_size (Evaluator.evaluate_company company_name info user) = SizeKnown n ->
  0 < n
  /\ exists g, all_chars Py.is_digit g = true
               /\ substring_of g (Py.lower info)
               /\ Py.int g = Some n.
Proof.
  rewrite company_size_field. cbn zeta.
  destruct (0 <? Evaluator.extracted_size (Py.lower info)) eqn:E; [|done].
  apply Z.ltb_lt in E. intros [= <-]. split; [done|].
  apply (size_loop_source Evaluator.size_patterns);
    [apply size_patterns_digit_groups|done|lia].
Qed.

Lemma company_size_is_in_the_text_witness :
  0 < 120
  /\ exists g, all_chars Py.is_digit g = true
               /\ substring_of g (Py.lower "A team of 120 engineers")
               /\ Py.int g = Some 120.
Proof.
  apply (company_size_is_in_the_text "Acme" "A team of 120 engineers" None).
  vm_compute. reflexivity.
Defined.

(** * Further properties of the pipeline *)

Lemma length_slice_to {A} (n : Z) (l : list A) :
  (length (Py.slice_to n l) <= length l)%nat
  /\ (0 <= n -> Z.of_nat (length (Py.slice_to n l)) <= n).
Proof.
  unfold Py.slice_to. destruct (Z.ltb_spec n 0); rewrite length_take; lia.
Qed.

Lemma trace_fold_length (recs : list (string * user_info))
    (acc : list Agent.candidate * gset string) :
  (length (trace_fold recs acc).1 <= length acc.1 + length recs)%nat.
Proof.
  revert acc; induction recs as [|[u ui] recs IH]; intros acc; simpl; [lia|].
  unfold trace_fold in *. simpl. etrans; [apply IH|].
  rewrite trace_step_derived.
  destruct (derived_name ui); [case_bool_decide|]; simpl;
    rewrite ?length_app; simpl; lia.
Qed.

(** The candidates of a trace that ended without exception: no name twice,
    never more candidates than users read, nor than a limit that is not
    negative. *)
Lemma trace_calls_Ok (calls : list (string * Agent.resolve_result))
    (configured_max : Z) (cands : list Agent.candidate) :
  Agent.trace_calls calls configured_max = Agent.Ok cands ->
  NoDup (Agent.name <$> cands)
  /\ (length cands <= length calls)%nat
  /\ (0 <= configured_max -> Z.of_nat (length cands) <= configured_max).
Proof.
  unfold Agent.trace_calls.
  set (n := Z.min (Z.of_nat (length calls)) configured_max).
  intros (recs & HF & ->)%trace_loop_resolved.
  apply Forall2_length in HF.
  pose proof (trace_fold_length recs ([], ∅)) as Hlen. simpl in Hlen.
  pose proof (length_slice_to n calls) as [Hl Hn].
  pose proof (trace_fold_names recs ([], ∅)) as Hnames. simpl in Hnames.
  rewrite filter_all in Hnames by (intros x; apply not_elem_of_empty).
  split; [rewrite Hnames; apply first_seen_NoDup|].
  split; [lia|]. intros Hmax.
  assert (0 <= n) as Hn0 by (subst n; lia). specialize (Hn Hn0). subst n. lia.
Qed.

Lemma evaluate_company_score_range (company_name info : string)
    (user : option user_info) :
  0 <= score (Evaluator.evaluate_company company_name info user) <= 100.
Proof.
  rewrite score_evaluate_company.
  pose proof (tech_score_bounds (Py.lower info)).
  pose proof (industry_score_bounds (Py.lower info)).
  pose proof (size_tier_bounds (Evaluator.extracted_size (Py.lower info))) as Hs.
  fold (Evaluator.size_points (Py.lower info)) in Hs.
  pose proof (growth_points_bounds (Py.lower info)).
  pose proof (data_need_points_bounds (Py.lower info)).
  lia.
Qed.

Section PipelineResults.

Variable fetch_stargazers : string -> Z -> Agent.fetch_result.
Variable get_user_company : nat -> string -> Agent.resolve_result.
Variable search_company_info : nat -> string -> Agent.search_result.

Abbreviation fetch_node := (Agent.fetch_stargazers_node fetch_stargazers).
Abbreviation trace_node := (Agent.trace_companies_node get_user_company).
Abbreviation evaluate_node := (Agent.evaluate_companies_node search_company_info).
Abbreviation evaluate_one := (Agent.evaluate_one search_company_info).
Abbreviation run_agent :=
  (Agent.run_agent fetch_stargazers get_user_company search_company_info).
Abbreviation stages_run :=
  (Agent.stages_run fetch_stargazers get_user_company search_company_info).

Lemma evaluate_one_company (i : nat) (c : Agent.candidate) :
  ev_company (evaluate_one i c) = Agent.name c
  /\ ev_source_user (evaluate_one i c) = Some (Agent.source_user c)
  /\ ev_user_info (evaluate_one i c) = Some (Agent.c_user_info c)
  /\ 0 <= score (evaluate_one i c) <= 100.
Proof.
  unfold Agent.evaluate_one. cbn [ev_company ev_source_user ev_user_info score].
  split; [|split; [done|split; [done|apply evaluate_company_score_range]]].
  unfold Evaluator.evaluate_company. by cbn [ev_company].
Qed.

Lemma imap_evaluate_one_names (cs : list Agent.candidate) :
  ev_company <$> imap evaluate_one cs = Agent.name <$> cs.
Proof.
  rewrite fmap_imap. apply list_eq. intros i.
  rewrite list_lookup_imap, list_lookup_fmap.
  destruct (cs !! i) as [c|]; [|done].
  cbn [fmap option_fmap option_map compose].
  by destruct (evaluate_one_company i c) as [-> _].
Qed.

(** What the trace node leaves in the state: the companies it had, or the
    candidates of a trace that ended without exception. *)
Lemma trace_node_companies (st : Agent.AgentState) :
  (Agent.companies (trace_node st) = Agent.companies st
   /\ Py.truthy_opt (Agent.error (trace_node st)) = true)
  \/ (Agent.error (trace_node st) = Agent.error st
      /\ Agent.trace_calls
           (imap (fun i user => (user, get_user_company i user))
                 (Agent.stargazers st))
           (Agent.max_users st)
         = Agent.Ok (Agent.companies (trace_node st))).
Proof.
  unfold Agent.trace_companies_node.
  destruct (Agent.trace_calls _ _) as [cands|msg] eqn:E; [by right|left].
  split; [done|]. simpl. done || by apply truthy_append.
Qed.

Lemma fetch_node_limits (st : Agent.AgentState) :
  Agent.max_users (fetch_node st) = Agent.max_users st.
Proof.
  unfold Agent.fetch_stargazers_node.
  destruct (fetch_stargazers _ _) as [res|[|first res]|type_repr|msg];
    repeat case_match; done.
Qed.

(** The state in which a run ends: nothing found and nothing evaluated, or
    the candidates of a trace without exception, with their ranked
    evaluations. *)
Lemma run_final_state (repo : string) (max_stargazers max_users : Z) :
  exists st,
    (Agent.graph_invoke fetch_stargazers get_user_company search_company_info
       (Agent.initial_state repo max_stargazers max_users)).1 = Agent.Ok st
    /\ ((Agent.companies st = [] /\ Agent.evaluations st = [])
        \/ (Agent.trace_calls
              (imap (fun i user => (user, get_user_company i user))
                    (Agent.stargazers st))
              max_users
            = Agent.Ok (Agent.companies st)
            /\ Agent.evaluations st
               = Evaluator.rank_companies (imap evaluate_one (Agent.companies st)))).
Proof.
  rewrite graph_invoke_initial.
  set (st0 := Agent.initial_state repo max_stargazers max_users).
  set (st1 := fetch_node st0). set (st2 := trace_node st1).
  set (st3 := evaluate_node st2).
  assert (error_ok st0) as Hok0 by (by left).
  pose proof (run_node_error_ok fetch_stargazers get_user_company
                search_company_info Agent.Fetch st0 Hok0) as Hok1.
  simpl in Hok1. fold st1 in Hok1.
  destruct (fetch_node_spec fetch_stargazers st0) as (Hc1 & He1 & _).
  destruct (trace_node_spec get_user_company st1) as (Hs2 & He2 & _).
  pose proof (fetch_node_limits st0) as Hm1.
  fold st1 in Hc1, He1, Hm1. fold st2 in Hs2, He2.
  destruct (Agent.next_node Agent.Fetch st1) as [n1|] eqn:E1;
    [|exists st1; split; [done|by left]].
  pose proof (next_node_Some _ _ _ Hok1 E1) as Hnone1.
  destruct (trace_node_companies st1) as [[Hcomp Herr]|[Herr Hcalls]].
  - fold st2 in Hcomp, Herr. rewrite (next_node_error Agent.Trace st2 Herr).
    exists st2. split; [done|]. left. by rewrite Hcomp, Hc1, He2, He1.
  - fold st2 in Herr, Hcalls. rewrite Hm1 in Hcalls. simpl in Hcalls.
    destruct (Agent.next_node Agent.Trace st2) as [n2|] eqn:E2.
    + exists st3. split; [done|]. right. split; [|done].
      change (Agent.stargazers st3) with (Agent.stargazers st2).
      change (Agent.companies st3) with (Agent.companies st2).
      by rewrite Hs2.
    + exists st2. split; [done|]. left. split; [|by rewrite He2, He1].
      simpl in E2. rewrite Herr, Hnone1 in E2. simpl in E2.
      by case_bool_decide.
Qed.

(** The evaluations of any run are sorted by score from high to low, have
    scores between 0 and 100, name pairwise different companies, each with
    the user it was found through, and are as many as the companies
    found. *)
Theorem run_evaluations_ranked_and_distinct
    (repo : string) (max_stargazers max_users : Z) :
  let r := run_agent repo max_stargazers max_users in
  StronglySorted (fun a b => score b <= score a) (Agent.rr_evaluations r)
  /\ Forall (fun e => 0 <= score e <= 100 /\ is_Some (ev_source_user e))
            (Agent.rr_evaluations r)
  /\ NoDup (ev_company <$> Agent.rr_evaluations r)
  /\ length (Agent.rr_evaluations r) = Agent.total_companies r.
Proof.
  unfold Agent.run_agent.
  destruct (run_final_state repo max_stargazers max_users)
    as (st & -> & [[Hc He]|[Hcalls He]]); cbn [Agent.rr_evaluations Agent.total_companies].
  - rewrite He, Hc. repeat split; constructor.
  - rewrite He. apply trace_calls_Ok in Hcalls as (Hnd & _ & _).
    unfold Evaluator.rank_companies.
    pose proof (sorted_desc_perm score (imap evaluate_one (Agent.companies st)))
      as Hperm.
    split; [apply (sorted_desc_sorted score)|]. split; [|split].
    + rewrite Hperm. apply Forall_forall.
      intros e (i & c & -> & _)%elem_of_lookup_imap.
      destruct (evaluate_one_company i c) as (_ & -> & _ & Hs). by split.
    + rewrite Hperm, imap_evaluate_one_names. done.
    + by rewrite Hperm, length_imap.
Qed.

(** A run finds at most one company per stargazer, and at most [max_users]
    companies when that limit is not negative. *)
Theorem run_companies_bounded (repo : string) (max_stargazers max_users : Z) :
  let r := run_agent repo max_stargazers max_users in
  (Agent.total_companies r <= Agent.total_stargazers r)%nat
  /\ (0 <= max_users -> Z.of_nat (Agent.total_companies r) <= max_users).
Proof.
  unfold Agent.run_agent.
  destruct (run_final_state repo max_stargazers max_users)
    as (st & -> & [[Hc He]|[Hcalls He]]);
    cbn [Agent.total_stargazers Agent.total_companies].
  - rewrite Hc. simpl. split; lia.
  - apply trace_calls_Ok in Hcalls as (_ & Hlen & Hmax).
    rewrite length_imap in Hlen. done.
Qed.

End PipelineResults.

Lemma run_companies_bounded_witness :
  0 <= 2
  /\ Z.of_nat (Agent.total_companies
                 (Agent.run_agent fetch_three resolve_test search_test
                    "test/repo" 1000 2)) <= 2.
Proof.
  split; [lia|].
  apply (run_companies_bounded fetch_three resolve_test search_test
           "test/repo" 1000 2). lia.
Defined.

Lemma take_imap {A B} (f : nat -> A -> B) (n : nat) (l : list A) :
  take n (imap f l) = imap f (take n l).
Proof.
  revert f n; induction l as [|x l IH]; intros f [|n]; simpl; try done.
  by rewrite IH.
Qed.

Lemma slice_to_imap {A B} (f : nat -> A -> B) (n : Z) (l : list A) :
  Py.slice_to n (imap f l) = imap f (Py.slice_to n l).
Proof.
  unfold Py.slice_to. rewrite length_imap. by destruct (n <? 0); rewrite take_imap.
Qed.

(** The loop stops at the first call of the resolver that raises, with the
    message of that exception. *)
Lemma trace_loop_first_raise (calls : list (string * Agent.resolve_result))
    (acc : list Agent.candidate * gset string) (i : nat) (user msg : string) :
  calls !! i = Some (user, Agent.GotRaise msg) ->
  (forall (j : nat) (c : string * Agent.resolve_result),
      (j < i)%nat -> calls !! j = Some c -> forall m, c.2 <> Agent.GotRaise m) ->
  Agent.trace_loop calls acc = Agent.Raised msg.
Proof.
  revert acc i; induction calls as [|[u r] calls IH]; intros acc i; [done|].
  destruct i as [|i]; simpl.
  - by intros [= -> ->].
  - intros Hi Hbefore.
    destruct r as [d|repr|m]; simpl.
    + apply (IH _ i); [done|]. intros j c Hj. apply (Hbefore (S j)). lia.
    + apply (IH _ i); [done|]. intros j c Hj. apply (Hbefore (S j)). lia.
    + exfalso. by apply (Hbefore 0%nat (u, Agent.GotRaise m) ltac:(lia) eq_refl m).
Qed.

Section PipelineEdges.

Variable fetch_stargazers : string -> Z -> Agent.fetch_result.
Variable get_user_company : nat -> string -> Agent.resolve_result.
Variable search_company_info : nat -> string -> Agent.search_result.

Abbreviation run_agent :=
  (Agent.run_agent fetch_stargazers get_user_company search_company_info).
Abbreviation stages_run :=
  (Agent.stages_run fetch_stargazers get_user_company search_company_info).

(** A repository without stargazers is a success with nothing in it: the
    fetch node is the only one to run. *)
Theorem run_without_stargazers (repo : string) (max_stargazers max_users : Z) :
  fetch_stargazers repo max_stargazers = Agent.FetchList [] ->
  run_agent repo max_stargazers max_users = Agent.RunResult true None [] 0 0
  /\ fst <$> stages_run repo max_stargazers max_users = [Agent.Fetch].
Proof.
  intros Hfetch. unfold Agent.run_agent, Agent.stages_run.
  rewrite graph_invoke_initial. cbn zeta.
  set (st0 := Agent.initial_state repo max_stargazers max_users).
  assert (Agent.fetch_stargazers_node fetch_stargazers st0
          = Agent.set_stargazers st0 []) as ->.
  { unfold Agent.fetch_stargazers_node.
    change (fetch_stargazers (Agent.repo st0) (Agent.max_stargazers st0))
      with (fetch_stargazers repo max_stargazers).
    by rewrite Hfetch. }
  done.
Qed.

(** When a call of the resolver raises while the users are traced, the run
    fails with the message of the first such exception; the stargazers are
    counted, no company is kept and nothing is evaluated. *)
Theorem run_resolver_exception (repo : string) (max_stargazers max_users : Z)
    (first : string) (others : list string) (i : nat) (user msg : string) :
  let users := Py.slice_to (Z.min (Z.of_nat (length (first :: others))) max_users)
                 (first :: others) in
  fetch_stargazers repo max_stargazers = Agent.FetchList (first :: others) ->
  Py.startswith first "Error" = false ->
  users !! i = Some user ->
  get_user_company i user = Agent.GotRaise msg ->
  (forall (j : nat) (u : string),
      (j < i)%nat -> users !! j = Some u ->
      forall m, get_user_company j u <> Agent.GotRaise m) ->
  run_agent repo max_stargazers max_users
  = Agent.RunResult false (Some ("Error tracing companies: " +:+ msg)) []
      (S (length others)) 0
  /\ fst <$> stages_run repo max_stargazers max_users
     = [Agent.Fetch; Agent.Trace].
Proof.
  intros users Hfetch Hfirst Hi Hraise Hbefore.
  assert (Agent.trace_calls
            (imap (fun i user => (user, get_user_company i user)) (first :: others))
            max_users = Agent.Raised msg) as Htrace.
  { unfold Agent.trace_calls. rewrite length_imap, slice_to_imap. fold users.
    apply (trace_loop_first_raise _ _ i user).
    - by rewrite list_lookup_imap, Hi, <- Hraise.
    - intros j [u r] Hj Hc m. rewrite list_lookup_imap in Hc.
      destruct (users !! j) as [u'|] eqn:Eu; [|done].
      injection Hc as <- <-. by apply (Hbefore j u'). }
  unfold Agent.run_agent, Agent.stages_run.
  rewrite graph_invoke_initial. cbn zeta.
  set (st0 := Agent.initial_state repo max_stargazers max_users).
  assert (Agent.fetch_stargazers_node fetch_stargazers st0
          = Agent.set_stargazers st0 (first :: others)) as ->.
  { unfold Agent.fetch_stargazers_node.
    change (fetch_stargazers (Agent.repo st0) (Agent.max_stargazers st0))
      with (fetch_stargazers repo max_stargazers).
    by rewrite Hfetch, Hfirst. }
  assert (Agent.trace_companies_node get_user_company
            (Agent.set_stargazers st0 (first :: others))
          = Agent.set_exception (Agent.set_stargazers st0 (first :: others))
              ("Error tracing companies: " +:+ msg)) as ->.
  { unfold Agent.trace_companies_node.
    change (Agent.stargazers (Agent.set_stargazers st0 (first :: others)))
      with (first :: others).
    change (Agent.max_users (Agent.set_stargazers st0 (first :: others)))
      with max_users.
    by rewrite Htrace. }
  done.
Qed.

End PipelineEdges.

(** Tools for a run in which the resolver fails on the second user. *)
Lemma run_without_stargazers_witness :
  Agent.run_agent (fun _ _ => Agent.FetchList []) resolve_test search_test
    "empty/repo" 1000 100
  = Agent.RunResult true None [] 0 0.
Proof.
  by apply (run_without_stargazers (fun _ _ => Agent.FetchList [])
              resolve_test search_test "empty/repo" 1000 100).
Defined.

Lemma run_resolver_exception_witness :
  Agent.run_agent fetch_three
    (fun i u => match i with
                | 1%nat => Agent.GotRaise "boom"
                | _ => resolve_test i u
                end)
    search_test "test/repo" 1000 100
  = Agent.RunResult false (Some "Error tracing companies: boom") [] 3 0.
Proof.
  apply (run_resolver_exception fetch_three _ search_test "test/repo" 1000 100
           "user1" ["user2"; "user3"] 1 "user2" "boom").
  - reflexivity.
  - reflexivity.
  - reflexivity.
  - reflexivity.
  - intros [|j] u Hj; [|lia]. simpl. by intros _ m.
Defined.

(** * user_filters.py *)

Lemma sorted_desc_fmap {A B} (key : B -> Z) (g : A -> B) (l : list A) :
  Py.sorted_desc key (g <$> l) = g <$> Py.sorted_desc (fun a => key (g a)) l.
Proof.
  induction l as [|x l IH]; [done|].
  cbn [fmap list_fmap Py.sorted_desc foldr].
  fold (Py.sorted_desc key (g <$> l)).
  fold (Py.sorted_desc (fun a => key (g a)) l).
  rewrite IH. generalize (Py.sorted_desc (fun a => key (g a)) l) as sorted.
  induction sorted as [|y sorted IHs]; [done|].
  cbn [fmap list_fmap Py.insert_desc].
  destruct (key (g x) <? key (g y)); [|done].
  cbn [fmap list_fmap]. f_equal. apply IHs.
Qed.

Lemma slice_to_take {A} (n : Z) (l : list A) :
  exists k : nat, Py.slice_to n l = take k l.
Proof. unfold Py.slice_to. destruct (n <? 0); by eexists. Qed.

Lemma StronglySorted_app_le {A} (R : A -> A -> Prop) (l1 l2 : list A) :
  StronglySorted R (l1 ++ l2) ->
  StronglySorted R l1 /\ forall x y, x ∈ l1 -> y ∈ l2 -> R x y.
Proof.
  induction l1 as [|a l1 IH]; simpl.
  - intros _. split; [constructor|]. intros x y Hx. by apply elem_of_nil in Hx.
  - intros Hs. apply StronglySorted_inv in Hs as [Hs Hall].
    destruct (IH Hs) as [Hs1 Hle]. split.
    + constructor; [done|]. apply Forall_app in Hall. tauto.
    + intros x y [->|Hx]%elem_of_cons Hy; [|by apply Hle].
      rewrite Forall_forall in Hall. apply Hall, elem_of_app. by right.
Qed.

Lemma fmap_snd_paired {A B} (f : A -> B) (l : list A) :
  snd <$> ((fun a => (f a, a)) <$> l) = l.
Proof.
  induction l as [|x l IH]; [done|]. rewrite !fmap_cons. simpl. by f_equal.
Qed.

(** The priority of a user lies between 0 and 155, an explicit company is
    worth 50 by itself, and the organizations beyond the second add
    nothing. *)
Theorem priority_score_bounds (u : UserFilters.user_data) :
  0 <= UserFilters.calculate_user_priority_score u <= 155
  /\ (Py.truthy_opt (UserFilters.get (UserFilters.ud_company u)) = true ->
      50 <= UserFilters.calculate_user_priority_score u)
  /\ (forall o1 o2 more,
        UserFilters.ud_organizations u = o1 :: o2 :: more ->
        UserFilters.calculate_user_priority_score u
        = UserFilters.calculate_user_priority_score
            (UserFilters.UserData
               (UserFilters.ud_username u) (UserFilters.ud_company u) [o1; o2]
               (UserFilters.ud_bio u) (UserFilters.ud_blog u)
               (UserFilters.ud_location u))).
Proof.
  unfold UserFilters.calculate_user_priority_score.
  cbn [UserFilters.ud_company UserFilters.ud_organizations UserFilters.ud_bio
       UserFilters.ud_blog UserFilters.ud_location].
  split; [|split].
  - repeat case_match; lia.
  - intros ->. repeat case_match; lia.
  - intros o1 o2 more ->. simpl length. repeat case_match; lia.
Qed.

Lemma priority_score_bounds_witness :
  50 <= UserFilters.calculate_user_priority_score
          (UserFilters.UserData (UserFilters.Text "octo") (UserFilters.Text "Acme")
             ["a"; "b"; "c"] UserFilters.Null UserFilters.Missing
             (UserFilters.Text "Berlin")).
Proof.
  apply (priority_score_bounds
           (UserFilters.UserData (UserFilters.Text "octo") (UserFilters.Text "Acme")
              ["a"; "b"; "c"] UserFilters.Null UserFilters.Missing
              (UserFilters.Text "Berlin"))).
  reflexivity.
Defined.

(** [filter_and_rank_users] keeps the users of highest priority: what it
    returns and what it leaves out make up the users given, the users
    returned are in order of priority from high to low, none of them has a
    lower priority than a user left out, and with a limit that is not
    negative their number is the smaller of the limit and the number of
    users. *)
Theorem filter_and_rank_users_top (users : list UserFilters.user_data)
    (max_users : Z) :
  let prio := UserFilters.calculate_user_priority_score in
  let kept := UserFilters.filter_and_rank_users users max_users in
  exists dropped,
    kept ++ dropped ≡ₚ users
    /\ StronglySorted (fun a b => prio b <= prio a) kept
    /\ (forall k d, k ∈ kept -> d ∈ dropped -> prio d <= prio k)
    /\ (0 <= max_users ->
        Z.of_nat (length kept) = Z.min (Z.of_nat (length users)) max_users).
Proof.
  intros prio kept. subst kept. unfold UserFilters.filter_and_rank_users.
  rewrite sorted_desc_fmap, slice_to_fmap, fmap_snd_paired.
  cbn [fst]. fold prio.
  set (sorted := Py.sorted_desc prio users).
  pose proof (sorted_desc_perm prio users) as Hperm.
  pose proof (sorted_desc_sorted prio users) as Hsorted.
  fold sorted in Hperm, Hsorted.
  destruct (slice_to_take max_users sorted) as [k Hk].
  exists (drop k sorted). rewrite Hk, take_drop.
  rewrite <- (take_drop k sorted) in Hsorted.
  apply StronglySorted_app_le in Hsorted as [Hs Hle].
  split; [done|]. split; [done|]. split; [done|].
  intros Hmax. rewrite <- Hk.
  assert (length sorted = length users) as Hlen by (by rewrite Hperm).
  unfold Py.slice_to. rewrite (proj2 (Z.ltb_ge _ _) Hmax), length_take. lia.
Qed.

Lemma filter_and_rank_users_top_witness :
  0 <= 1
  /\ exists dropped,
       UserFilters.filter_and_rank_users
         [UserFilters.UserData UserFilters.Missing UserFilters.Null [] 
            UserFilters.Null UserFilters.Null UserFilters.Null;
          UserFilters.UserData UserFilters.Missing (UserFilters.Text "Acme") []
            UserFilters.Null UserFilters.Null UserFilters.Null] 1
       ++ dropped
       ≡ₚ [UserFilters.UserData UserFilters.Missing UserFilters.Null [] 
            UserFilters.Null UserFilters.Null UserFilters.Null;
          UserFilters.UserData UserFilters.Missing (UserFilters.Text "Acme") []
            UserFilters.Null UserFilters.Null UserFilters.Null].
Proof.
  split; [lia|].
  destruct (filter_and_rank_users_top
              [UserFilters.UserData UserFilters.Missing UserFilters.Null [] 
                 UserFilters.Null UserFilters.Null UserFilters.Null;
               UserFilters.UserData UserFilters.Missing (UserFilters.Text "Acme") []
                 UserFilters.Null UserFilters.Null UserFilters.Null] 1)
    as (dropped & Hperm & _).
  by exists dropped.
Defined.

Lemma any_in_spec (keywords : list string) (text : string) :
  PyText.any_in keywords text = true
  <-> exists kw, kw ∈ keywords /\ substring_of kw text.
Proof.
  unfold PyText.any_in. rewrite existsb_exists. split.
  - intros (kw & Hin%list_elem_of_In & Hc%contains_spec). by exists kw.
  - intros (kw & Hin%list_elem_of_In & Hc%contains_spec). by exists kw.
Qed.

Lemma digits_to_end_spec (s : string) :
  UserFilters.digits_to_end s = true
  <-> exists d, all_chars Py.is_digit d = true
                /\ (s = d \/ s = d +:+ String "010" "").
Proof.
  induction s as [|c s IH]; cbn [UserFilters.digits_to_end].
  - split; [by exists ""; split; [|left]|done].
  - destruct (Py.is_digit c) eqn:Ec.
    + rewrite IH. split.
      * intros (d & Hd & Hs). exists (String c d). simpl. rewrite Ec, Hd.
        split; [done|]. rewrite append_cons. destruct Hs as [->| ->]; auto.
      * intros ([|c' d] & Hd & Hs).
        { destruct Hs as [Hs|Hs]; [done|]. rewrite append_nil_l in Hs.
          injection Hs as -> _. done. }
        simpl in Hd. apply andb_true_iff in Hd as [_ Hd].
        rewrite append_cons in Hs. exists d. split; [done|].
        destruct Hs as [[= _ ->]|[= _ ->]]; auto.
    + rewrite andb_true_iff, Ascii.eqb_eq. split.
      * intros [-> Hs]. destruct s; [|done]. exists "". split; [done|]. by right.
      * intros ([|c' d] & Hd & Hs).
        { destruct Hs as [Hs|Hs]; [done|]. rewrite append_nil_l in Hs.
          by injection Hs as -> ->. }
        simpl in Hd. apply andb_true_iff in Hd as [Hc' _].
        rewrite append_cons in Hs.
        destruct Hs as [[= -> _]|[= -> _]]; congruence.
Qed.

(** [is_likely_individual_account] raises when the username is [None];
    otherwise it flags exactly the accounts whose lower-cased username is
    a number (digits only, a final line feed apart) or holds "test", "demo"
    or "student", and those whose lower-cased bio holds a hobby keyword. *)
Theorem individual_account_flag (u : UserFilters.user_data) :
  (UserFilters.ud_username u = UserFilters.Null ->
   UserFilters.is_likely_individual_account u
   = Agent.Raised PyText.none_has_no_lower)
  /\ (forall name,
        UserFilters.get_default (UserFilters.ud_username u) "" = Some name ->
        let username := Py.lower name in
        let bio := Py.lower (PyText.or_empty
                               (UserFilters.get (UserFilters.ud_bio u))) in
        exists flag,
          UserFilters.is_likely_individual_account u = Agent.Ok flag
          /\ (flag = true <->
              (exists d, d <> "" /\ all_chars Py.is_digit d = true
                         /\ (username = d \/ username = d +:+ String "010" ""))
              \/ substring_of "test" username
              \/ substring_of "demo" username
              \/ substring_of "student" username
              \/ exists kw, kw ∈ UserFilters.hobby_keywords
                             /\ substring_of kw bio)).
Proof.
  unfold UserFilters.is_likely_individual_account. split; [by intros ->|].
  intros name ->.
  set (username := Py.lower name).
  set (bio := Py.lower (PyText.or_empty (UserFilters.get (UserFilters.ud_bio u)))).
  assert (existsb (fun p => UserFilters.search_individual p username)
            UserFilters.individual_patterns = true
          <-> (exists d, d <> "" /\ all_chars Py.is_digit d = true
                         /\ (username = d \/ username = d +:+ String "010" ""))
              \/ substring_of "test" username
              \/ substring_of "demo" username
              \/ substring_of "student" username) as Hpat.
  { clearbody username.
    cbn [existsb UserFilters.individual_patterns UserFilters.search_individual].
    rewrite orb_false_r, !orb_true_iff, !contains_spec.
    assert ((match username with
             | "" => false
             | String c _ => Py.is_digit c && UserFilters.digits_to_end username
             end) = true
            <-> exists d, d <> "" /\ all_chars Py.is_digit d = true
                          /\ (username = d \/ username = d +:+ String "010" ""))
      as ->; [|tauto].
    destruct username as [|c rest].
    - split; [done|]. by intros ([|c d] & Hne & _ & [H|H]).
    - rewrite andb_true_iff, digits_to_end_spec. split.
      + intros [Hc (d & Hd & Hs)]. exists d. split; [|done].
        intros ->. destruct Hs as [Hs|Hs]; [done|].
        rewrite append_nil_l in Hs. injection Hs as -> _. done.
      + intros ([|c' d] & Hne & Hd & Hs); [done|]. split; [|by exists (String c' d)].
        simpl in Hd. apply andb_true_iff in Hd as [Hc' _].
        rewrite append_cons in Hs. destruct Hs as [[= -> _]|[= -> _]]; done. }
  pose proof (any_in_spec UserFilters.hobby_keywords bio) as Hbio.
  destruct (existsb _ UserFilters.individual_patterns).
  - exists true. split; [done|]. split; [intros _|done].
    destruct (proj1 Hpat eq_refl) as [?|[?|[?|?]]]; auto.
  - destruct (PyText.any_in UserFilters.hobby_keywords bio).
    + exists true. split; [done|]. split; [intros _|done].
      do 4 right. by apply Hbio.
    + exists false. split; [done|]. split; [done|].
      intros [H|[H|[H|[H|H]]]].
      * by apply (proj2 Hpat); left.
      * by apply (proj2 Hpat); right; left.
      * by apply (proj2 Hpat); right; right; left.
      * by apply (proj2 Hpat); right; right; right.
      * by apply Hbio.
Qed.

Lemma individual_account_flag_witness :
  exists flag,
    UserFilters.is_likely_individual_account
      (UserFilters.UserData (UserFilters.Text "ConTester") UserFilters.Null []
         UserFilters.Null UserFilters.Null UserFilters.Null) = Agent.Ok flag
    /\ (substring_of "test" (Py.lower "ConTester") -> flag = true).
Proof.
  destruct (individual_account_flag
              (UserFilters.UserData (UserFilters.Text "ConTester") UserFilters.Null []
                 UserFilters.Null UserFilters.Null UserFilters.Null))
    as [_ H].
  destruct (H "ConTester" eq_refl) as (flag & Hflag & Hiff).
  exists flag. split; [exact Hflag|]. intros Hsub. apply Hiff. right. left. exact Hsub.
Defined.

Lemma get_default_None (e : UserFilters.entry) (d : string) :
  UserFilters.get_default e d = None <-> e = UserFilters.Null.
Proof. by destruct e. Qed.

Lemma extract_company_signals_raised (u : UserFilters.user_data) :
  UserFilters.ud_company u = UserFilters.Null
  \/ UserFilters.ud_bio u = UserFilters.Null ->
  UserFilters.extract_company_signals u = Agent.Raised PyText.none_has_no_lower.
Proof.
  unfold UserFilters.extract_company_signals.
  intros [Hc|Hb].
  - by rewrite Hc.
  - rewrite Hb. cbn [UserFilters.get_default].
    destruct (UserFilters.get_default (UserFilters.ud_company u) "") as [c|];
      [|done].
    by destruct (PyText.any_in _ (Py.lower c)).
Qed.

Lemma extract_company_signals_Ok (u : UserFilters.user_data) (c b : string) :
  UserFilters.get_default (UserFilters.ud_company u) "" = Some c ->
  UserFilters.get_default (UserFilters.ud_bio u) "" = Some b ->
  UserFilters.extract_company_signals u
  = Agent.Ok
      (UserFilters.Signals
         (if Py.truthy c && (3 <? String.length c)%nat then "high"
          else match UserFilters.ud_organizations u with
               | _ :: _ => "medium"
               | [] => "low"
               end)
         (if PyText.any_in ["inc"; "corp"; "ltd"; "gmbh"] (Py.lower c)
          then "corporation"
          else if PyText.any_in ["startup"; "founder"] (Py.lower b)
               then "startup" else "unknown")
         (if PyText.any_in ["fortune 500"; "enterprise"] (Py.lower b)
          then "large"
          else if Py.contains "startup" (Py.lower b) then "small"
               else "unknown")).
Proof.
  unfold UserFilters.extract_company_signals. intros -> ->.
  cbn [Py.truthy_opt PyText.or_empty].
  destruct (PyText.any_in ["inc"; "corp"; "ltd"; "gmbh"] (Py.lower c)); [done|].
  by destruct (PyText.any_in ["startup"; "founder"] (Py.lower b)).
Qed.

(** [extract_company_signals] raises exactly when the company or the bio
    is [None], as they are in the records of users without a company.
    When it returns, the confidence is high exactly for a company name of
    more than three characters, and a small size hint never comes with an
    unknown company type. *)
Theorem company_signals_behaviour (u : UserFilters.user_data) :
  ((exists msg, UserFilters.extract_company_signals u = Agent.Raised msg)
   <-> UserFilters.ud_company u = UserFilters.Null
       \/ UserFilters.ud_bio u = UserFilters.Null)
  /\ (forall s, UserFilters.extract_company_signals u = Agent.Ok s ->
        (UserFilters.confidence s = "high"
         <-> exists c, UserFilters.ud_company u = UserFilters.Text c
                       /\ (3 < String.length c)%nat)
        /\ (UserFilters.size_hint s = "small"
            -> UserFilters.company_type s <> "unknown")).
Proof.
  destruct (UserFilters.get_default (UserFilters.ud_company u) "") as [c|] eqn:Ec;
    [destruct (UserFilters.get_default (UserFilters.ud_bio u) "") as [b|] eqn:Eb|].
  - rewrite (extract_company_signals_Ok u c b Ec Eb). split.
    + split; [by intros [msg H]|].
      intros [H|H]; apply (get_default_None _ "") in H; congruence.
    + intros s [= <-]. cbn [UserFilters.confidence UserFilters.size_hint
                            UserFilters.company_type].
      split.
      * destruct (Py.truthy c && (3 <? String.length c)%nat) eqn:E.
        -- apply andb_true_iff in E as [Ht E]. apply Nat.ltb_lt in E.
           split; [intros _|done]. exists c. split; [|done].
           destruct (UserFilters.ud_company u); simplify_eq/=; done.
        -- split; [by repeat case_match|]. intros (c' & Hc' & Hlen).
           rewrite Hc' in Ec. injection Ec as ->.
           apply andb_false_iff in E as [E|E].
           ++ destruct c; [simpl in Hlen; lia|done].
           ++ apply Nat.ltb_ge in E. lia.
      * destruct (Py.contains "fortune 500" (Py.lower b) || _);
          [intros H; discriminate H|].
        destruct (Py.contains "startup" (Py.lower b)) eqn:Es;
          [|intros H; discriminate H].
        intros _. rewrite orb_true_l.
        destruct (Py.contains "inc" (Py.lower c) || _); intros H; discriminate H.
  - apply get_default_None in Eb.
    rewrite (extract_company_signals_raised u (or_intror Eb)).
    split; [|done]. split; [by right|by eexists].
  - apply get_default_None in Ec.
    rewrite (extract_company_signals_raised u (or_introl Ec)).
    split; [|done]. split; [by left|by eexists].
Qed.

Lemma company_signals_behaviour_witness :
  exists msg,
    UserFilters.extract_company_signals
      (UserFilters.UserData (UserFilters.Text "octo") UserFilters.Null ["org"]
         UserFilters.Missing UserFilters.Missing UserFilters.Missing)
    = Agent.Raised msg.
Proof.
  apply (company_signals_behaviour
           (UserFilters.UserData (UserFilters.Text "octo") UserFilters.Null ["org"]
              UserFilters.Missing UserFilters.Missing UserFilters.Missing)).
  by left.
Defined.

(** * tools.py *)

Lemma truthy_append_r (a b : string) :
  Py.truthy b = true -> Py.truthy (a +:+ b) = true.
Proof. destruct a as [|c a]; [done|]. by rewrite append_cons. Qed.

(** The lookup of a company never answers with an empty text, whatever the
    scraping service does: the default text of the evaluate node for an
    empty answer is never needed after it. *)
Theorem search_company_info_not_empty (sgai : option Tools.client)
    (company_name : string) :
  Py.truthy (Tools.search_company_info sgai company_name) = true.
Proof.
  unfold Tools.search_company_info, Tools.could_not_find.
  repeat case_match; subst; try done; try (by apply truthy_append).
  all: try match goal with
           | H : Py.truthy ?i && _ = true |- Py.truthy ?i = true =>
               by apply andb_true_iff in H as [? _]
           end.
Qed.

Lemma rstrip_tail (c : ascii) (s : string) :
  Py.rstrip (String c s) = String c s -> Py.rstrip s = s.
Proof.
  cbn [Py.rstrip]. destruct (Py.rstrip s) as [|d r] eqn:E.
  - destruct (Py.is_space c); [done|]. by intros [= <-].
  - by intros [= <-].
Qed.

Lemma lstrip_char_rstrip (c : ascii) (s : string) :
  Py.rstrip s = s -> Py.rstrip (PyText.lstrip_char c s) = PyText.lstrip_char c s.
Proof.
  induction s as [|c' s IH]; [done|]. intros Hs. cbn [PyText.lstrip_char].
  destruct (Ascii.eqb c' c); [|done]. apply IH. by apply (rstrip_tail c').
Qed.

Lemma lstrip_char_head (c : ascii) (s : string) :
  match PyText.lstrip_char c s with
  | String c' _ => c' <> c
  | EmptyString => True
  end.
Proof.
  induction s as [|c' s IH]; [done|]. cbn [PyText.lstrip_char].
  destruct (Ascii.eqb c' c) eqn:E; [done|]. by apply Ascii.eqb_neq.
Qed.

(** The name that is looked up has no "@" at its start and no white space
    at its end; white space that follows the leading "@" stays. *)
Theorem clean_company_name_shape (company_name : string) :
  Py.startswith (Tools.clean_company_name company_name) "@" = false
  /\ Py.rstrip (Tools.clean_company_name company_name)
     = Tools.clean_company_name company_name
  /\ Tools.clean_company_name "@ acme" = " acme".
Proof.
  unfold Tools.clean_company_name. split; [|split; [|done]].
  - pose proof (lstrip_char_head "@" (Py.strip company_name)) as H.
    destruct (Py.startswith _ "@") eqn:E; [|done].
    apply prefix_spec in E as [post E]. rewrite E, append_cons in H. done.
  - apply lstrip_char_rstrip. unfold Py.strip. apply rstrip_idemp.
Qed.

Lemma contains_append_l (kw a b : string) :
  Py.contains kw a = true -> Py.contains kw (a +:+ b) = true.
Proof.
  intros (pre & post & ->)%contains_spec. apply contains_spec.
  exists pre, (post +:+ b). by rewrite !append_assoc.
Qed.

Lemma tech_scan_ai (text : string) :
  Py.contains "ai" text = true ->
  "ai" ∈ (Evaluator.tech_scan text).2 /\ 10 <= Evaluator.tech_score text.
Proof.
  intros Hai. unfold Evaluator.tech_score, Evaluator.tech_scan.
  rewrite scan_keywords_spec. cbn [fst snd]. rewrite Z.add_0_l, app_nil_l. split.
  - apply found_keyword. split; [|by apply contains_spec].
    apply list_elem_of_here.
  - change Evaluator.tech_keywords
      with ([("ai", 10)] ++ tl Evaluator.tech_keywords).
    rewrite matched_app, fmap_app, sum_Z_app.
    assert (0 <= sum_Z (snd <$> matched (tl Evaluator.tech_keywords) text)).
    { apply matched_weights_nonneg. pose proof tech_keywords_nonneg as H.
      by apply Forall_cons in H as [_ H]. }
    unfold matched at 1. rewrite filter_cons, filter_nil.
    rewrite decide_True by exact Hai. cbn [fmap list_fmap snd sum_Z foldr]. lia.
Qed.

(** Without an API key the lookup of a company answers with the fixed
    sentence and the cleaned name; the word "detailed" of that sentence holds
    the keyword "ai", so the company is evaluated with "ai" among its
    technologies and a score of at least 10. *)
Theorem lookup_without_api_key (company_name : string) (user : option user_info) :
  company_name <> "" ->
  let info := Tools.search_company_info None company_name in
  let e := Evaluator.evaluate_company company_name info user in
  info = "Could not find detailed information for "
         +:+ Tools.clean_company_name company_name
  /\ "ai" ∈ (Evaluator.tech_scan (Py.lower info)).2
  /\ 10 <= score e
  /\ reasons e <> [].
Proof.
  intros Hname info e.
  assert (info = "Could not find detailed information for "
                 +:+ Tools.clean_company_name company_name) as Hinfo.
  { subst info. unfold Tools.search_company_info.
    destruct company_name; [done|]. reflexivity. }
  assert (Py.contains "ai" (Py.lower info) = true) as Hai.
  { rewrite Hinfo, lower_app. by apply contains_append_l. }
  destruct (tech_scan_ai _ Hai) as [Hfound Hscore].
  split; [done|]. split; [done|].
  assert (10 <= score e) as Hs.
  { subst e. rewrite score_evaluate_company.
    pose proof (industry_score_bounds (Py.lower info)).
    pose proof (size_tier_bounds (Evaluator.extracted_size (Py.lower info))) as Hsz.
    fold (Evaluator.size_points (Py.lower info)) in Hsz.
    pose proof (growth_points_bounds (Py.lower info)).
    pose proof (data_need_points_bounds (Py.lower info)). lia. }
  split; [done|]. subst e. rewrite reasons_evaluate_company. cbn zeta.
  destruct (Evaluator.tech_scan (Py.lower info)).2 as [|kw kws];
    [by apply elem_of_nil in Hfound|].
  intros H. by repeat (apply app_nil in H as [H _]).
Qed.

Lemma lookup_without_api_key_witness :
  10 <= score (Evaluator.evaluate_company "Bakery"
                 (Tools.search_company_info None "Bakery") None).
Proof.
  by apply (lookup_without_api_key "Bakery" None).
Defined.

Lemma pick_official_url_acc (company_name : string) (urls : list string)
    (official_url : string) :
  let r := Tools.pick_official_url company_name urls official_url in
  r = official_url \/ r ∈ urls.
Proof.
  revert official_url; induction urls as [|url urls IH]; intros acc; simpl;
    [by left|].
  repeat case_match.
  - right. apply list_elem_of_here.
  - destruct (IH acc) as [?|?]; [by left|right; by apply list_elem_of_further].
  - destruct (IH url) as [->|?]; right;
      [apply list_elem_of_here|by apply list_elem_of_further].
  - destruct (IH acc) as [?|?]; [by left|right; by apply list_elem_of_further].
Qed.

Lemma pick_official_url_no_blank (company_name : string) (urls : list string)
    (official_url : string) :
  PyText.replace_char " " "" (Py.lower company_name) = Py.lower company_name ->
  let r := Tools.pick_official_url company_name urls official_url in
  r = official_url
  \/ (r ∈ urls
      /\ Py.contains (Py.lower company_name) (Py.lower r) = true
      /\ PyText.any_in Tools.skip_words r = false).
Proof.
  intros Hname. revert official_url. cbn zeta.
  induction urls as [|url urls IH]; intros acc; cbn [Tools.pick_official_url];
    [by left|].
  rewrite Hname.
  destruct (Py.contains (Py.lower company_name) (Py.lower url)) eqn:Ec.
  - destruct (PyText.any_in Tools.skip_words url) eqn:Es; cbn [negb].
    + destruct (IH acc) as [?|(? & ? & ?)]; [by left|right].
      split; [by apply list_elem_of_further|done].
    + right. split; [apply list_elem_of_here|done].
  - rewrite andb_false_r.
    destruct (IH acc) as [?|(? & ? & ?)]; [by left|right].
    split; [by apply list_elem_of_further|done].
Qed.

(** The official URL of a company is empty or one of the reference URLs.
    For a name without blanks the LinkedIn page is never taken: the URL
    found holds the lower-cased name and none of the skip words. *)
Theorem official_url_choice (company_name : string) (urls : list string) :
  let r := Tools.pick_official_url company_name urls "" in
  (r = "" \/ r ∈ urls)
  /\ (PyText.replace_char " " "" (Py.lower company_name) = Py.lower company_name ->
      r = ""
      \/ (r ∈ urls
          /\ substring_of (Py.lower company_name) (Py.lower r)
          /\ forall skip, skip ∈ Tools.skip_words -> ~ substring_of skip r)).
Proof.
  intros r. split; [apply pick_official_url_acc|].
  intros Hname.
  destruct (pick_official_url_no_blank company_name urls "" Hname)
    as [?|(Hin & Hc & Hs)]; [by left|right].
  split; [done|]. split; [by apply contains_spec|].
  intros skip Hskip Hsub.
  assert (PyText.any_in Tools.skip_words r = true) as Hany
    by (apply any_in_spec; by exists skip).
  fold r in Hs. congruence.
Qed.

Lemma official_url_choice_witness :
  PyText.replace_char " " "" (Py.lower "Acme") = Py.lower "Acme"
  /\ Tools.pick_official_url "Acme"
       ["https://en.wikipedia.org/wiki/Acme";
        "https://www.linkedin.com/company/acme";
        "https://acme.example"] ""
     <> "https://en.wikipedia.org/wiki/Acme".
Proof.
  split; [reflexivity|].
  destruct (official_url_choice "Acme"
              ["https://en.wikipedia.org/wiki/Acme";
               "https://www.linkedin.com/company/acme";
               "https://acme.example"]) as [_ H].
  destruct (H eq_refl) as [->|(_ & _ & Hskip)]; [discriminate|].
  intros Heq. apply (Hskip "wikipedia").
  - apply list_elem_of_here.
  - rewrite Heq. exists "https://en.", ".org/wiki/Acme". reflexivity.
Defined.

Section FetchStargazers.

Variable get_repo : string -> string -> Agent.result unit.
Variable get_page : string -> string -> Z -> Agent.result (list string).
Variable unpack_error : list string -> string.

Abbreviation fetch_loop := (Tools.fetch_loop get_page).
Abbreviation fetch_stargazers_within :=
  (Tools.fetch_stargazers_within get_repo get_page unpack_error).

(** Every page that does not end the loop adds a login, so the loop ends
    within as many iterations as logins are missing, and one more. *)
Lemma fetch_loop_ends (fuel : nat) (owner repo_name : string) (max_stargazers : Z)
    (page : Z) (stargazers : list string) :
  (Z.to_nat (max_stargazers - Z.of_nat (length stargazers)) < fuel)%nat ->
  exists r, fetch_loop fuel owner repo_name max_stargazers page stargazers = Some r.
Proof.
  revert page stargazers; induction fuel as [|fuel IH]; intros page acc Hfuel;
    [lia|].
  cbn [Tools.fetch_loop].
  destruct (get_page owner repo_name page) as [[|login data]|e]; [by eexists| |by eexists].
  destruct (Z.leb_spec max_stargazers
              (Z.of_nat (length (acc ++ login :: data)))); [by eexists|].
  apply IH. rewrite length_app in *. simpl in *. lia.
Qed.

Lemma fetch_loop_more_fuel (fuel fuel' : nat) (owner repo_name : string)
    (max_stargazers page : Z) (stargazers : list string)
    (r : Agent.result (list string)) :
  (fuel <= fuel')%nat ->
  fetch_loop fuel owner repo_name max_stargazers page stargazers = Some r ->
  fetch_loop fuel' owner repo_name max_stargazers page stargazers = Some r.
Proof.
  revert fuel' page stargazers; induction fuel as [|fuel IH];
    intros [|fuel'] page acc Hle; try done; [lia|].
  cbn [Tools.fetch_loop].
  destruct (get_page owner repo_name page) as [[|login data]|e]; try done.
  destruct (max_stargazers <=? _); [done|]. apply IH. lia.
Qed.

Lemma fetch_loop_length (fuel : nat) (owner repo_name : string)
    (max_stargazers page per_page : Z) (stargazers result : list string) :
  (forall p data, get_page owner repo_name p = Agent.Ok data ->
                  Z.of_nat (length data) <= per_page) ->
  0 <= per_page ->
  Z.of_nat (length stargazers) <= Z.max 0 (max_stargazers - 1) ->
  fetch_loop fuel owner repo_name max_stargazers page stargazers
  = Some (Agent.Ok result) ->
  Z.of_nat (length result) <= Z.max 0 (max_stargazers - 1) + per_page.
Proof.
  intros Hpage Hpp. revert page stargazers.
  induction fuel as [|fuel IH]; intros page acc Hacc; [done|].
  cbn [Tools.fetch_loop].
  destruct (get_page owner repo_name page) as [[|login data]|e] eqn:Eg;
    [intros [= <-]; lia| |done].
  pose proof (Hpage page _ Eg) as Hlen.
  destruct (Z.leb_spec max_stargazers
              (Z.of_nat (length (acc ++ login :: data)))) as [Hle|Hlt].
  - intros [= <-]. rewrite length_app. lia.
  - apply IH. lia.
Qed.

(** [fetch_stargazers] ends: past [max_stargazers] iterations the bound on
    its loop no longer matters, and it gives one and the same list. *)
Theorem fetch_stargazers_ends (repo : string) (max_stargazers : Z) :
  exists stargazers,
    forall fuel, (Z.to_nat max_stargazers < fuel)%nat ->
      fetch_stargazers_within fuel repo max_stargazers = Some stargazers.
Proof.
  unfold Tools.fetch_stargazers_within.
  destruct (PyText.split_char "/" repo) as [|owner [|repo_name [|? ?]]];
    try (by eexists).
  destruct (get_repo owner repo_name) as [[]|e]; [|by eexists].
  destruct (fetch_loop_ends (S (Z.to_nat max_stargazers)) owner repo_name
              max_stargazers 1 []) as [r Hr]; [simpl; lia|].
  exists (match r with Agent.Ok l => l | Agent.Raised e => Tools.fetch_error e end).
  intros fuel Hfuel.
  rewrite (fetch_loop_more_fuel (S (Z.to_nat max_stargazers)) fuel owner
             repo_name max_stargazers 1 [] r); [by destruct r|lia|done].
Qed.

(** The limit is checked after a page is added: [fetch_stargazers] may
    return more than [max_stargazers] logins, but fewer than one page
    more. *)
Theorem fetch_stargazers_length (fuel : nat) (repo : string)
    (max_stargazers per_page : Z) (stargazers : list string) :
  1 <= per_page ->
  (forall owner repo_name p data,
      get_page owner repo_name p = Agent.Ok data ->
      Z.of_nat (length data) <= per_page) ->
  fetch_stargazers_within fuel repo max_stargazers = Some stargazers ->
  Z.of_nat (length stargazers) <= Z.max 0 (max_stargazers - 1) + per_page.
Proof.
  intros Hpp Hpage. unfold Tools.fetch_stargazers_within.
  destruct (PyText.split_char "/" repo) as [|owner [|repo_name [|? ?]]];
    try (intros [= <-]; unfold Tools.fetch_error; simpl; lia).
  destruct (get_repo owner repo_name) as [[]|e]; [|intros [= <-]; unfold Tools.fetch_error; simpl; lia].
  destruct (fetch_loop fuel owner repo_name max_stargazers 1 [])
    as [[l|e]|] eqn:El; [|intros [= <-]; unfold Tools.fetch_error; simpl; lia|done].
  intros [= <-].
  apply (fetch_loop_length fuel owner repo_name max_stargazers 1 per_page [] l);
    [by apply Hpage|lia|simpl; lia|done].
Qed.

End FetchStargazers.

Lemma fetch_stargazers_ends_witness :
  exists stargazers,
    Tools.fetch_stargazers_within repo_found pages_of_three unpack_message
      6 "owner/name" 5 = Some stargazers.
Proof.
  destruct (fetch_stargazers_ends repo_found pages_of_three unpack_message
              "owner/name" 5) as [l H].
  exists l. apply H. simpl. lia.
Defined.

Lemma fetch_stargazers_length_witness :
  Z.of_nat (length ["ann"; "bob"; "cyd"]) <= Z.max 0 (2 - 1) + 3.
Proof.
  apply (fetch_stargazers_length repo_found pages_of_three unpack_message
           3 "owner/name" 2 3 ["ann"; "bob"; "cyd"]).
  - lia.
  - intros owner repo_name p data. unfold pages_of_three.
    repeat case_match; intros [= <-]; simpl; lia.
  - reflexivity.
Defined.

(** The limit may be passed: with a limit of 2 and pages of three logins,
    three logins are returned. *)
Example fetch_stargazers_passes_limit :
  Tools.fetch_stargazers_within repo_found pages_of_three unpack_message
    3 "owner/name" 2 = Some ["ann"; "bob"; "cyd"]
  /\ Tools.fetch_stargazers_within repo_found pages_of_three unpack_message
       6 "owner/name" 5 = Some ["ann"; "bob"; "cyd"; "dan"].
Proof. split; reflexivity. Qed.

Section ToolsInPipeline.

Variable fetch_stargazers : string -> Z -> Agent.fetch_result.
Variable get_user_company : nat -> string -> Agent.resolve_result.
Variable search_company_info : nat -> string -> Agent.search_result.

(** A list whose first entry starts with "Error" is taken for a failure
    of the fetch, whatever follows: the run fails with that entry as its
    error and no stargazer is kept. *)
Theorem run_first_entry_error (repo : string) (max_stargazers max_users : Z)
    (first : string) (others : list string) :
  fetch_stargazers repo max_stargazers = Agent.FetchList (first :: others) ->
  Py.startswith first "Error" = true ->
  Agent.run_agent fetch_stargazers get_user_company search_company_info
    repo max_stargazers max_users
  = Agent.RunResult false (Some first) [] 0 0.
Proof.
  intros Hfetch Hfirst. unfold Agent.run_agent.
  rewrite graph_invoke_initial. cbn zeta.
  set (st0 := Agent.initial_state repo max_stargazers max_users).
  assert (Agent.fetch_stargazers_node fetch_stargazers st0
          = Agent.set_fetch_error st0 first) as ->.
  { unfold Agent.fetch_stargazers_node.
    change (fetch_stargazers (Agent.repo st0) (Agent.max_stargazers st0))
      with (fetch_stargazers repo max_stargazers).
    by rewrite Hfetch, Hfirst. }
  assert (Py.truthy first = true) as Ht
    by (by apply (truthy_startswith first "Error")).
  cbn [Agent.next_node Agent.error Agent.set_fetch_error Agent.stargazers
       Py.truthy_opt].
  rewrite Ht. cbn. by rewrite Ht.
Qed.

End ToolsInPipeline.

Lemma run_first_entry_error_witness :
  Agent.run_agent (fun _ _ => Agent.FetchList ["ErrorProne"; "bob"])
    resolve_test search_test "owner/name" 1000 100
  = Agent.RunResult false (Some "ErrorProne") [] 0 0.
Proof.
  apply (run_first_entry_error (fun _ _ => Agent.FetchList ["ErrorProne"; "bob"])
           resolve_test search_test "owner/name" 1000 100 "ErrorProne" ["bob"]);
    reflexivity.
Defined.

Section RealTools.

Variable get_repo : string -> string -> Agent.result unit.
Variable get_page : string -> string -> Z -> Agent.result (list string).
Variable unpack_error : list string -> string.
Variable get_user : string -> Agent.result (option string).
Variable get_orgs : string -> Agent.result (list string).
Variable search_company_info : nat -> string -> Agent.search_result.

(** A repository that is not written owner/name makes the run fail before
    any request, with the message of the failed unpacking. *)
Theorem run_bad_repository (repo : string) (max_stargazers max_users : Z) :
  length (PyText.split_char "/" repo) <> 2%nat ->
  Agent.run_agent (fetch_tool get_repo get_page unpack_error)
    (resolve_tool get_user get_orgs) search_company_info
    repo max_stargazers max_users
  = Agent.RunResult false
      (Some ("Error fetching stargazers: "
             +:+ unpack_error (PyText.split_char "/" repo))) [] 0 0.
Proof.
  intros Hpieces.
  apply (run_first_entry_error _ _ _ repo max_stargazers max_users _ []);
    [|by apply prefix_spec; eexists].
  unfold fetch_tool, Tools.fetch_stargazers_within.
  by destruct (PyText.split_char "/" repo) as [|owner [|repo_name [|? ?]]].
Qed.

Lemma imap_resolve_tool (users : list string) :
  imap (fun i user => (user, resolve_tool get_user get_orgs i user)) users
  = prod_map id Agent.GotDict
      <$> ((fun user => (user, Tools.get_user_company get_user get_orgs user))
             <$> users).
Proof.
  rewrite <- list_fmap_compose. apply list_eq. intros i.
  rewrite list_lookup_imap, list_lookup_fmap. by destruct (users !! i).
Qed.

(** [get_user_company] answers a failed request with a record that holds
    the error; the trace stage takes no candidate from such a record, and
    with this resolver it never ends in an error. *)
Theorem resolver_failures_are_skipped :
  (forall st,
      Agent.error (Agent.trace_companies_node (resolve_tool get_user get_orgs) st)
      = Agent.error st)
  /\ (forall username acc,
        ui_error (Tools.get_user_company get_user get_orgs username) <> None ->
        Agent.trace_step acc username
          (Tools.get_user_company get_user get_orgs username) = acc).
Proof.
  split.
  - intros st. unfold Agent.trace_companies_node, Agent.trace_calls.
    rewrite imap_resolve_tool, slice_to_fmap, trace_loop_dicts. done.
  - intros username acc. unfold Tools.get_user_company.
    destruct (get_user username) as [company|e]; [|done].
    destruct (get_orgs username) as [orgs|e]; done.
Qed.

End RealTools.

Lemma run_bad_repository_witness :
  Agent.run_agent (fetch_tool repo_found pages_of_three unpack_message)
    (resolve_tool profile_fails no_orgs) search_test "no-slash" 1000 100
  = Agent.RunResult false
      (Some "Error fetching stargazers: not two values to unpack") [] 0 0.
Proof.
  apply (run_bad_repository repo_found pages_of_three unpack_message
           profile_fails no_orgs search_test "no-slash" 1000 100).
  vm_compute. lia.
Defined.

Lemma resolver_failures_are_skipped_witness :
  Agent.trace_step ([], ∅) "ann"
    (Tools.get_user_company profile_fails no_orgs "ann") = ([], ∅).
Proof.
  apply (resolver_failures_are_skipped profile_fails no_orgs).
  discriminate.
Defined.

(** * app.py *)

Lemma filter_sorted_take (min_score : Z) (l : list evaluation) :
  StronglySorted (fun a b => score b <= score a) l ->
  filter (fun e => min_score <= score e) l
  = take (length (filter (fun e => min_score <= score e) l)) l.
Proof.
  induction 1 as [|x l Hl IH Hx]; [done|].
  rewrite filter_cons. destruct (decide (min_score <= score x)) as [Hm|Hm].
  - simpl. by rewrite <- IH.
  - assert (filter (fun e => min_score <= score e) l = []) as ->; [|done].
    clear IH Hl. induction Hx as [|y l Hy Hx IH]; [done|].
    rewrite filter_cons, decide_False by lia. done.
Qed.

Lemma take_slice_to {A} (n : Z) (k : nat) (l : list A) :
  exists k', Py.slice_to n (take k l) = take k' l.
Proof.
  destruct (slice_to_take n (take k l)) as [j ->].
  exists (Nat.min j k). by rewrite take_take.
Qed.

Section Display.

Variable fetch_stargazers : string -> Z -> Agent.fetch_result.
Variable get_user_company : nat -> string -> Agent.resolve_result.
Variable search_company_info : nat -> string -> Agent.search_result.

Lemma run_evaluations_sorted (repo : string) (max_stargazers max_users : Z) :
  StronglySorted (fun a b => score b <= score a)
    (Agent.rr_evaluations
       (Agent.run_agent fetch_stargazers get_user_company search_company_info
          repo max_stargazers max_users)).
Proof.
  unfold Agent.run_agent.
  destruct (run_final_state fetch_stargazers get_user_company search_company_info
              repo max_stargazers max_users)
    as (st & -> & [[_ He]|[_ He]]); cbn [Agent.rr_evaluations]; rewrite He.
  - constructor.
  - apply (sorted_desc_sorted score).
Qed.

(** What the page shows after a run is the top of the ranking: the first
    evaluations of the run, all of at least the minimum score, no more than
    the maximum number; when fewer than that maximum are shown, every
    evaluation of at least the minimum score is shown. *)
Theorem shown_is_top_of_ranking (repo : string) (max_stargazers max_users : Z)
    (min_score max_results : Z) :
  let evaluations :=
    Agent.rr_evaluations
      (Agent.run_agent fetch_stargazers get_user_company search_company_info
         repo max_stargazers max_users) in
  let shown := App.shown evaluations min_score max_results in
  (exists k : nat, shown = take k evaluations)
  /\ Forall (fun e => min_score <= score e) shown
  /\ (0 <= max_results -> Z.of_nat (length shown) <= max_results)
  /\ (Z.of_nat (length shown) < max_results ->
      forall e, e ∈ evaluations -> min_score <= score e -> e ∈ shown).
Proof.
  intros evaluations shown.
  pose proof (run_evaluations_sorted repo max_stargazers max_users) as Hsorted.
  fold evaluations in Hsorted. clearbody evaluations.
  subst shown. unfold App.shown.
  set (good := filter (fun e => min_score <= score e) evaluations).
  assert (Forall (fun e => min_score <= score e) good) as Hgood.
  { apply Forall_forall. by intros e [? _]%list_elem_of_filter. }
  split; [|split; [|split]].
  - unfold good. rewrite (filter_sorted_take min_score evaluations Hsorted).
    apply take_slice_to.
  - destruct (slice_to_take max_results good) as [k ->].
    by apply Forall_take.
  - apply length_slice_to.
  - unfold Py.slice_to. destruct (Z.ltb_spec max_results 0) as [Hneg|Hpos];
      [rewrite length_take; lia|].
    rewrite length_take. intros Hlen e He Hscore.
    rewrite take_ge by lia. by apply list_elem_of_filter.
Qed.

End Display.

Lemma shown_is_top_of_ranking_witness :
  0 <= 2
  /\ Z.of_nat
       (length (App.shown
                  (Agent.rr_evaluations
                     (Agent.run_agent fetch_three resolve_test search_test
                        "test/repo" 1000 100)) 30 2)) <= 2.
Proof.
  split; [lia|].
  apply (shown_is_top_of_ranking fetch_three resolve_test search_test
           "test/repo" 1000 100 30 2). lia.
Defined.

(** * Further properties of the ranker and of the evaluate node *)

Lemma sorted_desc_of_sorted {A} (key : A -> Z) (l : list A) :
  StronglySorted (fun a b => key b <= key a) l -> Py.sorted_desc key l = l.
Proof.
  induction 1 as [|x l Hl IH Hx]; [done|].
  cbn [Py.sorted_desc foldr]. fold (Py.sorted_desc key l). rewrite IH.
  destruct Hx as [|y l Hy _]; [done|]. cbn [Py.insert_desc].
  by rewrite (proj2 (Z.ltb_ge _ _) Hy).
Qed.

(** Ranking a ranked list changes nothing. *)
Theorem rank_companies_idempotent (evaluations : list evaluation) :
  Evaluator.rank_companies (Evaluator.rank_companies evaluations)
  = Evaluator.rank_companies evaluations.
Proof.
  unfold Evaluator.rank_companies.
  apply sorted_desc_of_sorted, (sorted_desc_sorted score).
Qed.

Lemma recommendation_tiers_witness :
  recommendation (Evaluator.evaluate_company "Acme" scenario_A None)
  = "Medium Priority".
Proof.
  destruct (recommendation_tiers "Acme" scenario_A None) as (_ & [_ H] & _).
  apply H. vm_compute. split; [discriminate|reflexivity].
Defined.

Lemma no_reason_iff_zero_score_witness :
  summary (Evaluator.evaluate_company "Shop" "a small shop" None)
  = "Not Recommended - Limited relevant indicators found".
Proof.
  apply (no_reason_iff_zero_score "Shop" "a small shop" None).
  vm_compute. reflexivity.
Defined.

Section Lookups.

Variable fetch_stargazers : string -> Z -> Agent.fetch_result.
Variable get_user_company : nat -> string -> Agent.resolve_result.

Lemma run_agent_without_evaluations (search : nat -> string -> Agent.search_result)
    (repo : string) (max_stargazers max_users : Z) :
  let st2 := Agent.trace_companies_node get_user_company
               (Agent.fetch_stargazers_node fetch_stargazers
                  (Agent.initial_state repo max_stargazers max_users)) in
  let st1 := Agent.fetch_stargazers_node fetch_stargazers
               (Agent.initial_state repo max_stargazers max_users) in
  let r := Agent.run_agent fetch_stargazers get_user_company search
             repo max_stargazers max_users in
  (Agent.success r, Agent.rr_error r, Agent.total_stargazers r,
   Agent.total_companies r)
  = match Agent.next_node Agent.Fetch st1 with
    | None => (negb (Py.truthy_opt (Agent.error st1)), Agent.error st1,
               length (Agent.stargazers st1), length (Agent.companies st1))
    | Some _ => (negb (Py.truthy_opt (Agent.error st2)), Agent.error st2,
                 length (Agent.stargazers st2), length (Agent.companies st2))
    end.
Proof.
  cbn zeta. unfold Agent.run_agent. rewrite graph_invoke_initial. cbn zeta.
  destruct (Agent.next_node Agent.Fetch _); [|done].
  by destruct (Agent.next_node Agent.Trace _).
Qed.

Lemma run_evaluations_length (search : nat -> string -> Agent.search_result)
    (repo : string) (max_stargazers max_users : Z) :
  length (Agent.rr_evaluations
            (Agent.run_agent fetch_stargazers get_user_company search
               repo max_stargazers max_users))
  = Agent.total_companies
      (Agent.run_agent fetch_stargazers get_user_company search
         repo max_stargazers max_users).
Proof.
  unfold Agent.run_agent.
  destruct (run_final_state fetch_stargazers get_user_company search
              repo max_stargazers max_users)
    as (st & -> & [[Hc He]|[_ He]]);
    cbn [Agent.rr_evaluations Agent.total_companies]; rewrite He.
  - by rewrite Hc.
  - unfold Evaluator.rank_companies.
    by rewrite (sorted_desc_perm score), length_imap.
Qed.

(** The lookups of the companies have no part in the outcome of a run:
    whatever they answer or raise, the run succeeds or fails alike, with
    the same error and the same numbers of stargazers and companies. *)
Theorem run_outcome_ignores_lookups
    (search1 search2 : nat -> string -> Agent.search_result)
    (repo : string) (max_stargazers max_users : Z) :
  let r1 := Agent.run_agent fetch_stargazers get_user_company search1
              repo max_stargazers max_users in
  let r2 := Agent.run_agent fetch_stargazers get_user_company search2
              repo max_stargazers max_users in
  Agent.success r1 = Agent.success r2
  /\ Agent.rr_error r1 = Agent.rr_error r2
  /\ Agent.total_stargazers r1 = Agent.total_stargazers r2
  /\ Agent.total_companies r1 = Agent.total_companies r2
  /\ length (Agent.rr_evaluations r1) = length (Agent.rr_evaluations r2).
Proof.
  intros r1 r2.
  pose proof (run_agent_without_evaluations search1 repo max_stargazers max_users)
    as H1.
  pose proof (run_agent_without_evaluations search2 repo max_stargazers max_users)
    as H2.
  cbn zeta in H1, H2. fold r1 in H1. fold r2 in H2.
  rewrite <- H2 in H1. injection H1 as Hs He Hn Hc.
  repeat split; try done.
  subst r1 r2. by rewrite !run_evaluations_length.
Qed.

(** The text of an exception of the lookup is scored as if it described
    the company: the keywords of the message count for the evaluation. *)
Theorem lookup_exception_is_scored
    (search : nat -> string -> Agent.search_result)
    (i : nat) (c : Agent.candidate) (msg : string) :
  search i (Agent.name c) = Agent.SearchRaise msg ->
  score (Agent.evaluate_one search i c)
  = score (Evaluator.evaluate_company (Agent.name c)
             ("Error retrieving information: " +:+ msg)
             (Some (Agent.c_user_info c)))
  /\ Evaluator.tech_score (Py.lower msg) <= score (Agent.evaluate_one search i c).
Proof.
  intros Hraise. unfold Agent.evaluate_one. rewrite Hraise. split; [done|].
  cbn [score]. rewrite score_evaluate_company.
  set (text := Py.lower ("Error retrieving information: " +:+ msg)).
  assert (substring_of (Py.lower msg) text) as Hsub.
  { subst text. rewrite lower_app. apply substring_of_suffix, substring_of_refl. }
  assert (Evaluator.tech_score (Py.lower msg) <= Evaluator.tech_score text) as Hmono.
  { unfold Evaluator.tech_score, Evaluator.tech_scan.
    rewrite !scan_keywords_spec. cbn [fst]. rewrite !Z.add_0_l.
    pose proof (matched_weights_mono _ _ _ tech_keywords_nonneg Hsub). lia. }
  pose proof (tech_score_bounds text).
  pose proof (industry_score_bounds text).
  pose proof (size_tier_bounds (Evaluator.extracted_size text)) as Hsz.
  fold (Evaluator.size_points text) in Hsz.
  pose proof (growth_points_bounds text).
  pose proof (data_need_points_bounds text). lia.
Qed.

End Lookups.

Lemma lookup_exception_is_scored_witness :
  Evaluator.tech_score (Py.lower "API rate limit exceeded")
  <= score (Agent.evaluate_one (fun _ _ => Agent.SearchRaise "API rate limit exceeded")
              0 (Agent.Candidate "Acme" "ann" account_0)).
Proof.
  apply (lookup_exception_is_scored
           (fun _ _ => Agent.SearchRaise "API rate limit exceeded") 0
           (Agent.Candidate "Acme" "ann" account_0) "API rate limit exceeded").
  reflexivity.
Defined.
